(** * BOOKFORGE: job table, dashboard poller, billing webhook, credit reset

    A shallow embedding of the parts of the repository that carry the
    job-workflow behaviour:

    - [Schema]: the tables of [supabase/migrations] (profiles,
      subscriptions, book_jobs) with their CHECK constraints, row level
      security policies and the [set_updated_at] trigger;
    - [JS]: the JavaScript idioms the pages and routes rely on;
    - [Dashboard]: [runResearch] and [generateBook] of the dashboard page,
      including the status polling loop;
    - [StripeWebhook]: the [POST] handler of the Stripe webhook route;
    - [CreditReset]: [isAuthorized] and [POST] of the credit reset route.

    [Observations] and [Samples] hold the notions and the concrete data
    the properties are stated with; the properties follow them. *)

From stdpp Require Import base option strings list gmap.
From Stdlib Require Import ZArith Lia Ascii.

(** ** Database schema *)

Module Schema.

Definition uuid := string.
Abbreviation timestamptz := Z.
Definition jsonb := string.

(** [public.profiles]; the key of the table is the [id] column. *)
Record profile := Profile {
  email : string;
  full_name : option string;
  plan : option string;
  credits_remaining : option Z;
  stripe_customer_id : option string;
  profile_updated_at : timestamptz
}.

(** [public.subscriptions]; the key of the table is the [id] column. *)
Record subscription := Subscription {
  sub_user_id : uuid;
  stripe_subscription_id : option string;
  sub_stripe_customer_id : option string;
  sub_plan : string;
  sub_status : string;
  current_period_end : option timestamptz;
  cancel_at_period_end : option bool;
  sub_updated_at : timestamptz
}.

(** [public.book_jobs]; the key of the table is the [id] column. *)
Record book_job := BookJob {
  user_id : uuid;
  status : string;
  progress : Z;
  step : option string;
  request_json : option jsonb;
  result_json : option jsonb;
  error : option string;
  created_at : timestamptz;
  updated_at : timestamptz
}.

Record database := Database {
  profiles : gmap uuid profile;
  subscriptions : gmap uuid subscription;
  book_jobs : gmap uuid book_job
}.

Inductive sql_error :=
| RlsViolation
| CheckViolation
| UniqueViolation
| ForeignKeyViolation.

(** [check (plan in ('starter', 'pro', 'enterprise'))]; a NULL passes. *)
Definition plan_check (p : option string) : bool :=
  match p with
  | None => true
  | Some s => bool_decide (s ∈ ["starter"; "pro"; "enterprise"])
  end.

(** [check (status in ('queued', 'running', 'completed', 'failed'))] *)
Definition status_check (s : string) : bool :=
  bool_decide (s ∈ ["queued"; "running"; "completed"; "failed"]).

(** [check (progress >= 0 and progress <= 100)] *)
Definition progress_check (p : Z) : bool :=
  (0 <=? p)%Z && (p <=? 100)%Z.

Definition job_checks (r : book_job) : bool :=
  status_check (status r) && progress_check (progress r).

(** The two terminal states of the job state machine. *)
Definition terminal (r : book_job) : bool :=
  bool_decide (status r = "completed") || bool_decide (status r = "failed").

(** The values of an [insert into book_jobs]: a column left out
    ([None]) takes its default, which is NULL where none is declared. *)
Record job_values := JobValues {
  v_user_id : uuid;
  v_status : option string;
  v_progress : option Z;
  v_step : option string;
  v_request_json : option jsonb;
  v_result_json : option jsonb;
  v_error : option string
}.

Definition new_job (now : timestamptz) (v : job_values) : book_job :=
  {| user_id := v_user_id v;
     status := default "queued" (v_status v);
     progress := default 0%Z (v_progress v);
     step := v_step v;
     request_json := v_request_json v;
     result_json := v_result_json v;
     error := v_error v;
     created_at := now;
     updated_at := now |}.

(** The SET clause of an [update book_jobs]: [None] leaves the column. *)
Record job_patch := JobPatch {
  set_user_id : option uuid;
  set_status : option string;
  set_progress : option Z;
  set_step : option (option string);
  set_result_json : option (option jsonb);
  set_error : option (option string)
}.

(** The new row of an update, after the [book_jobs_updated_at] trigger
    ([set_updated_at]: [new.updated_at = now()]). *)
Definition patched (now : timestamptz) (p : job_patch) (r : book_job) : book_job :=
  {| user_id := default (user_id r) (set_user_id p);
     status := default (status r) (set_status p);
     progress := default (progress r) (set_progress p);
     step := default (step r) (set_step p);
     request_json := request_json r;
     result_json := default (result_json r) (set_result_json p);
     error := default (error r) (set_error p);
     created_at := created_at r;
     updated_at := now |}.

Definition with_jobs (d : database) (t : gmap uuid book_job) : database :=
  {| profiles := profiles d; subscriptions := subscriptions d; book_jobs := t |}.

(** The policy expression [auth.uid() = user_id] shared by the three
    policies on [book_jobs]. *)
Definition owns (uid : uuid) (r : book_job) : bool :=
  bool_decide (uid = user_id r).

(** [insert into book_jobs] by the authenticated user [uid], under the
    policy "Users can insert own book jobs" ([with check]). *)
Definition insert_job (uid : uuid) (now : timestamptz) (id : uuid)
    (v : job_values) (d : database) : sql_error + database :=
  let r := new_job now v in
  if negb (owns uid r) then inl RlsViolation
  else if negb (job_checks r) then inl CheckViolation
  else if bool_decide (is_Some (book_jobs d !! id)) then inl UniqueViolation
  else if bool_decide (is_Some (profiles d !! user_id r))
       then inr (with_jobs d (<[id := r]> (book_jobs d)))
       else inl ForeignKeyViolation.

(** [update book_jobs set ... where id = $id] by the authenticated user
    [uid], under the policy "Users can update own book jobs": a row the
    [using] expression hides is skipped (no row is updated); the new
    row must pass the same expression and the table's constraints (the
    two expressions keep [user_id] equal to [uid], so the foreign key is
    not touched).  The result carries the number of rows updated. *)
Definition update_job (uid : uuid) (now : timestamptz) (id : uuid)
    (p : job_patch) (d : database) : sql_error + (database * nat) :=
  match book_jobs d !! id with
  | None => inr (d, 0)
  | Some r =>
      if negb (owns uid r) then inr (d, 0)
      else
        let r' := patched now p r in
        if negb (owns uid r') then inl RlsViolation
        else if negb (job_checks r') then inl CheckViolation
        else inr (with_jobs d (<[id := r']> (book_jobs d)), 1)
  end.

(** [select * from book_jobs] by the authenticated user [uid], under
    the policy "Users can view own book jobs". *)
Definition select_jobs (uid : uuid) (d : database) : gmap uuid book_job :=
  filter (λ kr, owns uid kr.2 = true) (book_jobs d).

(** [select * from book_jobs where id = $id]: at most one row. *)
Definition select_job (uid : uuid) (id : uuid) (d : database) : option book_job :=
  select_jobs uid d !! id.

End Schema.

(** ** JavaScript idioms used by the pages *)

Module JS.

(** [x || d] on a string that may be absent: [undefined], [null] and the
    empty string are falsy. *)
Definition str_or (x : option string) (d : string) : string :=
  match x with
  | Some s => if bool_decide (s = "") then d else s
  | None => d
  end.

(** [x || null] on a string that may be absent. *)
Definition str_or_null (x : option string) : option string :=
  match x with
  | Some s => if bool_decide (s = "") then None else Some s
  | None => None
  end.

(** [!x] on a string that may be absent. *)
Definition falsy (x : option string) : bool :=
  match x with
  | Some s => bool_decide (s = "")
  | None => true
  end.

(** [xs.join(sep)] *)
Fixpoint join (sep : string) (xs : list string) : string :=
  match xs with
  | [] => ""
  | [x] => x
  | x :: rest => x +:+ sep +:+ join sep rest
  end.

(** What a [fetch] followed by reading the body gives when it settles:
    the promise of [fetch] rejects (network failure, a [TypeError] with
    a message), or a response arrives with its [ok] flag, its body as
    text, and the body as [json()] reads it ([inl]: [json()] throws with
    a message). *)
Record response (A : Type) := Response {
  ok : bool;
  text : string;
  json : string + A
}.
Arguments Response {A} _ _ _.
Arguments ok {A} _.
Arguments text {A} _.
Arguments json {A} _.

Inductive fetched (A : Type) :=
| Rejected (message : string)
| Settled (r : response A).
Arguments Rejected {A} _.
Arguments Settled {A} _.

(** A JavaScript number written as a decimal literal:
    [4.99] is [Dec 499 2]. *)
Inductive number := Dec (unscaled : Z) (scale : nat).

(** A value read from or written as JSON. *)
#[local] Unset Elimination Schemes.
Inductive value :=
| JNull
| JBool (b : bool)
| JNum (n : number)
| JStr (s : string)
| JArr (xs : list value)
| JObj (fields : list (string * value)).
#[local] Set Elimination Schemes.

(** A [NextRequest]: its headers, by lower-case name (the lookup of
    [headers.get] ignores case), and its body as text. *)
Record request := {
  headers : gmap string string;
  body : string
}.

Definition header (name : string) (req : request) : option string :=
  headers req !! name.

(** A [NextResponse.json(body, { status })]. *)
Record reply := {
  status_code : Z;
  reply_body : value
}.

End JS.

(** ** The dashboard page *)

Module Dashboard.
Import JS.

(** *** Types of the page *)

Inductive plan_tier := Starter | Pro | Enterprise.

Inductive ai_model := Claude | Gpt5.

Inductive Step := Idle | Researching | ResearchDone | Generating | Done.

Record Opportunity := {
  genre : string;
  subgenre : string;
  demand_score : Z;
  competition_level : string;
  trend_direction : string;
  suggested_price_ebook : number;
  suggested_price_paperback : number;
  target_audience : string;
  keywords : list string;
  why_now : string;
  estimated_monthly_revenue : string
}.

Record ResearchResult := {
  opportunities : list Opportunity;
  market_summary : string;
  recommended_opportunity : Opportunity;
  research_sources : list string
}.

Record Chapter := {
  number : Z;
  title : string;
  summary : option string;
  content : option string
}.

Record Outline := {
  outline_title : option string;
  subtitle : option string;
  back_cover_description : option string;
  chapters : option (list Chapter)
}.

Record GeneratedBookResponse := {
  outline : option Outline;
  chapter_1_preview : option string;
  amazon_listing : option (list (string * value));
  cover_prompt : option string;
  full_chapters : option (list Chapter);
  cover_image_base64 : option string;
  cover_image_mime_type : option string;
  book_id : option string;
  plan_used : option plan_tier;
  credits_remaining : option Z;
  pdf_url : option string;
  epub_url : option string;
  cover_image_url : option string;
  audiobook_url : option string;
  generation_notes : option (list string);
  notification_sent : option bool
}.

(** The value kept in the [generatedBook] state. *)
Record GeneratedBook := {
  bookTitle : string;
  chapter1Preview : string;
  coverPrompt : string;
  amazonListing : list (string * value);
  bookOutline : option Outline;
  fullChapters : option (list Chapter);
  coverImageBase64 : option string;
  coverImageMimeType : option string;
  bookId : option string;
  pdfUrl : option string;
  epubUrl : option string;
  coverImageUrl : option string;
  audiobookUrl : option string;
  creditsRemaining : option Z;
  generationNotes : list string
}.

(** The component's state ([useState]). *)
Record state := {
  user_email : option string;
  plan : plan_tier;
  step : Step;
  topic : string;
  targetAge : string;
  research : option ResearchResult;
  selectedOpportunity : option Opportunity;
  aiModel : ai_model;
  generationProgress : Z;
  generationStep : string;
  generatedBook : option GeneratedBook;
  error : option string
}.

(** The state setters a handler calls, in the order it calls them. *)
Inductive ui_event :=
| SetPlan (p : plan_tier)
| SetStep (s : Step)
| SetResearch (r : ResearchResult)
| SetSelectedOpportunity (o : Opportunity)
| SetGenerationProgress (p : Z)
| SetGenerationStep (s : string)
| SetGeneratedBook (b : GeneratedBook)
| SetError (e : option string).

Definition apply_event (st : state) (e : ui_event) : state :=
  match e with
  | SetPlan p =>
      {| user_email := user_email st; plan := p; step := step st;
         topic := topic st; targetAge := targetAge st; research := research st;
         selectedOpportunity := selectedOpportunity st; aiModel := aiModel st;
         generationProgress := generationProgress st;
         generationStep := generationStep st;
         generatedBook := generatedBook st; error := error st |}
  | SetStep s =>
      {| user_email := user_email st; plan := plan st; step := s;
         topic := topic st; targetAge := targetAge st; research := research st;
         selectedOpportunity := selectedOpportunity st; aiModel := aiModel st;
         generationProgress := generationProgress st;
         generationStep := generationStep st;
         generatedBook := generatedBook st; error := error st |}
  | SetResearch r =>
      {| user_email := user_email st; plan := plan st; step := step st;
         topic := topic st; targetAge := targetAge st; research := Some r;
         selectedOpportunity := selectedOpportunity st; aiModel := aiModel st;
         generationProgress := generationProgress st;
         generationStep := generationStep st;
         generatedBook := generatedBook st; error := error st |}
  | SetSelectedOpportunity o =>
      {| user_email := user_email st; plan := plan st; step := step st;
         topic := topic st; targetAge := targetAge st; research := research st;
         selectedOpportunity := Some o; aiModel := aiModel st;
         generationProgress := generationProgress st;
         generationStep := generationStep st;
         generatedBook := generatedBook st; error := error st |}
  | SetGenerationProgress p =>
      {| user_email := user_email st; plan := plan st; step := step st;
         topic := topic st; targetAge := targetAge st; research := research st;
         selectedOpportunity := selectedOpportunity st; aiModel := aiModel st;
         generationProgress := p;
         generationStep := generationStep st;
         generatedBook := generatedBook st; error := error st |}
  | SetGenerationStep s =>
      {| user_email := user_email st; plan := plan st; step := step st;
         topic := topic st; targetAge := targetAge st; research := research st;
         selectedOpportunity := selectedOpportunity st; aiModel := aiModel st;
         generationProgress := generationProgress st;
         generationStep := s;
         generatedBook := generatedBook st; error := error st |}
  | SetGeneratedBook b =>
      {| user_email := user_email st; plan := plan st; step := step st;
         topic := topic st; targetAge := targetAge st; research := research st;
         selectedOpportunity := selectedOpportunity st; aiModel := aiModel st;
         generationProgress := generationProgress st;
         generationStep := generationStep st;
         generatedBook := Some b; error := error st |}
  | SetError e =>
      {| user_email := user_email st; plan := plan st; step := step st;
         topic := topic st; targetAge := targetAge st; research := research st;
         selectedOpportunity := selectedOpportunity st; aiModel := aiModel st;
         generationProgress := generationProgress st;
         generationStep := generationStep st;
         generatedBook := generatedBook st; error := e |}
  end.

(** The state after a handler's setter calls. *)
Definition render (st : state) (evs : list ui_event) : state :=
  foldl apply_event st evs.

(** The body of a generation request ([payload] of [generateBook]). *)
Record payload := {
  req_genre : string;
  req_subgenre : string;
  req_target_audience : string;
  req_keywords : list string;
  page_count : Z;
  tone : string;
  language : string;
  req_ai_model : ai_model;
  req_plan : plan_tier;
  generate_full_book : bool;
  generate_cover_image : bool;
  generate_audiobook : bool;
  recipient_email : option string;
  req_demand_score : Z;
  estimated_revenue : string
}.

(** The requests the page sends to the API. *)
Inductive api_request :=
| PostResearchAnalyze (topic : option string) (target_age : string)
| PostGenerate (p : payload)
| PostGenerateAsync (p : payload)
| GetJob (job_id : string)
| PostAudiobook (title : string) (text : string).

(** The body of a job status response, as [generateBook] reads it: a
    field is [None] when it is absent or [null]; [job_progress] is
    [Some] exactly when [typeof status.progress === "number"]. *)
Record job_status := {
  job_state : option string;
  job_progress : option Z;
  job_step : option string;
  job_result : option GeneratedBookResponse;
  job_error : option string
}.

(** *** Mock data of the page *)

Definition mockResearch : ResearchResult :=
  {| market_summary :=
       "The romance market is experiencing its strongest cycle in over a decade, driven by BookTok and Kindle Unlimited's binge-reading culture. Dark romance and fated mates tropes are dominating discovery algorithms.";
     research_sources := ["Amazon Bestsellers"; "BookTok Feb 2026"; "KDP data"];
     recommended_opportunity :=
       {| genre := "Romance";
          subgenre := "Fated Mates Shifter Romance";
          demand_score := 91;
          competition_level := "medium";
          trend_direction := "rising";
          suggested_price_ebook := Dec 499 2;
          suggested_price_paperback := Dec 1499 2;
          target_audience := "Women 25-45, Kindle Unlimited subscribers";
          keywords :=
            ["fated mates romance"; "wolf shifter romance"; "paranormal romance";
             "alpha mate"; "dark romance"; "enemies to lovers"; "bear shifter"];
          why_now :=
            "#fatedmates has surpassed 2.8B TikTok views. The trope merges perfectly with paranormal worldbuilding. Amazon algorithm currently favors series starters in this niche.";
          estimated_monthly_revenue := "$1,200-3,500" |};
     opportunities :=
       [ {| genre := "Romance";
            subgenre := "Fated Mates Shifter Romance";
            demand_score := 91;
            competition_level := "medium";
            trend_direction := "rising";
            suggested_price_ebook := Dec 499 2;
            suggested_price_paperback := Dec 1499 2;
            target_audience := "Women 25-45, Kindle Unlimited subscribers";
            keywords := ["fated mates"; "wolf shifter"; "paranormal romance"];
            why_now :=
              "#fatedmates has surpassed 2.8B TikTok views. Amazon algorithm favors series starters in this niche.";
            estimated_monthly_revenue := "$1,200-3,500" |};
         {| genre := "Self-Help";
            subgenre := "AI Productivity for Entrepreneurs";
            demand_score := 84;
            competition_level := "low";
            trend_direction := "rising";
            suggested_price_ebook := Dec 999 2;
            suggested_price_paperback := Dec 2499 2;
            target_audience := "Entrepreneurs 28-45, tech-forward professionals";
            keywords := ["AI productivity"; "entrepreneur success"; "automation"];
            why_now :=
              "AI adoption is exploding. Business owners searching for practical guides. Very low-quality competition in this specific angle.";
            estimated_monthly_revenue := "$900-2,800" |};
         {| genre := "Mystery";
            subgenre := "Cozy Mystery with Cat Protagonist";
            demand_score := 78;
            competition_level := "low";
            trend_direction := "stable";
            suggested_price_ebook := Dec 399 2;
            suggested_price_paperback := Dec 1299 2;
            target_audience := "Women 45+, cozy mystery fans, pet lovers";
            keywords := ["cozy mystery"; "cat mystery"; "small town mystery"];
            why_now :=
              "Cozy mystery readership grew 23% in 2025. Cat-themed books consistently outperform genre averages. KU readers binge entire series.";
            estimated_monthly_revenue := "$600-1,800" |} ] |}.

(** The "Mock result for local fallback" of [generateBook]. *)
Definition mockBook : GeneratedBookResponse :=
  {| outline :=
       Some {| outline_title := Some "Blood Moon: A Fated Mates Paranormal Romance";
               subtitle := Some "A Fated Mates Paranormal Romance";
               back_cover_description :=
                 Some "Maya believed her fated mate was dead. When a scent from her past drags her into a war between rival packs, she must decide whether to trust fate one more time.";
               chapters :=
                 Some [ {| number := 1;
                           title := "Moonbound";
                           summary := Some "Maya senses her mate is alive and is forced back into pack politics.";
                           content := None |} ] |};
     chapter_1_preview :=
       Some "The scent hit her before she saw him — cedar and storm, something wild and ancient that made her wolf howl in recognition. Maya pressed her back against the cold stone of the library wall, heart hammering. Impossible. She'd been told her fated mate had died in the border wars seven years ago. She'd mourned him. Built a life without him...";
     cover_prompt :=
       Some "Professional book cover for 'Blood Moon'. Romantic paranormal atmosphere, glowing moon, silhouette of wolf and woman, deep red and black color palette, modern romance bestseller aesthetic.";
     amazon_listing :=
       Some [ ("title", JStr "Blood Moon: A Fated Mates Paranormal Romance");
              ("price_ebook", JNum (Dec 499 2));
              ("categories",
               JArr [JStr "Romance > Paranormal";
                     JStr "Romance > Werewolves & Shifters"]) ];
     full_chapters := None;
     cover_image_base64 := None;
     cover_image_mime_type := None;
     book_id := None;
     plan_used := None;
     credits_remaining := None;
     pdf_url := None;
     epub_url := None;
     cover_image_url := None;
     audiobook_url := None;
     generation_notes := None;
     notification_sent := None |}.

(** *** [runResearch] *)

(** [runResearch]: the request it sends and its setter calls, given
    what the request to [/api/research/analyze] gives.  Every failure
    inside the [try] (rejected fetch, response not [ok], unreadable
    body) ends in the one [catch], which installs [mockResearch]. *)
Definition runResearch (st : state) (res : fetched ResearchResult)
    : list api_request * list ui_event :=
  let request :=
    PostResearchAnalyze
      (if bool_decide (topic st = "") then None else Some (topic st))
      (targetAge st) in
  let tried : option ResearchResult :=
    match res with
    | Rejected _ => None
    | Settled r =>
        if negb (ok r) then None
        else match json r with
             | inl _ => None
             | inr data => Some data
             end
    end in
  ([request],
   [SetStep Researching; SetError None]
   ++ match tried with
      | Some data =>
          [SetResearch data; SetSelectedOpportunity (recommended_opportunity data)]
      | None =>
          [SetResearch mockResearch;
           SetSelectedOpportunity (recommended_opportunity mockResearch)]
      end
   ++ [SetStep ResearchDone]).

(** *** [generateBook] *)

(** [plan === "pro" || plan === "enterprise"] *)
Definition paid (p : plan_tier) : bool :=
  match p with
  | Pro | Enterprise => true
  | Starter => false
  end.

Definition build_payload (st : state) (o : Opportunity) : payload :=
  {| req_genre := genre o;
     req_subgenre := subgenre o;
     req_target_audience := target_audience o;
     req_keywords := keywords o;
     page_count := 220;
     tone := "engaging";
     language := "en";
     req_ai_model := aiModel st;
     req_plan := plan st;
     generate_full_book := paid (plan st);
     generate_cover_image := paid (plan st);
     generate_audiobook := false;
     recipient_email := str_or_null (user_email st);
     req_demand_score := demand_score o;
     estimated_revenue := estimated_monthly_revenue o |}.

(** The simulated progress steps shown before any request is sent. *)
Definition steps : list (string * Z) :=
  [ ("Analyzing market data...", 15%Z);
    ("Building book structure...", 35%Z);
    ("Writing Chapter 1...", 60%Z);
    ("Generating Amazon listing...", 80%Z);
    ("Creating cover prompt...", 95%Z) ].

Definition timeoutMs : Z := 15 * 60 * 1000.

(** The delay of the [setTimeout] between two status fetches. *)
Definition pollDelayMs : Z := 1800.

(** What awaiting the status read of a turn gives.  [fetch] is called
    without a signal and nothing else ends the wait, so the read (or
    the reading of its body) may never settle. *)
Inductive status_read :=
| Answers (f : fetched job_status)
| NeverSettles.

(** How one turn of the polling loop ends; [Wait]: it does not end. *)
Inductive poll_step :=
| Continue
| Break (data : option GeneratedBookResponse)
| Throw (message : string)
| Wait.

(** The part of the loop body after [status] has been read. *)
Definition on_status (s : job_status) : list ui_event * poll_step :=
  (match job_progress s with
   | Some p => [SetGenerationProgress (Z.min 99 (Z.max p 10))]
   | None => []
   end
   ++ match job_step s with
      | Some l => if bool_decide (l = "") then [] else [SetGenerationStep l]
      | None => []
      end,
   if bool_decide (job_state s = Some "completed") then Break (job_result s)
   else if bool_decide (job_state s = Some "failed")
        then Throw (str_or (job_error s) "Generation failed")
        else Continue).

(** The part of the loop body from the status fetch on. *)
Definition poll_once (f : status_read) : list ui_event * poll_step :=
  match f with
  | NeverSettles => ([], Wait)
  | Answers (Rejected message) => ([], Throw message)
  | Answers (Settled r) =>
      if negb (ok r) then ([], Throw "Could not read generation status")
      else match json r with
           | inl message => ([], Throw message)
           | inr s => on_status s
           end
  end.

(** What the [i]-th turn of the loop meets: what the status read gives
    and, when the read answers, the time that passes on the clock
    ([Date.now()]) from the turn's timeout test to the next one beyond
    the [pollDelayMs] the [setTimeout] waits at least (the timer's
    lateness and the time the read takes, however long). *)
Record tick := {
  late_ms : N;
  status_fetch : status_read
}.

(** The time a turn of the loop takes when its read answers. *)
Definition turn_ms (t : tick) : Z := pollDelayMs + Z.of_N (late_ms t).

(** How the polling loop ends: by [break] with [data], or by [throw];
    [Pending]: it does not end, the turn it is in waits for a read that
    never settles. *)
Inductive poll_end :=
| Completed (data : option GeneratedBookResponse)
| Thrown (message : string)
| Pending.

(** The error of the timeout test. *)
Definition timed_out : poll_end :=
  Thrown "Generation timed out. Please try again.".

(** [while (true) { ... }] of [generateBook], from turn [i] on with
    [elapsed = Date.now() - startTime] at its timeout test, the only
    place where the loop looks at the clock.  The result is [None]
    when [fuel] turns reach neither the end of the loop nor a read
    that never settles. *)
Fixpoint poll_loop (fuel : nat) (job_id : string) (env : nat → tick)
    (i : nat) (elapsed : Z)
    : option (list api_request * list ui_event * poll_end) :=
  match fuel with
  | O => None
  | S fuel' =>
      if (timeoutMs <? elapsed)%Z
      then Some ([], [], timed_out)
      else
        let t := env i in
        match poll_once (status_fetch t) with
        | (evs, Break data) => Some ([GetJob job_id], evs, Completed data)
        | (evs, Throw message) => Some ([GetJob job_id], evs, Thrown message)
        | (evs, Wait) => Some ([GetJob job_id], evs, Pending)
        | (evs, Continue) =>
            match poll_loop fuel' job_id env (S i) (elapsed + turn_ms t) with
            | Some (reqs, evs', e) => Some (GetJob job_id :: reqs, evs ++ evs', e)
            | None => None
            end
        end
  end.

(** [Date.now() - startTime] at the timeout test of turn [i + k], when
    it is [elapsed] at the test of turn [i] and the turns between poll
    on. *)
Fixpoint clock_after (env : nat → tick) (i k : nat) (elapsed : Z) : Z :=
  match k with
  | O => elapsed
  | S k' => clock_after env (S i) k' (elapsed + turn_ms (env i))
  end.

(** What [generateBook] meets outside the page. *)
Record environment := {
  NODE_ENV : option string;
  access_token : option string;
  start_response : fetched (option string);
  ticks : nat → tick;
  generate_response : fetched GeneratedBookResponse
}.

(** The asynchronous branch of the [try] block. *)
Definition generate_async (fuel : nat) (env : environment) (p : payload)
    : option (list api_request * list ui_event * poll_end) :=
  match start_response env with
  | Rejected message => Some ([PostGenerateAsync p], [], Thrown message)
  | Settled r =>
      if negb (ok r)
      then Some ([PostGenerateAsync p], [],
                 Thrown (str_or (Some (text r)) "Generation start failed"))
      else match json r with
           | inl message => Some ([PostGenerateAsync p], [], Thrown message)
           | inr job =>
               match str_or_null job with
               | None =>
                   Some ([PostGenerateAsync p], [],
                         Thrown "Invalid generation job response")
               | Some job_id =>
                   match poll_loop fuel job_id (ticks env) 0 0 with
                   | Some (reqs, evs, e) => Some (PostGenerateAsync p :: reqs, evs, e)
                   | None => None
                   end
               end
           end
  end.

(** The synchronous branch of the [try] block. *)
Definition generate_sync (env : environment) (p : payload)
    : list api_request * list ui_event * poll_end :=
  match generate_response env with
  | Rejected message => ([PostGenerate p], [], Thrown message)
  | Settled r =>
      if negb (ok r)
      then ([PostGenerate p], [], Thrown (str_or (Some (text r)) "Generation failed"))
      else match json r with
           | inl message => ([PostGenerate p], [], Thrown message)
           | inr data => ([PostGenerate p], [], Completed (Some data))
           end
  end.

(** The [try] block of [generateBook]. *)
Definition try_generate (fuel : nat) (env : environment) (st : state)
    (o : Opportunity)
    : option (list api_request * list ui_event * poll_end) :=
  match str_or_null (access_token env) with
  | None => Some ([], [], Thrown "Your session expired. Please sign in again.")
  | Some _ =>
      let p := build_payload st o in
      if paid (plan st) then generate_async fuel env p
      else Some (generate_sync env p)
  end.

Definition book_of (data : GeneratedBookResponse) : GeneratedBook :=
  {| bookTitle :=
       str_or (o ← outline data; outline_title o) "Your Book Title";
     chapter1Preview := str_or (chapter_1_preview data) "";
     coverPrompt := str_or (cover_prompt data) "";
     amazonListing := default [] (amazon_listing data);
     bookOutline := outline data;
     fullChapters := full_chapters data;
     coverImageBase64 := str_or_null (cover_image_base64 data);
     coverImageMimeType := str_or_null (cover_image_mime_type data);
     bookId := str_or_null (book_id data);
     pdfUrl := str_or_null (pdf_url data);
     epubUrl := str_or_null (epub_url data);
     coverImageUrl := str_or_null (cover_image_url data);
     audiobookUrl := str_or_null (audiobook_url data);
     creditsRemaining := credits_remaining data;
     generationNotes := default [] (generation_notes data) |}.

(** The statements of [generateBook] after the [try]/[catch]. *)
Definition show_book (data : GeneratedBookResponse) : list ui_event :=
  [SetGeneratedBook (book_of data)]
  ++ match plan_used data with
     | Some p => [SetPlan p]
     | None => []
     end
  ++ match default [] (generation_notes data) with
     | [] => []
     | notes => [SetError (Some (join " " notes))]
     end
  ++ [SetGenerationProgress 100;
      SetGenerationStep "Book generated successfully!";
      SetStep Done].

(** How a call of an [async] handler ends: it returns, or its promise
    rejects with an error nothing catches; [NeverReturns]: it does not
    end, it is left waiting in an [await]. *)
Inductive completion :=
| Returned
| Unhandled (message : string)
| NeverReturns.

(** The setter calls [generateBook] starts with, through the simulated
    progress steps. *)
Definition intro_events : list ui_event :=
  [SetStep Generating; SetGenerationProgress 0; SetError None]
  ++ flat_map (λ s, [SetGenerationStep s.1; SetGenerationProgress s.2]) steps.

(** [generateBook].  The result is [None] when [fuel] turns of the
    polling loop reach neither its end nor a read that never
    settles. *)
Definition generateBook (fuel : nat) (env : environment) (st : state)
    : option (list api_request * list ui_event * completion) :=
  match selectedOpportunity st with
  | None => Some ([], [], Returned)
  | Some o =>
      let intro := intro_events in
      match try_generate fuel env st o with
      | None => None
      | Some (reqs, evs, Pending) => Some (reqs, intro ++ evs, NeverReturns)
      | Some (reqs, evs, Completed (Some data)) =>
          Some (reqs, intro ++ evs ++ show_book data, Returned)
      | Some (reqs, evs, Completed None) =>
          Some (reqs, intro ++ evs,
                Unhandled "TypeError: Cannot read properties of null (reading 'outline')")
      | Some (reqs, evs, Thrown message) =>
          let allowMock := negb (bool_decide (NODE_ENV env = Some "production")) in
          if negb allowMock
          then Some (reqs, intro ++ evs ++ [SetError (Some message); SetStep ResearchDone],
                     Returned)
          else Some (reqs,
                     intro ++ evs
                     ++ [SetError (Some ("Using local demo fallback: " +:+ message))]
                     ++ show_book mockBook,
                     Returned)
      end
  end.

(** *** [downloadAudiobookPreview] *)

(** The guard [if (!generatedBook || plan !== "enterprise") return;]:
    whether the handler goes on to produce the audiobook preview. *)
Definition audiobook_preview_allowed (st : state) : bool :=
  match generatedBook st, plan st with
  | Some _, Enterprise => true
  | _, _ => false
  end.

End Dashboard.

(** ** The Stripe webhook route *)

Module StripeWebhook.
Import Schema JS.

(** [PLAN_CREDITS[plan]], on the keys the object declares. *)
Definition PLAN_CREDITS (plan : string) : option Z :=
  if bool_decide (plan = "starter") then Some 1%Z
  else if bool_decide (plan = "pro") then Some 5%Z
  else if bool_decide (plan = "enterprise") then Some 20%Z
  else None.

(** The request [sendBillingEmail] posts to the mail API. *)
Record email_message := {
  from : string;
  to : string;
  subject : string;
  html : string
}.

(** What the handler can change: the database and the mail sent. *)
Record world := {
  db : database;
  outbox : list email_message
}.

(** The parts of the Stripe objects the handler reads. *)
Record checkout_session := {
  session_user_id : option string;
  session_plan : option string;
  session_subscription : option string;
  session_customer : option string
}.

Record stripe_subscription := {
  subscription_id : string;
  metadata_user_id : option string;
  metadata_plan : option string;
  subscription_status : string;
  subscription_period_end : option Z;
  subscription_cancel_at_period_end : bool
}.

Record invoice := {
  invoice_customer : string
}.

Inductive event :=
| CheckoutSessionCompleted (session : checkout_session)
| CustomerSubscriptionUpdated (sub : stripe_subscription)
| CustomerSubscriptionDeleted (sub : stripe_subscription)
| InvoicePaymentFailed (inv : invoice)
| OtherEvent (type : string).

(** What the handler meets outside itself: the process environment,
    the Stripe library ([inl]: the call throws), the clocks of the
    server ([Date.now()], in milliseconds) and of the database
    ([now()]), and the key [gen_random_uuid()] gives an inserted
    row. *)
Record environment := {
  STRIPE_WEBHOOK_SECRET : option string;
  RESEND_API_KEY : option string;
  RESEND_FROM_EMAIL : option string;
  constructEvent : string → string → string → string + event;
  subscriptions_retrieve : string → string + stripe_subscription;
  date_now : Z;
  db_now : timestamptz;
  random_uuid : uuid
}.

(** Handlers run over the world and may throw; what was written before
    a throw stays written. *)
Definition M (A : Type) : Type := world → (string + A) * world.

Definition ret {A} (a : A) : M A := λ w, (inr a, w).

Definition throw {A} (message : string) : M A := λ w, (inl message, w).

Definition bind {A B} (m : M A) (k : A → M B) : M B :=
  λ w, match m w with
       | (inl e, w') => (inl e, w')
       | (inr a, w') => k a w'
       end.

Notation "'let*' x ':=' m 'in' k" := (bind m (λ x, k))
  (at level 10, x name, m at level 100, k at level 200, only parsing).
Notation "m ';;' k" := (bind m (λ _, k))
  (at level 100, k at level 200, right associativity, only parsing).

Definition read {A} (f : database → A) : M A := λ w, (inr (f (db w)), w).

Definition write (f : database → database) : M unit :=
  λ w, (inr (), {| db := f (db w); outbox := outbox w |}).

Definition when (b : bool) (m : M unit) : M unit :=
  if b then m else ret ().

(** *** Statements sent through the service role client

    The service role bypasses row level security; a statement the
    database rejects changes nothing, and the handler does not look at
    the error the client returns for it. *)

Definition with_profiles (d : database) (t : gmap uuid profile) : database :=
  {| profiles := t; subscriptions := subscriptions d; book_jobs := book_jobs d |}.

Definition with_subscriptions (d : database) (t : gmap uuid subscription)
    : database :=
  {| profiles := profiles d; subscriptions := t; book_jobs := book_jobs d |}.

Definition touch_profile (now : timestamptz) (r : profile) : profile :=
  {| email := email r; full_name := full_name r; plan := plan r;
     credits_remaining := credits_remaining r;
     stripe_customer_id := stripe_customer_id r;
     profile_updated_at := now |}.

Definition touch_subscription (now : timestamptz) (r : subscription)
    : subscription :=
  {| sub_user_id := sub_user_id r;
     stripe_subscription_id := stripe_subscription_id r;
     sub_stripe_customer_id := sub_stripe_customer_id r;
     sub_plan := sub_plan r; sub_status := sub_status r;
     current_period_end := current_period_end r;
     cancel_at_period_end := cancel_at_period_end r;
     sub_updated_at := now |}.

(** [from("profiles").update(set).eq("id", id)] *)
Definition update_profile (now : timestamptz) (id : uuid)
    (set : profile → profile) (d : database) : database :=
  match profiles d !! id with
  | None => d
  | Some r =>
      let r' := touch_profile now (set r) in
      if plan_check (plan r')
      then with_profiles d (<[id := r']> (profiles d))
      else d
  end.

(** [from("subscriptions").update(set).eq(column, v)] for a column
    [col] the update leaves as it is. *)
Definition update_subscriptions (now : timestamptz)
    (col : subscription → option string) (v : string)
    (set : subscription → subscription) (d : database) : database :=
  with_subscriptions d
    ((λ r, if bool_decide (col r = Some v)
           then touch_subscription now (set r) else r) <$> subscriptions d).

(** [from("subscriptions").upsert(row, { onConflict:
    "stripe_subscription_id" })]: the row that holds the same
    [stripe_subscription_id] takes the values of [row]; when there is
    none, [row] is inserted under the key [id]. *)
Definition upsert_subscription (now : timestamptz) (id : uuid)
    (row : subscription) (d : database) : database :=
  if negb (bool_decide (is_Some (profiles d !! sub_user_id row))) then d
  else
    let same (r : subscription) : bool :=
      bool_decide (stripe_subscription_id r = stripe_subscription_id row) in
    if bool_decide (map_Exists (λ _ r, same r = true) (subscriptions d))
    then with_subscriptions d
           ((λ r, if same r then touch_subscription now row else r)
              <$> subscriptions d)
    else if bool_decide (is_Some (subscriptions d !! id)) then d
         else with_subscriptions d
                (<[id := touch_subscription now row]> (subscriptions d)).

(** *** Helpers of the route *)

Definition sendBillingEmail (env : environment) (to subject html : string)
    : M unit :=
  λ w,
    match str_or_null (RESEND_API_KEY env) with
    | None => (inr (), w)
    | Some _ =>
        (inr (),
         {| db := db w;
            outbox :=
              outbox w
              ++ [ {| from := str_or (RESEND_FROM_EMAIL env)
                                "BOOKFORGE <onboarding@resend.dev>";
                      to := to; subject := subject; html := html |} ] |})
    end.

Definition getProfileEmailByUserId (userId : string) : M (option string) :=
  read (λ d, str_or_null (email <$> profiles d !! userId)).

(** [.eq("stripe_customer_id", customerId).single()]: a row only when
    exactly one matches. *)
Definition getProfileByCustomerId (customerId : string)
    : M (option (uuid * profile)) :=
  read (λ d,
    match map_to_list
            (filter (λ kr, stripe_customer_id kr.2 = Some customerId)
                    (profiles d)) with
    | [kr] => Some kr
    | _ => None
    end).

(** The text [toISOString] gives, kept as the instant it writes
    down. *)
Record iso_string := IsoString {
  instant : Z
}.

(** [new Date(ms).toISOString()], which throws outside the range of
    [Date]. *)
Definition toISOString (ms : Z) : M iso_string :=
  if ((-8640000000000000 <=? ms) && (ms <=? 8640000000000000))%Z
  then ret (IsoString ms)
  else throw "RangeError: Invalid time value".

(** How the database reads the text into a [timestamptz] column.
    [toISOString] writes the years 0000 to 9999 with four digits and
    every other year in the expanded form, with a sign and six digits.
    The database reads the four digits of the years 0001 (from
    -62135596800000 ms on) to 9999 (up to 253402300799999 ms); it
    refuses the year 0000 and the expanded form, and with it the
    statement that holds the text ([None]). *)
Definition timestamptz_in (s : iso_string) : option timestamptz :=
  if ((-62135596800000 <=? instant s) && (instant s <=? 253402300799999))%Z
  then Some (instant s)
  else None.

(** [Number(x.current_period_end ?? Math.floor(Date.now() / 1000))] *)
Definition period_end_unix (env : environment) (sub : stripe_subscription) : Z :=
  default (date_now env / 1000)%Z (subscription_period_end sub).

Definition activatePlan (env : environment) (userId plan subscriptionId
    customerId : string) (periodEnd : Z) : M unit :=
  let credits := default 1%Z (PLAN_CREDITS plan) in
  write (update_profile (db_now env) userId (λ r,
    {| email := email r; full_name := full_name r; plan := Some plan;
       credits_remaining := Some credits;
       stripe_customer_id := Some customerId;
       profile_updated_at := profile_updated_at r |})) ;;
  let* period := toISOString (periodEnd * 1000) in
  match timestamptz_in period with
  | Some period_end =>
      write (upsert_subscription (db_now env) (random_uuid env)
        {| sub_user_id := userId;
           stripe_subscription_id := Some subscriptionId;
           sub_stripe_customer_id := Some customerId;
           sub_plan := plan;
           sub_status := "active";
           current_period_end := Some period_end;
           cancel_at_period_end := Some false;
           sub_updated_at := db_now env |})
  | None => ret ()
  end.

(** *** The handler *)

(** The [switch (event.type)] of [POST]. *)
Definition handle (env : environment) (ev : event) : M unit :=
  match ev with
  | CheckoutSessionCompleted session =>
      match str_or_null (session_user_id session),
            str_or_null (session_plan session),
            str_or_null (session_subscription session),
            str_or_null (session_customer session) with
      | Some userId, Some plan, Some subscriptionId, Some customer =>
          match subscriptions_retrieve env subscriptionId with
          | inl message => throw message
          | inr subscription =>
              activatePlan env userId plan (subscription_id subscription)
                customer (period_end_unix env subscription) ;;
              let* email := getProfileEmailByUserId userId in
              match email with
              | Some email =>
                  sendBillingEmail env email
                    ("BOOKFORGE " +:+ plan +:+ " plan activated")
                    ("<p>Your <strong>" +:+ plan
                     +:+ "</strong> plan is now active.</p>
             <p>You can manage billing anytime in Settings.</p>")
              | None => ret ()
              end
          end
      | _, _, _, _ => ret ()
      end
  | CustomerSubscriptionUpdated subscription =>
      match str_or_null (metadata_user_id subscription),
            str_or_null (metadata_plan subscription) with
      | Some userId, Some plan =>
          let* period := toISOString (period_end_unix env subscription * 1000) in
          match timestamptz_in period with
          | Some period_end =>
              write (update_subscriptions (db_now env) stripe_subscription_id
                (subscription_id subscription) (λ r,
                  {| sub_user_id := sub_user_id r;
                     stripe_subscription_id := stripe_subscription_id r;
                     sub_stripe_customer_id := sub_stripe_customer_id r;
                     sub_plan := plan;
                     sub_status := subscription_status subscription;
                     current_period_end := Some period_end;
                     cancel_at_period_end :=
                       Some (subscription_cancel_at_period_end subscription);
                     sub_updated_at := sub_updated_at r |}))
          | None => ret ()
          end ;;
          when (bool_decide (subscription_status subscription = "active"))
            (write (update_profile (db_now env) userId (λ r,
               {| email := email r; full_name := full_name r;
                  plan := Some plan;
                  credits_remaining := Some (default 1%Z (PLAN_CREDITS plan));
                  stripe_customer_id := stripe_customer_id r;
                  profile_updated_at := profile_updated_at r |})) ;;
             let* email := getProfileEmailByUserId userId in
             match email with
             | Some email =>
                 when (subscription_cancel_at_period_end subscription)
                   (sendBillingEmail env email
                      "BOOKFORGE subscription update"
                      "<p>Your subscription is active but set to cancel at period end.</p>")
             | None => ret ()
             end)
      | _, _ => ret ()
      end
  | CustomerSubscriptionDeleted subscription =>
      match str_or_null (metadata_user_id subscription) with
      | Some userId =>
          write (update_profile (db_now env) userId (λ r,
            {| email := email r; full_name := full_name r;
               plan := Some "starter";
               credits_remaining := Some 0%Z;
               stripe_customer_id := stripe_customer_id r;
               profile_updated_at := profile_updated_at r |})) ;;
          write (update_subscriptions (db_now env) stripe_subscription_id
            (subscription_id subscription) (λ r,
              {| sub_user_id := sub_user_id r;
                 stripe_subscription_id := stripe_subscription_id r;
                 sub_stripe_customer_id := sub_stripe_customer_id r;
                 sub_plan := sub_plan r;
                 sub_status := "canceled";
                 current_period_end := current_period_end r;
                 cancel_at_period_end := cancel_at_period_end r;
                 sub_updated_at := sub_updated_at r |})) ;;
          let* email := getProfileEmailByUserId userId in
          match email with
          | Some email =>
              sendBillingEmail env email
                "BOOKFORGE subscription canceled"
                "<p>Your paid subscription has been canceled and your account moved to Starter.</p>"
          | None => ret ()
          end
      | None => ret ()
      end
  | InvoicePaymentFailed inv =>
      let customerId := invoice_customer inv in
      let* profile := getProfileByCustomerId customerId in
      match profile with
      | Some (_, profile) =>
          write (update_subscriptions (db_now env) sub_stripe_customer_id
            customerId (λ r,
              {| sub_user_id := sub_user_id r;
                 stripe_subscription_id := stripe_subscription_id r;
                 sub_stripe_customer_id := sub_stripe_customer_id r;
                 sub_plan := sub_plan r;
                 sub_status := "past_due";
                 current_period_end := current_period_end r;
                 cancel_at_period_end := cancel_at_period_end r;
                 sub_updated_at := sub_updated_at r |})) ;;
          when (negb (bool_decide (email profile = "")))
            (sendBillingEmail env (email profile)
               "BOOKFORGE payment failed"
               "<p>We could not process your payment. Please update your card in billing settings.</p>")
      | None => ret ()
      end
  | OtherEvent _ => ret ()
  end.

Definition json_error (message : string) (code : Z) : reply :=
  {| status_code := code; reply_body := JObj [("error", JStr message)] |}.

(** [POST] of the route: the reply and the world it leaves. *)
Definition POST (env : environment) (req : request) (w : world) : reply * world :=
  match str_or_null (header "stripe-signature" req),
        str_or_null (STRIPE_WEBHOOK_SECRET env) with
  | Some sig, Some secret =>
      match constructEvent env (body req) sig secret with
      | inl _ => (json_error "Invalid signature" 400, w)
      | inr ev =>
          match handle env ev w with
          | (inl _, w') => (json_error "Handler failed" 500, w')
          | (inr _, w') =>
              ({| status_code := 200;
                  reply_body := JObj [("received", JBool true)] |}, w')
          end
      end
  | _, _ => (json_error "Missing signature or webhook secret" 400, w)
  end.

End StripeWebhook.

(** ** The credit reset route *)

Module CreditReset.
Import Schema JS.

Definition PLAN_CREDITS : list (string * Z) :=
  [("starter", 1%Z); ("pro", 5%Z); ("enterprise", 20%Z)].

(** What the route meets outside itself: the process environment, the
    clocks, and the plans whose update statement the database client
    answers with an error. *)
Record environment := {
  CRON_SECRET : option string;
  now_iso : string;
  db_now : timestamptz;
  update_fails : string → bool
}.

Definition isAuthorized (env : environment) (req : request) : bool :=
  match str_or_null (CRON_SECRET env) with
  | None => true
  | Some secret =>
      let bearer := header "authorization" req in
      let headerSecret := header "x-cron-secret" req in
      if negb (falsy headerSecret) && bool_decide (headerSecret = Some secret)
      then true
      else if bool_decide (bearer = Some ("Bearer " +:+ secret)) then true
      else false
  end.

(** [from("profiles").update({ credits_remaining: credits })
    .eq("plan", plan).select("id")]: the table after the update and the
    number of rows it returns. *)
Definition reset_plan (now : timestamptz) (plan : string) (credits : Z)
    (t : gmap uuid profile) : gmap uuid profile * nat :=
  ((λ r, if bool_decide (Schema.plan r = Some plan)
         then {| email := email r; full_name := full_name r;
                 Schema.plan := Schema.plan r;
                 credits_remaining := Some credits;
                 stripe_customer_id := stripe_customer_id r;
                 profile_updated_at := now |}
         else r) <$> t,
   size (filter (λ kr, Schema.plan kr.2 = Some plan) t)).

(** The [for] loop of [POST] over the entries of [PLAN_CREDITS];
    [inl] when a statement failed and the loop threw. *)
Fixpoint reset_all (env : environment) (entries : list (string * Z))
    (t : gmap uuid profile) (updates : list value)
    : (unit + list value) * gmap uuid profile :=
  match entries with
  | [] => (inr updates, t)
  | (plan, credits) :: rest =>
      if update_fails env plan then (inl (), t)
      else
        let '(t', n) := reset_plan (db_now env) plan credits t in
        reset_all env rest t'
          (updates
           ++ [JObj [("plan", JStr plan);
                     ("updated", JNum (Dec (Z.of_nat n) 0));
                     ("credits", JNum (Dec credits 0))]])
  end.

Definition unauthorized : reply :=
  {| status_code := 401; reply_body := JObj [("error", JStr "Unauthorized")] |}.

(** [POST] of the route: the reply and the profiles table it leaves. *)
Definition POST (env : environment) (req : request) (t : gmap uuid profile)
    : reply * gmap uuid profile :=
  if negb (isAuthorized env req)
  then (unauthorized, t)
  else
    match reset_all env PLAN_CREDITS t [] with
    | (inl _, t') =>
        ({| status_code := 500;
            reply_body := JObj [("error", JStr "Credit reset failed")] |}, t')
    | (inr updates, t') =>
        ({| status_code := 200;
            reply_body :=
              JObj [("ok", JBool true);
                    ("updated_at", JStr (now_iso env));
                    ("updates", JArr updates)] |}, t')
    end.

End CreditReset.

(** ** Observations

    Notions the properties below are stated with. *)

Module Observations.

(** The invariant of the job state machine, as the design of the job
    workflow words it: a terminal row holds exactly one of result and
    error, any other row neither. *)
Definition payload_invariant (r : Schema.book_job) : bool :=
  if Schema.terminal r
  then xorb (bool_decide (is_Some (Schema.result_json r)))
            (bool_decide (is_Some (Schema.error r)))
  else negb (bool_decide (is_Some (Schema.result_json r)))
       && negb (bool_decide (is_Some (Schema.error r))).

(** The progress values a run of setter calls displays, in order. *)
Definition shown_progress (evs : list Dashboard.ui_event) : list Z :=
  omap (λ ev, match ev with
              | Dashboard.SetGenerationProgress p => Some p
              | _ => None
              end) evs.

(** The credits the reset gives a plan: [PLAN_CREDITS] read as a map. *)
Definition plan_credits (p : string) : option Z :=
  (list_to_map CreditReset.PLAN_CREDITS : gmap string Z) !! p.

(** A profile after a credit reset at time [now]: the credits of its
    plan, when [PLAN_CREDITS] lists the plan. *)
Definition reset_profile (now : Z) (r : Schema.profile) : Schema.profile :=
  match Schema.plan r ≫= plan_credits with
  | Some credits =>
      {| Schema.email := Schema.email r;
         Schema.full_name := Schema.full_name r;
         Schema.plan := Schema.plan r;
         Schema.credits_remaining := Some credits;
         Schema.stripe_customer_id := Schema.stripe_customer_id r;
         Schema.profile_updated_at := now |}
  | None => r
  end.

End Observations.

(** ** Sample data

    Concrete tables, requests and environments on which the properties
    below are exercised. *)

Module Samples.
Import Schema Observations.

Definition a_profile (mail : string) (p : string) (credits : Z) : profile :=
  {| email := mail; full_name := None; plan := Some p;
     credits_remaining := Some credits; stripe_customer_id := None;
     profile_updated_at := 0%Z |}.

(** A job of alice's that has completed. *)
Definition done_job : book_job :=
  {| user_id := "alice"; status := "completed"; progress := 100;
     step := Some "Done"; request_json := Some "{}";
     result_json := Some "{}"; error := None;
     created_at := 10%Z; updated_at := 90%Z |}.

Definition db_done : database :=
  {| profiles := {[ "alice" := a_profile "alice@example.com" "pro" 5;
                    "bob" := a_profile "bob@example.com" "starter" 1 ]};
     subscriptions := ∅;
     book_jobs := {[ "job-1" := done_job ]} |}.

(** [set status = 'running', progress = 5, result_json = null] *)
Definition restart : job_patch :=
  {| set_user_id := None; set_status := Some "running";
     set_progress := Some 5%Z; set_step := None;
     set_result_json := Some None; set_error := None |}.

Definition restarted_job : book_job :=
  {| user_id := "alice"; status := "running"; progress := 5;
     step := Some "Done"; request_json := Some "{}";
     result_json := None; error := None;
     created_at := 10%Z; updated_at := 200%Z |}.

(** [insert into book_jobs (user_id, status) values ('alice', 'completed')] *)
Definition completed_without_result : job_values :=
  {| v_user_id := "alice"; v_status := Some "completed"; v_progress := None;
     v_step := None; v_request_json := None; v_result_json := None;
     v_error := None |}.

(** [insert into book_jobs (user_id, result_json, error)
    values ('alice', '{}', 'late')] *)
Definition queued_with_result : job_values :=
  {| v_user_id := "alice"; v_status := None; v_progress := None;
     v_step := None; v_request_json := None; v_result_json := Some "{}";
     v_error := Some "late" |}.

(** [insert into book_jobs (user_id, request_json) values ($uid, $req)] *)
Definition queued_values (uid : uuid) (req : option jsonb) : job_values :=
  {| v_user_id := uid; v_status := None; v_progress := None;
     v_step := None; v_request_json := req; v_result_json := None;
     v_error := None |}.

(** *** The dashboard *)

Import JS Dashboard.

(** The page after research, with the recommended opportunity selected. *)
Definition researched (p : plan_tier) : state :=
  {| user_email := Some "alice@example.com"; plan := p; step := ResearchDone;
     topic := "shifter romance"; targetAge := "adults";
     research := Some mockResearch;
     selectedOpportunity := Some (recommended_opportunity mockResearch);
     aiModel := Claude; generationProgress := 0; generationStep := "";
     generatedBook := None; error := None |}.

(** The page before any research. *)
Definition fresh_page : state :=
  {| user_email := Some "alice@example.com"; plan := Starter; step := Idle;
     topic := ""; targetAge := "adults"; research := None;
     selectedOpportunity := None; aiModel := Claude;
     generationProgress := 0; generationStep := "";
     generatedBook := None; error := None |}.

Definition ok_json {A} (x : A) : fetched A :=
  Settled {| ok := true; text := ""; json := inr x |}.

(** A response with status 500. *)
Definition server_error {A} : fetched A :=
  Settled {| ok := false; text := "Internal Server Error";
             json := inl "SyntaxError: Unexpected token" |}.

(** A book the pipeline wrote. *)
Definition written_book : GeneratedBookResponse :=
  {| outline :=
       Some {| outline_title := Some "Tides of Ash"; subtitle := None;
               back_cover_description := None; chapters := None |};
     chapter_1_preview := Some "The harbour burned at dawn.";
     amazon_listing := None;
     cover_prompt := Some "A burning harbour at dawn";
     full_chapters :=
       Some [ {| number := 1; title := "Embers"; summary := None;
                 content := Some "The harbour burned at dawn." |} ];
     cover_image_base64 := None; cover_image_mime_type := None;
     book_id := Some "book-1"; plan_used := Some Pro;
     credits_remaining := Some 4%Z;
     pdf_url := None; epub_url := None;
     cover_image_url := Some "https://cdn.example.com/cover.jpg";
     audiobook_url := None; generation_notes := None;
     notification_sent := Some true |}.

Definition running_status (p : Z) (label : string) : job_status :=
  {| job_state := Some "running"; job_progress := Some p;
     job_step := Some label; job_result := None; job_error := None |}.

Definition completed_status (data : GeneratedBookResponse) : job_status :=
  {| job_state := Some "completed"; job_progress := Some 100%Z;
     job_step := Some "Done"; job_result := Some data; job_error := None |}.

Definition failed_status (e : string) : job_status :=
  {| job_state := Some "failed"; job_progress := Some 40%Z;
     job_step := Some "Writing outline"; job_result := None;
     job_error := Some e |}.

(** The first status fetch fails, every later one finds the job
    completed. *)
Definition flaky_ticks (i : nat) : tick :=
  match i with
  | O => {| late_ms := 0; status_fetch := Answers server_error |}
  | S _ => {| late_ms := 0;
              status_fetch := Answers (ok_json (completed_status written_book)) |}
  end.


(** Two turns find the job running, the third finds it completed. *)
Definition steady_ticks (i : nat) : tick :=
  match i with
  | 0%nat => {| late_ms := 100;
                status_fetch := Answers (ok_json (running_status 3 "Outline")) |}
  | 1%nat => {| late_ms := 200;
                status_fetch := Answers (ok_json (running_status 120 "Chapters")) |}
  | _ => {| late_ms := 50;
            status_fetch := Answers (ok_json (completed_status written_book)) |}
  end.




(** A production build of the page with a signed-in user. *)
Definition production (t : nat → tick) : Dashboard.environment :=
  {| NODE_ENV := Some "production";
     access_token := Some "token";
     start_response := ok_json (Some "job-7");
     ticks := t;
     generate_response := ok_json written_book |}.

(** *** The webhook and the credit reset *)

(** A Stripe library that accepts the signature [v1=] followed by the
    secret, and reads every signed body as the deletion of alice's
    subscription. *)
Definition hook_env (secret : option string) : StripeWebhook.environment :=
  {| StripeWebhook.STRIPE_WEBHOOK_SECRET := secret;
     StripeWebhook.RESEND_API_KEY := Some "re_key";
     StripeWebhook.RESEND_FROM_EMAIL := None;
     StripeWebhook.constructEvent := λ _ sig secret,
       if bool_decide (sig = "v1=" +:+ secret)
       then inr (StripeWebhook.CustomerSubscriptionDeleted
                   {| StripeWebhook.subscription_id := "sub_1";
                      StripeWebhook.metadata_user_id := Some "alice";
                      StripeWebhook.metadata_plan := Some "pro";
                      StripeWebhook.subscription_status := "canceled";
                      StripeWebhook.subscription_period_end := Some 1800000000%Z;
                      StripeWebhook.subscription_cancel_at_period_end := false |})
       else inl "No signatures found matching the expected signature for payload";
     StripeWebhook.subscriptions_retrieve := λ _, inl "No such subscription";
     StripeWebhook.date_now := 1790000000000;
     StripeWebhook.db_now := 1790000000000;
     StripeWebhook.random_uuid := "sub-row-1" |}.

Definition hook_world : StripeWebhook.world :=
  {| StripeWebhook.db := db_done; StripeWebhook.outbox := [] |}.

Definition request_with (hs : list (string * string)) : request :=
  {| headers := list_to_map hs; body := "{}" |}.

Definition cron_env (secret : option string) : CreditReset.environment :=
  {| CreditReset.CRON_SECRET := secret;
     CreditReset.now_iso := "2026-03-01T00:00:00.000Z";
     CreditReset.db_now := 1790000000000;
     CreditReset.update_fails := λ _, false |}.

(** Alice has used up her pro credits, bob his starter credit. *)
Definition spent_profiles : gmap Schema.uuid Schema.profile :=
  {[ "alice" := a_profile "alice@example.com" "pro" 0;
     "bob" := a_profile "bob@example.com" "starter" 0 ]}.

End Samples.

(** ** Row level security on profiles *)

Module Profiles.
Import Schema.

(** [select * from profiles where id = $id] by the authenticated user
    [uid], under the policy "Users can view own profile"
    ([auth.uid() = id]). *)
Definition select_profile (uid id : uuid) (d : database) : option profile :=
  if bool_decide (uid = id) then profiles d !! id else None.

(** The SET clause of an [update profiles]: [None] leaves the column. *)
Record profile_patch := ProfilePatch {
  set_email : option string;
  set_full_name : option (option string);
  set_plan : option (option string);
  set_credits_remaining : option (option Z);
  set_stripe_customer_id : option (option string)
}.

(** The new row of an update, after the [profiles_updated_at] trigger. *)
Definition patched_profile (now : timestamptz) (p : profile_patch) (r : profile)
    : profile :=
  {| email := default (email r) (set_email p);
     full_name := default (full_name r) (set_full_name p);
     plan := default (plan r) (set_plan p);
     credits_remaining := default (credits_remaining r) (set_credits_remaining p);
     stripe_customer_id := default (stripe_customer_id r) (set_stripe_customer_id p);
     profile_updated_at := now |}.

(** [update profiles set ... where id = $id] by the authenticated user
    [uid], under the policy "Users can update own profile": a row of
    another user is skipped; the new row must pass the CHECK on
    [plan].  The result carries the number of rows updated. *)
Definition update_profile_as (uid : uuid) (now : timestamptz) (id : uuid)
    (p : profile_patch) (d : database) : sql_error + (database * nat) :=
  match profiles d !! id with
  | None => inr (d, 0%nat)
  | Some r =>
      if negb (bool_decide (uid = id)) then inr (d, 0%nat)
      else
        let r' := patched_profile now p r in
        if negb (plan_check (plan r')) then inl CheckViolation
        else inr ({| profiles := <[id := r']> (profiles d);
                     subscriptions := subscriptions d;
                     book_jobs := book_jobs d |}, 1%nat)
  end.

End Profiles.

(** ** The profile of a new user *)

Module Signup.
Import Schema.

(** The columns of [auth.users] the trigger reads: [id], [email] and
    [raw_user_meta_data->>'full_name']. *)
Record auth_user := {
  new_id : uuid;
  new_email : option string;
  new_full_name : option string
}.

(** [split_part(s, '@', 1)]: [s] up to its first ['@']. *)
Fixpoint split_part_at (s : string) : string :=
  match s with
  | EmptyString => EmptyString
  | String c rest =>
      if Ascii.eqb c "@"%char then EmptyString else String c (split_part_at rest)
  end.

Inductive insert_error :=
| NotNullViolation
| DuplicateKey.

(** [handle_new_user()], the trigger after an insert on [auth.users]:
    it inserts the profile of the new user, with the defaults of the
    columns it does not name. *)
Definition handle_new_user (now : timestamptz) (new : auth_user) (d : database)
    : insert_error + database :=
  match new_email new with
  | None => inl NotNullViolation
  | Some mail =>
      if bool_decide (is_Some (profiles d !! new_id new)) then inl DuplicateKey
      else
        inr {| profiles :=
                 <[new_id new :=
                     {| email := mail;
                        full_name :=
                          Some (default (split_part_at mail) (new_full_name new));
                        plan := Some "starter";
                        credits_remaining := Some 1%Z;
                        stripe_customer_id := None;
                        profile_updated_at := now |}]> (profiles d);
               subscriptions := subscriptions d;
               book_jobs := book_jobs d |}
  end.

End Signup.

(** ** The route guard *)

Module Proxy.

(** The parts of [request.nextUrl] the guard reads and writes. *)
Record url := {
  pathname : string;
  searchParams : list (string * string)
}.

(** [searchParams.set(name, value)]: the first pair of that name takes
    the value and the others of that name go; with no such pair, one
    is added at the end. *)
Fixpoint set_param (name value : string) (ps : list (string * string))
    : list (string * string) :=
  match ps with
  | [] => [(name, value)]
  | (n, v) :: rest =>
      if bool_decide (n = name)
      then (name, value) :: filter (λ p, p.1 ≠ name) rest
      else (n, v) :: set_param name value rest
  end.


Definition protectedPaths : list string := ["/dashboard"; "/library"; "/settings"].

Definition authPaths : list string := ["/login"; "/register"].

(** [paths.some((p) => pathname.startsWith(p))] *)
Definition under (paths : list string) (pathname : string) : bool :=
  existsb (λ p, String.prefix p pathname) paths.

Inductive response :=
| Next
| Redirect (to : url).

(** [proxy], given the user [supabase.auth.getUser()] finds. *)
Definition proxy (user : option string) (nextUrl : url) : response :=
  let isProtected := under protectedPaths (pathname nextUrl) in
  if isProtected && negb (bool_decide (is_Some user))
  then Redirect {| pathname := "/login";
                   searchParams :=
                     set_param "redirect" (pathname nextUrl) (searchParams nextUrl) |}
  else
    let isAuthPage := under authPaths (pathname nextUrl) in
    if isAuthPage && bool_decide (is_Some user)
    then Redirect {| pathname := "/dashboard";
                     searchParams := searchParams nextUrl |}
    else Next.

End Proxy.

(** ** The checkout route *)

Module Checkout.
Import Schema JS.

(** What reading a property of an object literal by a string key
    gives: the value of a key the literal declares, a property every
    object inherits from [Object.prototype], or [undefined]. *)
Inductive property :=
| Own (v : string)
| Inherited
| Missing.

Definition object_prototype_keys : list string :=
  ["constructor"; "__defineGetter__"; "__defineSetter__"; "hasOwnProperty";
   "__lookupGetter__"; "__lookupSetter__"; "isPrototypeOf";
   "propertyIsEnumerable"; "toString"; "valueOf"; "__proto__";
   "toLocaleString"].

(** The arguments of [stripe.checkout.sessions.create]; [price] is
    [None] when what the route passes is not a string. *)
Record session_params := {
  customer : string;
  mode : string;
  price : option string;
  quantity : Z;
  success_url : string;
  cancel_url : string;
  metadata_supabase_user_id : string;
  metadata_plan : string;
  subscription_metadata_supabase_user_id : string;
  subscription_metadata_plan : string
}.

(** What the route meets outside itself: the process environment, the
    user of the session cookies ([id] and [email]), the Stripe library
    ([inl]: the call throws) and the clock of the database. *)
Record environment := {
  STRIPE_PRICE_STARTER : option string;
  STRIPE_PRICE_PRO : option string;
  STRIPE_PRICE_ENTERPRISE : option string;
  NEXT_PUBLIC_APP_URL : option string;
  getUser : option (uuid * option string);
  customers_create : option string → uuid → string + string;
  sessions_create : session_params → string + option string;
  db_now : timestamptz
}.

(** [PRICE_IDS[plan]] *)
Definition PRICE_IDS (env : environment) (plan : string) : property :=
  if bool_decide (plan = "starter") then Own (default "" (STRIPE_PRICE_STARTER env))
  else if bool_decide (plan = "pro") then Own (default "" (STRIPE_PRICE_PRO env))
  else if bool_decide (plan = "enterprise")
       then Own (default "" (STRIPE_PRICE_ENTERPRISE env))
  else if bool_decide (plan ∈ object_prototype_keys) then Inherited
  else Missing.

(** The calls the route makes to the Stripe library. *)
Inductive stripe_call :=
| CustomersCreate (email : option string) (supabase_user_id : uuid)
| SessionsCreate (p : session_params).

(** How the route ends: with a reply, or by an error nothing catches. *)
Inductive outcome :=
| Replied (r : reply)
| Threw (message : string).

Definition app_url (env : environment) : string :=
  default "http://localhost:3000" (NEXT_PUBLIC_APP_URL env).

Definition params (env : environment) (customerId : string) (user_id : uuid)
    (plan : string) (p : option string) : session_params :=
  {| customer := customerId;
     mode := "subscription";
     price := p;
     quantity := 1;
     success_url := app_url env +:+ "/settings?success=1";
     cancel_url := app_url env +:+ "/settings?canceled=1";
     metadata_supabase_user_id := user_id;
     metadata_plan := plan;
     subscription_metadata_supabase_user_id := user_id;
     subscription_metadata_plan := plan |}.

Definition invalid_plan (plan : string) : reply :=
  {| status_code := 400;
     reply_body :=
       JObj [("error",
              JStr ("Invalid plan: " +:+ plan
                    +:+ ". Valid options: starter, pro, enterprise"))] |}.

Definition unauthorized : reply :=
  {| status_code := 401; reply_body := JObj [("error", JStr "Unauthorized")] |}.

(** The reply with the URL of the session. *)
Definition session_reply (session_url : option string) : reply :=
  {| status_code := 200;
     reply_body :=
       JObj [("url", match session_url with
                     | Some u => JStr u
                     | None => JNull
                     end)] |}.

(** The end of [POST], from the call of
    [stripe.checkout.sessions.create] on. *)
Definition create_session (env : environment) (p : session_params)
    (d : database) (calls : list stripe_call)
    : outcome * database * list stripe_call :=
  match sessions_create env p with
  | inl message => (Threw message, d, calls ++ [SessionsCreate p])
  | inr session_url => (Replied (session_reply session_url), d, calls ++ [SessionsCreate p])
  end.

(** [POST] of the route for a body [{ plan }]: how it ends, the
    database it leaves and the Stripe calls it made. *)
Definition POST (env : environment) (plan : string) (d : database)
    : outcome * database * list stripe_call :=
  let invalid := (Replied (invalid_plan plan), d, []) in
  let paid (p : option string) :=
    match getUser env with
    | None => (Replied unauthorized, d, [])
    | Some (user_id, user_email) =>
        match str_or_null (Profiles.select_profile user_id user_id d
                             ≫= stripe_customer_id) with
        | Some customerId =>
            create_session env (params env customerId user_id plan p) d []
        | None =>
            match customers_create env user_email user_id with
            | inl message =>
                (Threw message, d, [CustomersCreate user_email user_id])
            | inr customerId =>
                let d' :=
                  match Profiles.update_profile_as user_id (db_now env) user_id
                          {| Profiles.set_email := None;
                             Profiles.set_full_name := None;
                             Profiles.set_plan := None;
                             Profiles.set_credits_remaining := None;
                             Profiles.set_stripe_customer_id :=
                               Some (Some customerId) |} d with
                  | inr (d', _) => d'
                  | inl _ => d
                  end in
                create_session env (params env customerId user_id plan p) d'
                  [CustomersCreate user_email user_id]
            end
        end
    end in
  match PRICE_IDS env plan with
  | Missing => invalid
  | Own v => if bool_decide (v = "") then invalid else paid (Some v)
  | Inherited => paid None
  end.

End Checkout.

(** ** The download handlers of the dashboard *)

Module Downloads.
Import JS Dashboard.

Inductive format := Pdf | Epub.

(** [format] as the string it is. *)
Definition extension (f : format) : string :=
  match f with
  | Pdf => "pdf"
  | Epub => "epub"
  end.

(** [format.toUpperCase()] *)
Definition toUpperCase (f : format) : string :=
  match f with
  | Pdf => "PDF"
  | Epub => "EPUB"
  end.

(** The values of the [downloadLoading] state. *)
Inductive loading :=
| LoadingExport (f : format)
| LoadingAudio.

(** Where a download link points: a stored URL, or the object URL of
    the blob a response carried. *)
Inductive href :=
| StoredUrl (u : string)
| ObjectUrl (blob : string).

(** The [a] element a handler builds and clicks. *)
Record anchor := {
  a_href : href;
  a_target : option string;
  a_rel : option string;
  a_download : string
}.

(** What a handler does to the page, in order. *)
Inductive event :=
| SetDownloadLoading (l : option loading)
| SetError (e : option string)
| Click (a : anchor)
| RevokeObjectURL (blob : string).

(** The body of an export request. *)
Record export_body := {
  export_title : string;
  export_subtitle : option string;
  author : string;
  export_genre : option string;
  export_back_cover_description : value;
  chapter_1_content : string;
  export_chapters : list Chapter
}.

Inductive request :=
| PostExport (f : format) (b : export_body)
| PostAudiobook (title : string) (text : string).

(** A response read with [blob()] ([inl]: the read throws). *)
Record blob_response := {
  blob_ok : bool;
  blob : string + string
}.

Inductive fetched_blob :=
| BlobRejected (message : string)
| BlobSettled (r : blob_response).

(** Whether a JSON value is truthy. *)
Definition truthy (v : value) : bool :=
  match v with
  | JNull => false
  | JBool b => b
  | JNum (Dec u _) => negb (u =? 0)%Z
  | JStr s => negb (bool_decide (s = ""))
  | JArr _ | JObj _ => true
  end.

(** [object[key]] on the fields of a JSON object. *)
Fixpoint field (key : string) (fields : list (string * value)) : option value :=
  match fields with
  | [] => None
  | (k, v) :: rest => if bool_decide (k = key) then Some v else field key rest
  end.

(** [chaptersForExport] *)
Definition chaptersForExport (b : GeneratedBook) : list Chapter :=
  match fullChapters b with
  | Some (c :: cs) => c :: cs
  | _ => default [] (bookOutline b ≫= chapters)
  end.

(** [backCoverDescription] *)
Definition backCoverDescription (b : GeneratedBook) : value :=
  match str_or_null (bookOutline b ≫= back_cover_description) with
  | Some s => JStr s
  | None =>
      match field "description_html" (amazonListing b) with
      | Some v => if truthy v then v else JStr ""
      | None => JStr ""
      end
  end.

Definition export_request (f : format) (st : state) (full_name : option string)
    (b : GeneratedBook) : request :=
  PostExport f
    {| export_title := bookTitle b;
       export_subtitle := str_or_null (bookOutline b ≫= subtitle);
       author := str_or full_name "BOOKFORGE AI";
       export_genre := str_or_null (genre <$> selectedOpportunity st);
       export_back_cover_description := backCoverDescription b;
       chapter_1_content := chapter1Preview b;
       export_chapters := chaptersForExport b |}.

(** [downloadExport(format)], given the [full_name] of the user's
    metadata and what the export request gives: the requests it sends
    and what it does to the page. *)
Definition downloadExport (f : format) (st : state) (full_name : option string)
    (res : fetched_blob) : list request * list event :=
  match generatedBook st with
  | None => ([], [])
  | Some b =>
      let start := [SetDownloadLoading (Some (LoadingExport f)); SetError None] in
      let name := bookTitle b +:+ "." +:+ extension f in
      match str_or_null (match f with Pdf => pdfUrl b | Epub => epubUrl b end) with
      | Some storedUrl =>
          ([],
           start
           ++ [Click {| a_href := StoredUrl storedUrl; a_target := Some "_blank";
                        a_rel := Some "noreferrer"; a_download := name |};
               SetDownloadLoading None])
      | None =>
          let failed :=
            [SetError (Some ("Could not export " +:+ toUpperCase f +:+ ". Try again."))] in
          ([export_request f st full_name b],
           start
           ++ match res with
              | BlobRejected _ => failed
              | BlobSettled r =>
                  if negb (blob_ok r) then failed
                  else match blob r with
                       | inl _ => failed
                       | inr data =>
                           [Click {| a_href := ObjectUrl data; a_target := None;
                                     a_rel := None; a_download := name |};
                            RevokeObjectURL data]
                       end
              end
           ++ [SetDownloadLoading None])
      end
  end.

(** The separator of the chapters in the text to narrate: two line
    feeds. *)
Definition blank_line : string := String "010" (String "010" EmptyString).

(** The [text] of the audiobook request. *)
Definition narration (b : GeneratedBook) : string :=
  match fullChapters b with
  | Some (c :: cs) =>
      join blank_line
        (map (λ ch, str_or (content ch) (str_or (summary ch) "")) (c :: cs))
  | _ => chapter1Preview b
  end.

(** [downloadAudiobookPreview], given the access token of the session
    and what the audiobook request gives. *)
Definition downloadAudiobookPreview (st : state) (token : option string)
    (res : fetched_blob) : list request * list event :=
  match generatedBook st, plan st with
  | Some b, Enterprise =>
      let start := [SetDownloadLoading (Some LoadingAudio); SetError None] in
      let name := bookTitle b +:+ "_audiobook_preview.mp3" in
      let failed := [SetError (Some "Could not generate audiobook preview.")] in
      match str_or_null (audiobookUrl b) with
      | Some storedUrl =>
          ([],
           start
           ++ [Click {| a_href := StoredUrl storedUrl; a_target := Some "_blank";
                        a_rel := Some "noreferrer"; a_download := name |};
               SetDownloadLoading None;
               SetDownloadLoading None])
      | None =>
          match str_or_null token with
          | None => ([], start ++ failed ++ [SetDownloadLoading None])
          | Some _ =>
              ([PostAudiobook (bookTitle b) (narration b)],
               start
               ++ match res with
                  | BlobRejected _ => failed
                  | BlobSettled r =>
                      if negb (blob_ok r) then failed
                      else match blob r with
                           | inl _ => failed
                           | inr data =>
                               [Click {| a_href := ObjectUrl data; a_target := None;
                                         a_rel := None; a_download := name |};
                                RevokeObjectURL data]
                           end
                  end
               ++ [SetDownloadLoading None])
          end
      end
  | _, _ => ([], [])
  end.

End Downloads.

(** ** Further notions and sample data *)

Module More.
Import JS.

(** The setter calls that only move the progress display. *)
Definition display_only (ev : Dashboard.ui_event) : bool :=
  match ev with
  | Dashboard.SetGenerationProgress _ | Dashboard.SetGenerationStep _ => true
  | _ => false
  end.

(** A production build of the page whose session has gone. *)
Definition signed_out : Dashboard.environment :=
  {| Dashboard.NODE_ENV := Some "production";
     Dashboard.access_token := None;
     Dashboard.start_response := Samples.ok_json (Some "job-7");
     Dashboard.ticks := Samples.steady_ticks;
     Dashboard.generate_response := Samples.ok_json Samples.written_book |}.


(** A deployment with prices for the pro and enterprise plans only,
    and a Stripe library that names a customer after the user. *)
Definition shop (user : option (Schema.uuid * option string))
    : Checkout.environment :=
  {| Checkout.STRIPE_PRICE_STARTER := None;
     Checkout.STRIPE_PRICE_PRO := Some "price_pro";
     Checkout.STRIPE_PRICE_ENTERPRISE := Some "price_enterprise";
     Checkout.NEXT_PUBLIC_APP_URL := Some "https://bookforge.example";
     Checkout.getUser := user;
     Checkout.customers_create := λ _ user_id, inr ("cus_" +:+ user_id);
     Checkout.sessions_create := λ p,
       inr (Some ("https://checkout.stripe.com/pay/" +:+ Checkout.customer p));
     Checkout.db_now := 1790000000000 |}.

Definition bob : option (Schema.uuid * option string) :=
  Some ("bob", Some "bob@example.com").

(** The links a download handler clicked, in order. *)
Definition clicks (evs : list Downloads.event) : list Downloads.anchor :=
  omap (λ ev, match ev with Downloads.Click a => Some a | _ => None end) evs.

(** The errors a download handler put on the page, in order. *)
Definition reported (evs : list Downloads.event) : list string :=
  omap (λ ev, match ev with Downloads.SetError (Some e) => Some e | _ => None end)
       evs.

(** The page after a generation that stored no files. *)
Definition shown (p : Dashboard.plan_tier) : Dashboard.state :=
  {| Dashboard.user_email := Some "alice@example.com"; Dashboard.plan := p;
     Dashboard.step := Dashboard.Done;
     Dashboard.topic := ""; Dashboard.targetAge := "adults";
     Dashboard.research := Some Dashboard.mockResearch;
     Dashboard.selectedOpportunity :=
       Some (Dashboard.recommended_opportunity Dashboard.mockResearch);
     Dashboard.aiModel := Dashboard.Claude;
     Dashboard.generationProgress := 100;
     Dashboard.generationStep := "Book generated successfully!";
     Dashboard.generatedBook := Some (Dashboard.book_of Samples.written_book);
     Dashboard.error := None |}.

Definition blob_of (data : string) : Downloads.fetched_blob :=
  Downloads.BlobSettled {| Downloads.blob_ok := true; Downloads.blob := inr data |}.

(** The plans the credit reset got through before its first failing
    statement, in the order of [PLAN_CREDITS]. *)
Fixpoint plans_before (env : CreditReset.environment)
    (entries : list (string * Z)) : list string :=
  match entries with
  | [] => []
  | (p, _) :: rest =>
      if CreditReset.update_fails env p then [] else p :: plans_before env rest
  end.

Definition reset_before (env : CreditReset.environment) : list string :=
  plans_before env CreditReset.PLAN_CREDITS.

(** The database is down from the second statement on. *)
Definition cron_failing_at_pro : CreditReset.environment :=
  {| CreditReset.CRON_SECRET := None;
     CreditReset.now_iso := "2026-03-01T00:00:00.000Z";
     CreditReset.db_now := 1790000000000;
     CreditReset.update_fails := λ p, negb (bool_decide (p = "starter")) |}.

Definition at_sign : ascii := "@"%char.

(** A user who signs up with an e-mail address and no name. *)
Definition carol : Signup.auth_user :=
  {| Signup.new_id := "carol";
     Signup.new_email := Some "carol.jones@example.com";
     Signup.new_full_name := None |}.

(** [set plan = 'enterprise', credits_remaining = 1000] *)
Definition self_upgrade : Profiles.profile_patch :=
  {| Profiles.set_email := None; Profiles.set_full_name := None;
     Profiles.set_plan := Some (Some "enterprise");
     Profiles.set_credits_remaining := Some (Some 1000%Z);
     Profiles.set_stripe_customer_id := None |}.

(** *** What the webhook handler keeps *)

(** A handler keeps a relation on worlds when every run of it leaves
    a world related to the one it started in. *)
Definition keeps {A} (R : StripeWebhook.world → StripeWebhook.world → Prop)
    (m : StripeWebhook.M A) : Prop :=
  ∀ w, R w (m w).2.

(** The jobs are the same, every profile is there with its e-mail
    address and name, and no subscription row has gone. *)
Definition people_kept (w w' : StripeWebhook.world) : Prop :=
  Schema.book_jobs (StripeWebhook.db w') = Schema.book_jobs (StripeWebhook.db w)
  ∧ (∀ id, Schema.email <$> Schema.profiles (StripeWebhook.db w') !! id
           = Schema.email <$> Schema.profiles (StripeWebhook.db w) !! id)
  ∧ (∀ id, Schema.full_name <$> Schema.profiles (StripeWebhook.db w') !! id
           = Schema.full_name <$> Schema.profiles (StripeWebhook.db w) !! id)
  ∧ (∀ id, is_Some (Schema.subscriptions (StripeWebhook.db w) !! id) →
           is_Some (Schema.subscriptions (StripeWebhook.db w') !! id)).

(** Every profile passes the CHECK on its plan. *)
Definition plans_valid (d : Schema.database) : Prop :=
  map_Forall (λ _ r, Schema.plan_check (Schema.plan r) = true)
             (Schema.profiles d).

Definition plans_kept (w w' : StripeWebhook.world) : Prop :=
  plans_valid (StripeWebhook.db w) → plans_valid (StripeWebhook.db w').

(** The sender of the billing mails. *)
Definition sender (env : StripeWebhook.environment) : string :=
  str_or (StripeWebhook.RESEND_FROM_EMAIL env) "BOOKFORGE <onboarding@resend.dev>".

(** The mail sent before is still there, what was added comes from
    the sender, and nothing was added when there is no API key. *)
Definition mail_kept (env : StripeWebhook.environment)
    (w w' : StripeWebhook.world) : Prop :=
  ∃ added,
    StripeWebhook.outbox w' = StripeWebhook.outbox w ++ added
    ∧ Forall (λ m, StripeWebhook.from m = sender env) added
    ∧ (falsy (StripeWebhook.RESEND_API_KEY env) = true → added = []).

(** *** Deliveries of Stripe *)

(** Stripe accepts the signature of [req] and delivers [ev]. *)
Definition delivers (env : StripeWebhook.environment) (req : request)
    (ev : StripeWebhook.event) : Prop :=
  ∃ sig secret,
    str_or_null (header "stripe-signature" req) = Some sig
    ∧ str_or_null (StripeWebhook.STRIPE_WEBHOOK_SECRET env) = Some secret
    ∧ StripeWebhook.constructEvent env (body req) sig secret = inr ev.

(** The subscription bob pays for. *)
Definition sub_1 : StripeWebhook.stripe_subscription :=
  {| StripeWebhook.subscription_id := "sub_1";
     StripeWebhook.metadata_user_id := Some "bob";
     StripeWebhook.metadata_plan := Some "pro";
     StripeWebhook.subscription_status := "active";
     StripeWebhook.subscription_period_end := Some 1800000000%Z;
     StripeWebhook.subscription_cancel_at_period_end := false |}.

(** A subscription whose period ends after the last day of [Date]. *)
Definition sub_2 : StripeWebhook.stripe_subscription :=
  {| StripeWebhook.subscription_id := "sub_2";
     StripeWebhook.metadata_user_id := Some "bob";
     StripeWebhook.metadata_plan := Some "pro";
     StripeWebhook.subscription_status := "active";
     StripeWebhook.subscription_period_end := Some 8640000000001%Z;
     StripeWebhook.subscription_cancel_at_period_end := false |}.

(** A subscription whose period ends with the first second of the year
    10000. *)
Definition sub_3 : StripeWebhook.stripe_subscription :=
  {| StripeWebhook.subscription_id := "sub_3";
     StripeWebhook.metadata_user_id := Some "bob";
     StripeWebhook.metadata_plan := Some "pro";
     StripeWebhook.subscription_status := "active";
     StripeWebhook.subscription_period_end := Some 253402300800%Z;
     StripeWebhook.subscription_cancel_at_period_end := false |}.

(** A server to which Stripe delivers [ev] and that knows the
    subscriptions above. *)
Definition stripe_env (key : option string) (ev : StripeWebhook.event)
    : StripeWebhook.environment :=
  {| StripeWebhook.STRIPE_WEBHOOK_SECRET := Some "whsec";
     StripeWebhook.RESEND_API_KEY := key;
     StripeWebhook.RESEND_FROM_EMAIL := None;
     StripeWebhook.constructEvent := λ _ _ _, inr ev;
     StripeWebhook.subscriptions_retrieve := λ id,
       if bool_decide (id = "sub_1") then inr sub_1
       else if bool_decide (id = "sub_2") then inr sub_2
       else if bool_decide (id = "sub_3") then inr sub_3
       else inl "No such subscription";
     StripeWebhook.date_now := 1790000000000;
     StripeWebhook.db_now := 1790000000000;
     StripeWebhook.random_uuid := "sub-row-1" |}.

Definition signed : request :=
  Samples.request_with [("stripe-signature", "v1=whsec")].

(** Bob has paid for [plan] with the subscription [sub]. *)
Definition bob_session (plan sub : string) : StripeWebhook.checkout_session :=
  {| StripeWebhook.session_user_id := Some "bob";
     StripeWebhook.session_plan := Some plan;
     StripeWebhook.session_subscription := Some sub;
     StripeWebhook.session_customer := Some "cus_1" |}.

Definition bob_checkout (plan : string) : StripeWebhook.event :=
  StripeWebhook.CheckoutSessionCompleted (bob_session plan "sub_1").

(** The events the handler has nothing to do for: a type it does not
    list, metadata or ids that are missing or empty, and a failed
    payment of a customer that is not the customer of exactly one
    profile. *)
Definition nothing_to_do (ev : StripeWebhook.event) (d : Schema.database) : Prop :=
  match ev with
  | StripeWebhook.CheckoutSessionCompleted session =>
      falsy (StripeWebhook.session_user_id session)
      || falsy (StripeWebhook.session_plan session)
      || falsy (StripeWebhook.session_subscription session)
      || falsy (StripeWebhook.session_customer session) = true
  | StripeWebhook.CustomerSubscriptionUpdated sub =>
      falsy (StripeWebhook.metadata_user_id sub)
      || falsy (StripeWebhook.metadata_plan sub) = true
  | StripeWebhook.CustomerSubscriptionDeleted sub =>
      falsy (StripeWebhook.metadata_user_id sub) = true
  | StripeWebhook.InvoicePaymentFailed inv =>
      length (map_to_list
                (filter (λ kr : Schema.uuid * Schema.profile,
                           Schema.stripe_customer_id kr.2
                           = Some (StripeWebhook.invoice_customer inv))
                        (Schema.profiles d))) ≠ 1%nat
  | StripeWebhook.OtherEvent _ => True
  end.

End More.

(** * Properties *)

(** ** The job table *)

Section JobTable.
Import Schema Observations Samples.

Lemma owns_true uid r : owns uid r = true ↔ uid = user_id r.
Proof. unfold owns. apply bool_decide_eq_true. Qed.

Lemma owns_false uid r : owns uid r = false ↔ uid ≠ user_id r.
Proof. unfold owns. apply bool_decide_eq_false. Qed.

(** What the select policy lets a user read of one key. *)
Lemma select_job_eq uid id d :
  select_job uid id d =
  match book_jobs d !! id with
  | Some r => if owns uid r then Some r else None
  | None => None
  end.
Proof.
  unfold select_job, select_jobs.
  destruct (book_jobs d !! id) as [r|] eqn:E.
  - destruct (owns uid r) eqn:O.
    + apply map_lookup_filter_Some. auto.
    + apply map_lookup_filter_None. right. intros r' E' O'.
      cbn in O'. congruence.
  - apply map_lookup_filter_None. left. exact E.
Qed.

(** A lookup finds nothing exactly when no job of that key belongs to
    the caller. *)
Lemma select_job_None uid id d :
  select_job uid id d = None ↔
  ∀ r, book_jobs d !! id = Some r → user_id r ≠ uid.
Proof.
  rewrite select_job_eq. split.
  - intros H r E. rewrite E in H. destruct (owns uid r) eqn:O; [discriminate|].
    apply owns_false in O. congruence.
  - intros H. destruct (book_jobs d !! id) as [r|]; [|reflexivity].
    destruct (owns uid r) eqn:O; [|reflexivity].
    apply owns_true in O. exfalso. apply (H r); congruence.
Qed.

(** Another user's row does not show in what a user can select. *)
Lemma select_jobs_insert_foreign uid id r d :
  user_id r ≠ uid →
  book_jobs d !! id = None →
  select_jobs uid (with_jobs d (<[id := r]> (book_jobs d))) = select_jobs uid d.
Proof.
  intros Hne Hfresh. unfold select_jobs. cbn.
  rewrite map_filter_insert_not'.
  - reflexivity.
  - cbn. rewrite owns_true. congruence.
  - intros r' E. congruence.
Qed.

(** Rows that pass the CHECK constraints. *)
Lemma job_checks_spec r :
  job_checks r = true ↔
  status r ∈ ["queued"; "running"; "completed"; "failed"]
  ∧ (0 ≤ progress r ≤ 100)%Z.
Proof.
  unfold job_checks, status_check, progress_check.
  rewrite !andb_true_iff, bool_decide_eq_true, Z.leb_le, Z.leb_le. tauto.
Qed.

Lemma insert_job_inv uid now id v d d' :
  insert_job uid now id v d = inr d' →
  user_id (new_job now v) = uid
  ∧ job_checks (new_job now v) = true
  ∧ book_jobs d !! id = None
  ∧ d' = with_jobs d (<[id := new_job now v]> (book_jobs d)).
Proof.
  unfold insert_job.
  destruct (owns uid (new_job now v)) eqn:O; cbn; [|discriminate].
  destruct (job_checks (new_job now v)) eqn:C; cbn; [|discriminate].
  case_bool_decide as F; [discriminate|].
  case_bool_decide; [|discriminate].
  intros [= <-]. apply owns_true in O.
  repeat split; auto.
  destruct (book_jobs d !! id) eqn:E; [|reflexivity].
  exfalso. apply F. eauto.
Qed.

Lemma update_job_inv uid now id p d d' n :
  update_job uid now id p d = inr (d', n) →
  (n = 0%nat ∧ d' = d)
  ∨ ∃ r, book_jobs d !! id = Some r ∧ user_id r = uid
         ∧ job_checks (patched now p r) = true
         ∧ n = 1%nat
         ∧ d' = with_jobs d (<[id := patched now p r]> (book_jobs d)).
Proof.
  unfold update_job.
  destruct (book_jobs d !! id) as [r|] eqn:E.
  - destruct (owns uid r) eqn:O; cbn.
    + destruct (owns uid (patched now p r)); cbn; [|discriminate].
      destruct (job_checks (patched now p r)) eqn:C; cbn; [|discriminate].
      intros [= <- <-]. right. exists r. apply owns_true in O. auto.
    + intros [= <- <-]. auto.
  - intros [= <- <-]. auto.
Qed.

End JobTable.

(** ** The job table: claims *)

Section JobTableClaims.
Import Schema Observations Samples.

(** C4, as stated, fails on the schema: the owner's update of a
    completed job is applied.  Here alice moves her completed job
    [job-1] back to [running] with progress 5 and no result. *)
Lemma terminal_job_update_applied :
  book_jobs db_done !! "job-1" = Some done_job
  ∧ terminal done_job = true
  ∧ update_job "alice" 200 "job-1" restart db_done
    = inr (with_jobs db_done (<["job-1" := restarted_job]> (book_jobs db_done)),
           1%nat)
  ∧ terminal restarted_job = false.
Proof. repeat split; vm_compute; reflexivity. Qed.

(** C4, amended: a terminal job is shielded from other users only.  An
    update statement of a user who does not own the row updates no row
    and leaves the database as it is; the owner's update is applied
    whenever the new row keeps the owner and passes the CHECK
    constraints on status and progress; and whatever update goes
    through leaves a row that passes those constraints. *)
Theorem update_terminal_job uid now id p d r :
  book_jobs d !! id = Some r →
  terminal r = true →
  (user_id r ≠ uid → update_job uid now id p d = inr (d, 0%nat))
  ∧ (user_id r = uid →
     user_id (patched now p r) = uid →
     job_checks (patched now p r) = true →
     update_job uid now id p d
     = inr (with_jobs d (<[id := patched now p r]> (book_jobs d)), 1%nat))
  ∧ (∀ d' n r', update_job uid now id p d = inr (d', n) →
       book_jobs d' !! id = Some r' →
       r' = r ∨ (n = 1%nat ∧ user_id r' = uid ∧ job_checks r' = true)).
Proof.
  intros E _. repeat split.
  - intros Hne. unfold update_job. rewrite E.
    assert (owns uid r = false) as -> by (apply owns_false; congruence).
    reflexivity.
  - intros Ho Ho' Hc. unfold update_job. rewrite E.
    assert (owns uid r = true) as -> by (apply owns_true; congruence).
    assert (owns uid (patched now p r) = true) as ->
      by (apply owns_true; congruence).
    rewrite Hc. reflexivity.
  - intros d' n r' Hu E'.
    destruct (update_job_inv _ _ _ _ _ _ _ Hu) as [[-> ->]|(r0 & E0 & Ho & Hc & -> & ->)].
    + left. congruence.
    + right. cbn in E'. rewrite lookup_insert_eq in E'.
      injection E' as <-. repeat split; auto.
      unfold update_job in Hu. rewrite E0 in Hu.
      assert (owns uid r0 = true) as O by (apply owns_true; congruence).
      rewrite O in Hu. cbn in Hu.
      destruct (owns uid (patched now p r0)) eqn:O'; [|discriminate].
      apply owns_true in O'. congruence.
Qed.

Lemma update_terminal_job_witness :
  update_job "bob" 200 "job-1" restart db_done = inr (db_done, 0%nat)
  ∧ update_job "alice" 200 "job-1" restart db_done
    = inr (with_jobs db_done
             (<["job-1" := patched 200 restart done_job]> (book_jobs db_done)),
           1%nat).
Proof.
  pose proof (update_terminal_job "bob" 200 "job-1" restart db_done done_job
                eq_refl eq_refl) as (Hb & _ & _).
  pose proof (update_terminal_job "alice" 200 "job-1" restart db_done done_job
                eq_refl eq_refl) as (_ & Ha & _).
  split.
  - apply Hb. discriminate.
  - apply Ha; reflexivity.
Defined.

(** C5, as stated, fails on the schema: the table takes a row that is
    [completed] and holds neither a result nor an error, and a row that
    is [queued] and holds both. *)
Lemma completed_row_without_result :
  insert_job "alice" 100 "job-2" completed_without_result db_done
  = inr (with_jobs db_done
           (<["job-2" := new_job 100 completed_without_result]>
              (book_jobs db_done)))
  ∧ terminal (new_job 100 completed_without_result) = true
  ∧ result_json (new_job 100 completed_without_result) = None
  ∧ error (new_job 100 completed_without_result) = None
  ∧ payload_invariant (new_job 100 completed_without_result) = false
  ∧ insert_job "alice" 100 "job-2" queued_with_result db_done
    = inr (with_jobs db_done
             (<["job-2" := new_job 100 queued_with_result]> (book_jobs db_done)))
  ∧ status (new_job 100 queued_with_result) = "queued"
  ∧ result_json (new_job 100 queued_with_result) = Some "{}"
  ∧ error (new_job 100 queued_with_result) = Some "late"
  ∧ payload_invariant (new_job 100 queued_with_result) = false.
Proof. repeat split; vm_compute; reflexivity. Qed.

(** C5, amended: result and error are two nullable columns the schema
    does not tie to the status.  What the schema gives is that a job
    inserted with the column defaults starts [queued] at progress 0
    with neither a result nor an error, and that every row an insert
    puts in the table has one of the four statuses and a progress
    between 0 and 100. *)
Theorem insert_job_defaults uid now id req d :
  is_Some (profiles d !! uid) →
  book_jobs d !! id = None →
  let r := new_job now (queued_values uid req) in
  insert_job uid now id (queued_values uid req) d
  = inr (with_jobs d (<[id := r]> (book_jobs d)))
  ∧ status r = "queued" ∧ progress r = 0%Z
  ∧ result_json r = None ∧ error r = None
  ∧ payload_invariant r = true
  ∧ (∀ v d', insert_job uid now id v d = inr d' →
       book_jobs d' !! id = Some (new_job now v)
       ∧ status (new_job now v) ∈ ["queued"; "running"; "completed"; "failed"]
       ∧ (0 ≤ progress (new_job now v) ≤ 100)%Z).
Proof.
  intros Hp Hfresh r. repeat split; try reflexivity.
  - unfold insert_job. cbn.
    assert (owns uid (new_job now (queued_values uid req)) = true) as ->
      by (apply owns_true; reflexivity).
    cbn. rewrite Hfresh.
    rewrite (bool_decide_eq_false_2 (is_Some None))
      by (intros [? ?]; discriminate).
    rewrite bool_decide_eq_true_2 by exact Hp. reflexivity.
  - apply insert_job_inv in H as (_ & _ & _ & ->). cbn.
    apply lookup_insert_eq.
  - apply insert_job_inv in H as (_ & C & _ & _).
    apply job_checks_spec in C. tauto.
  - apply insert_job_inv in H as (_ & C & _ & _).
    apply job_checks_spec in C. tauto.
  - apply insert_job_inv in H as (_ & C & _ & _).
    apply job_checks_spec in C. tauto.
Qed.

Lemma insert_job_defaults_witness :
  insert_job "bob" 100 "job-2" (queued_values "bob" (Some "{}")) db_done
  = inr (with_jobs db_done
           (<["job-2" := new_job 100 (queued_values "bob" (Some "{}"))]>
              (book_jobs db_done))).
Proof.
  apply (insert_job_defaults "bob" 100 "job-2" (Some "{}") db_done).
  - vm_compute. eauto.
  - reflexivity.
Defined.

(** C8: a status lookup by a user who owns no job of that key finds
    nothing, in the same way whether the key is unused or is the key of
    another user's job; adding another user's job changes nothing in
    what the user can select. *)
Theorem select_job_not_found_uniform uid id d r :
  book_jobs d !! id = None →
  user_id r ≠ uid →
  let d' := with_jobs d (<[id := r]> (book_jobs d)) in
  select_job uid id d = None
  ∧ select_job uid id d' = None
  ∧ select_jobs uid d' = select_jobs uid d.
Proof.
  intros Hfresh Hne d'. repeat split.
  - apply select_job_None. intros r' E. congruence.
  - apply select_job_None. intros r' E. subst d'. cbn in E.
    rewrite lookup_insert_eq in E. congruence.
  - apply select_jobs_insert_foreign; assumption.
Qed.

Lemma select_job_not_found_uniform_witness :
  select_job "bob" "job-9" db_done = None
  ∧ select_job "bob" "job-9"
      (with_jobs db_done (<["job-9" := done_job]> (book_jobs db_done))) = None
  ∧ select_jobs "bob"
      (with_jobs db_done (<["job-9" := done_job]> (book_jobs db_done)))
    = select_jobs "bob" db_done.
Proof.
  apply (select_job_not_found_uniform "bob" "job-9" db_done done_job).
  - reflexivity.
  - discriminate.
Defined.

End JobTableClaims.

(** ** The polling loop *)

Section PollingLoop.
Import JS Dashboard Observations.

Variable job_id : string.
Variable env : nat → tick.

(** One unfolding of the loop at a turn that is within the time limit. *)
Lemma poll_loop_turn fuel i elapsed :
  (elapsed ≤ timeoutMs)%Z →
  poll_loop (S fuel) job_id env i elapsed =
  match poll_once (status_fetch (env i)) with
  | (evs, Break data) => Some ([GetJob job_id], evs, Completed data)
  | (evs, Throw message) => Some ([GetJob job_id], evs, Thrown message)
  | (evs, Wait) => Some ([GetJob job_id], evs, Pending)
  | (evs, Continue) =>
      match poll_loop fuel job_id env (S i) (elapsed + turn_ms (env i)) with
      | Some (reqs, evs', e) => Some (GetJob job_id :: reqs, evs ++ evs', e)
      | None => None
      end
  end.
Proof.
  intros H. cbn [poll_loop].
  destruct (timeoutMs <? elapsed)%Z eqn:T; [|reflexivity].
  apply Z.ltb_lt in T. lia.
Qed.

(** The loop gives up at a turn whose test finds the limit exceeded. *)
Lemma poll_loop_late fuel i elapsed :
  (timeoutMs < elapsed)%Z →
  poll_loop (S fuel) job_id env i elapsed = Some ([], [], timed_out).
Proof.
  intros H. cbn [poll_loop].
  destruct (timeoutMs <? elapsed)%Z eqn:T; [reflexivity|].
  apply Z.ltb_ge in T. lia.
Qed.



Lemma shown_progress_app evs evs' :
  shown_progress (evs ++ evs') = shown_progress evs ++ shown_progress evs'.
Proof. apply omap_app. Qed.

(** Every progress value a status turn displays lies between 10 and 99. *)
Lemma on_status_progress s :
  Forall (λ p, (10 ≤ p ≤ 99)%Z) (shown_progress (on_status s).1).
Proof.
  unfold on_status. cbn [fst]. rewrite shown_progress_app.
  apply Forall_app. split.
  - destruct (job_progress s) as [p|]; cbn; constructor; [lia|constructor].
  - destruct (job_step s) as [l|]; [|constructor].
    case_bool_decide; constructor.
Qed.

Lemma poll_once_progress f :
  Forall (λ p, (10 ≤ p ≤ 99)%Z) (shown_progress (poll_once f).1).
Proof.
  destruct f as [[m|r]|]; cbn; [constructor| |constructor].
  destruct (ok r); cbn; [|constructor].
  destruct (json r); cbn; [constructor|]. apply on_status_progress.
Qed.

(** The loop never displays a progress above 99. *)
Lemma poll_loop_progress fuel : ∀ i elapsed reqs evs e,
  poll_loop fuel job_id env i elapsed = Some (reqs, evs, e) →
  Forall (λ p, (10 ≤ p ≤ 99)%Z) (shown_progress evs).
Proof.
  induction fuel as [|fuel IH]; intros i elapsed reqs evs e; [discriminate|].
  cbn [poll_loop].
  destruct (timeoutMs <? elapsed)%Z.
  { intros [= <- <- <-]. constructor. }
  pose proof (poll_once_progress (status_fetch (env i))) as Hp.
  destruct (poll_once (status_fetch (env i))) as [evs0 [|data|message|]];
    cbn [fst] in Hp.
  - destruct (poll_loop fuel job_id env (S i) (elapsed + turn_ms (env i)))
      as [[[reqs' evs'] e']|] eqn:E; [|discriminate].
    intros [= <- <- <-]. rewrite shown_progress_app.
    apply Forall_app. split; [exact Hp|].
    exact (IH _ _ _ _ _ E).
  - intros [= <- <- <-]. exact Hp.
  - intros [= <- <- <-]. exact Hp.
  - intros [= <- <- <-]. exact Hp.
Qed.

(** [n + 1] turns of fuel reach the end of the loop once [n] more
    delays pass the limit. *)
Lemma poll_loop_total n : ∀ i elapsed,
  (timeoutMs < elapsed + pollDelayMs * Z.of_nat n)%Z →
  ∃ reqs evs e, poll_loop (S n) job_id env i elapsed = Some (reqs, evs, e)
                ∧ (length reqs ≤ n)%nat.
Proof.
  induction n as [|n IH]; intros i elapsed Ht.
  - rewrite poll_loop_late by (unfold pollDelayMs in Ht; lia).
    exists [], [], timed_out. auto.
  - destruct (Z_lt_le_dec timeoutMs elapsed) as [L|L].
    + rewrite poll_loop_late by lia.
      exists [], [], timed_out. cbn. split; [reflexivity|lia].
    + rewrite poll_loop_turn by lia.
      destruct (poll_once (status_fetch (env i))) as [evs [|data|message|]].
      * destruct (IH (S i) (elapsed + turn_ms (env i))%Z)
          as (reqs & evs' & e & E & Hl).
        { unfold turn_ms, pollDelayMs in *. lia. }
        rewrite E. exists (GetJob job_id :: reqs), (evs ++ evs'), e.
        cbn. split; [reflexivity|lia].
      * exists [GetJob job_id], evs, (Completed data).
        cbn. split; [reflexivity|lia].
      * exists [GetJob job_id], evs, (Thrown message).
        cbn. split; [reflexivity|lia].
      * exists [GetJob job_id], evs, Pending.
        cbn. split; [reflexivity|lia].
Qed.


(** The clock only moves forward. *)
Lemma clock_after_le k : ∀ i elapsed,
  (elapsed ≤ clock_after env i k elapsed)%Z.
Proof.
  induction k as [|k IH]; intros i elapsed; cbn [clock_after]; [lia|].
  specialize (IH (S i) (elapsed + turn_ms (env i))%Z).
  unfold turn_ms, pollDelayMs in *. lia.
Qed.

(** While the turns poll on within the limit, the loop goes through
    them, one status read each. *)
Lemma poll_loop_ahead k : ∀ fuel i elapsed,
  (∀ j, (i ≤ j < i + k)%nat → (poll_once (status_fetch (env j))).2 = Continue) →
  (clock_after env i k elapsed ≤ timeoutMs)%Z →
  ∃ evs0,
    poll_loop (k + fuel) job_id env i elapsed
    = match poll_loop fuel job_id env (i + k) (clock_after env i k elapsed) with
      | Some (reqs, evs, e) =>
          Some (replicate k (GetJob job_id) ++ reqs, evs0 ++ evs, e)
      | None => None
      end.
Proof.
  induction k as [|k IH]; intros fuel i elapsed Hc Ht.
  - exists []. cbn. rewrite Nat.add_0_r.
    destruct (poll_loop fuel job_id env i elapsed) as [[[reqs evs] e]|]; reflexivity.
  - cbn [clock_after] in Ht.
    pose proof (clock_after_le k (S i) (elapsed + turn_ms (env i))%Z) as Hle.
    assert (elapsed ≤ timeoutMs)%Z as Hnow
      by (unfold turn_ms, pollDelayMs in *; lia).
    destruct (IH fuel (S i) (elapsed + turn_ms (env i))%Z) as [evs1 E].
    { intros j Hj. apply Hc. lia. }
    { exact Ht. }
    pose proof (Hc i ltac:(lia)) as Hi.
    destruct (poll_once (status_fetch (env i))) as [evs0 stp] eqn:Ep.
    cbn in Hi. subst stp.
    exists (evs0 ++ evs1).
    change (S k + fuel)%nat with (S (k + fuel)).
    rewrite poll_loop_turn by exact Hnow. rewrite Ep, E.
    cbn [clock_after]. replace (i + S k)%nat with (S i + k)%nat by lia.
    destruct (poll_loop fuel job_id env (S i + k)
                (clock_after env (S i) k (elapsed + turn_ms (env i))))
      as [[[reqs evs] e]|]; [|reflexivity].
    cbn. rewrite app_assoc. reflexivity.
Qed.



End PollingLoop.

(** ** The polling loop: claims *)

Section PollerClaims.
Import JS Dashboard Observations Samples.

(** C1, as stated, fails on the loop: the first status fetch answers
    with a server error, the next one (1800 ms later, far inside the 15
    minutes) would find the job completed, and the loop has already
    thrown; the page of a production build shows the fetch error and no
    book. *)
Lemma failed_fetch_is_not_retried :
  status_fetch (flaky_ticks 0) = Answers server_error
  ∧ status_fetch (flaky_ticks 1)
    = Answers (ok_json (completed_status written_book))
  ∧ poll_loop 502 "job-7" flaky_ticks 0 0
    = Some ([GetJob "job-7"], [], Thrown "Could not read generation status")
  ∧ (let st := researched Pro in
     match generateBook 502 (production flaky_ticks) st with
     | Some (reqs, evs, done) =>
         reqs = [PostGenerateAsync (build_payload st (recommended_opportunity mockResearch));
                 GetJob "job-7"]
         ∧ error (render st evs) = Some "Could not read generation status"
         ∧ generatedBook (render st evs) = None
         ∧ step (render st evs) = ResearchDone
     | None => False
     end).
Proof. repeat split; vm_compute; reflexivity. Qed.

(** C1, amended: a failed status fetch ends the polling loop at once.
    At a turn within the time limit, a response that is not [ok] makes
    the loop throw "Could not read generation status", and a fetch that
    rejects makes it throw the fetch's own error; in both cases the
    status read of that turn is the last request, whatever the later
    fetches would have answered.  The error differs from the timeout
    error and from the default error of a failed job. *)
Theorem failed_fetch_ends_polling fuel job_id env i elapsed :
  (elapsed ≤ timeoutMs)%Z →
  (∀ r, status_fetch (env i) = Answers (Settled r) → ok r = false →
     poll_loop (S fuel) job_id env i elapsed
     = Some ([GetJob job_id], [], Thrown "Could not read generation status"))
  ∧ (∀ message, status_fetch (env i) = Answers (Rejected message) →
       poll_loop (S fuel) job_id env i elapsed
       = Some ([GetJob job_id], [], Thrown message))
  ∧ Thrown "Could not read generation status" ≠ timed_out
  ∧ Thrown "Could not read generation status" ≠ Thrown "Generation failed".
Proof.
  intros Ht. repeat split.
  - intros r E Hok. rewrite poll_loop_turn by exact Ht.
    rewrite E. cbn. rewrite Hok. reflexivity.
  - intros message E. rewrite poll_loop_turn by exact Ht.
    rewrite E. reflexivity.
  - discriminate.
  - discriminate.
Qed.

Lemma failed_fetch_ends_polling_witness :
  poll_loop 502 "job-7" flaky_ticks 0 0
  = Some ([GetJob "job-7"], [], Thrown "Could not read generation status").
Proof.
  refine (proj1 (failed_fetch_ends_polling 501 "job-7" flaky_ticks 0 0 _) _ eq_refl eq_refl).
  vm_compute. discriminate.
Defined.




(** C6: one status fetch.  At a turn within the time limit whose fetch
    gives a readable status, the loop first displays the progress, kept
    between 10 and 99, and the step; then a [completed] status ends the
    loop with the stored result, a [failed] status ends it by throwing
    the stored error (or "Generation failed" when none is stored), and
    any other status makes it poll again. *)
Theorem poll_turn fuel job_id env i elapsed r s :
  (elapsed ≤ timeoutMs)%Z →
  status_fetch (env i) = Answers (Settled r) →
  ok r = true →
  json r = inr s →
  let shown := (on_status s).1 in
  Forall (λ p, (10 ≤ p ≤ 99)%Z) (shown_progress shown)
  ∧ shown
    = match job_progress s with
      | Some p => [SetGenerationProgress (Z.min 99 (Z.max p 10))]
      | None => []
      end
      ++ match JS.str_or_null (job_step s) with
         | Some l => [SetGenerationStep l]
         | None => []
         end
  ∧ (job_state s = Some "completed" →
     poll_loop (S fuel) job_id env i elapsed
     = Some ([GetJob job_id], shown, Completed (job_result s)))
  ∧ (job_state s = Some "failed" →
     poll_loop (S fuel) job_id env i elapsed
     = Some ([GetJob job_id], shown,
             Thrown (JS.str_or (job_error s) "Generation failed"))
     ∧ ∀ e, job_error s = Some e → e ≠ "" →
         poll_loop (S fuel) job_id env i elapsed
         = Some ([GetJob job_id], shown, Thrown e))
  ∧ (job_state s ≠ Some "completed" →
     job_state s ≠ Some "failed" →
     poll_loop (S fuel) job_id env i elapsed
     = match poll_loop fuel job_id env (S i) (elapsed + turn_ms (env i)) with
       | Some (reqs, evs, e) => Some (GetJob job_id :: reqs, shown ++ evs, e)
       | None => None
       end).
Proof.
  intros Ht E Hok Hj shown.
  assert (poll_once (status_fetch (env i)) = on_status s) as Hp.
  { rewrite E. cbn. rewrite Hok, Hj. reflexivity. }
  split; [|split; [|split; [|split]]].
  - apply on_status_progress.
  - subst shown. unfold on_status. cbn [fst]. f_equal.
    destruct (job_step s) as [l|]; [|reflexivity].
    cbn. case_bool_decide; reflexivity.
  - intros Hs. rewrite poll_loop_turn by exact Ht. rewrite Hp.
    subst shown. unfold on_status. cbn [fst].
    rewrite bool_decide_eq_true_2 by exact Hs. reflexivity.
  - intros Hs.
    assert (poll_loop (S fuel) job_id env i elapsed
            = Some ([GetJob job_id], shown,
                    Thrown (str_or (job_error s) "Generation failed"))) as Hl.
    { rewrite poll_loop_turn by exact Ht. rewrite Hp.
      subst shown. unfold on_status. cbn [fst].
      rewrite bool_decide_eq_false_2 by (rewrite Hs; discriminate).
      rewrite bool_decide_eq_true_2 by exact Hs. reflexivity. }
    split; [exact Hl|].
    intros e He Hne. rewrite Hl, He. cbn.
    rewrite bool_decide_eq_false_2 by exact Hne. reflexivity.
  - intros Hc Hf. rewrite poll_loop_turn by exact Ht. rewrite Hp.
    subst shown. unfold on_status. cbn [fst].
    rewrite bool_decide_eq_false_2 by exact Hc.
    rewrite bool_decide_eq_false_2 by exact Hf. reflexivity.
Qed.

Lemma poll_turn_witness :
  poll_loop 500 "job-7" steady_ticks 2 3900
  = Some ([GetJob "job-7"],
          [SetGenerationProgress 99; SetGenerationStep "Done"],
          Completed (Some written_book)).
Proof.
  refine (proj1 (proj2 (proj2
    (poll_turn 499 "job-7" steady_ticks 2 3900 _
       (completed_status written_book) _ eq_refl eq_refl eq_refl))) eq_refl).
  vm_compute. discriminate.
Defined.

End PollerClaims.

(** ** The generation request *)

Section GenerationRequest.
Import JS Dashboard Observations Samples.

(** In a production build an error of the [try] block is reported and
    no mock book is shown. *)
Lemma generateBook_production_error fuel env st o reqs evs message :
  selectedOpportunity st = Some o →
  NODE_ENV env = Some "production" →
  try_generate fuel env st o = Some (reqs, evs, Thrown message) →
  generateBook fuel env st
  = Some (reqs,
          intro_events ++ evs ++ [SetError (Some message); SetStep ResearchDone],
          Returned).
Proof.
  intros Ho Hn Ht. unfold generateBook. rewrite Ho, Ht, Hn. reflexivity.
Qed.

(** In any other build the mock book is shown in its place. *)
Lemma generateBook_development_error fuel env st o reqs evs message :
  selectedOpportunity st = Some o →
  NODE_ENV env ≠ Some "production" →
  try_generate fuel env st o = Some (reqs, evs, Thrown message) →
  generateBook fuel env st
  = Some (reqs,
          intro_events ++ evs
          ++ [SetError (Some ("Using local demo fallback: " +:+ message))]
          ++ show_book mockBook,
          Returned).
Proof.
  intros Ho Hn Ht. unfold generateBook. rewrite Ho, Ht.
  rewrite bool_decide_eq_false_2 by exact Hn. reflexivity.
Qed.

(** 502 turns of fuel are enough for [generateBook]: by then its
    polling loop has ended, or waits for a read. *)
Lemma generateBook_returns env st :
  is_Some (generateBook 502 env st).
Proof.
  unfold generateBook.
  destruct (selectedOpportunity st) as [o|]; [|eauto].
  assert (is_Some (try_generate 502 env st o)) as [[[reqs evs] e] ->].
  { unfold try_generate. destruct (str_or_null (access_token env)); [|eauto].
    destruct (paid (plan st)); [|eauto].
    unfold generate_async.
    destruct (start_response env) as [m|r]; [eauto|].
    destruct (ok r); cbn [negb]; [|eauto].
    destruct (json r) as [m|job]; [eauto|].
    destruct (str_or_null job) as [id|]; [|eauto].
    destruct (poll_loop_total id (ticks env) 501 0%nat 0%Z)
      as (reqs & evs & e & -> & _); [vm_compute; reflexivity|eauto]. }
  destruct e as [[data|]|message|]; eauto.
  destruct (negb (negb (bool_decide (NODE_ENV env = Some "production")))); eauto.
Qed.




(** C7 at its failing input: the research API answers with a server
    error, and [runResearch], which never looks at the build, installs
    the mock research, selects its recommendation, and leaves no
    error. *)
Lemma research_failure_shows_mock_data :
  let out := runResearch fresh_page server_error in
  let st := render fresh_page out.2 in
  out.1 = [PostResearchAnalyze None "adults"]
  ∧ research st = Some mockResearch
  ∧ selectedOpportunity st = Some (recommended_opportunity mockResearch)
  ∧ error st = None
  ∧ step st = ResearchDone.
Proof. repeat split. Qed.

End GenerationRequest.

(** ** The Stripe webhook *)

Section Webhook.
Import JS Samples.
Import StripeWebhook.

(** A signed event goes through and changes the world: the deletion of
    alice's subscription moves her to the starter plan with no credits
    and sends her one mail. *)
Lemma signed_webhook_is_handled :
  let out := POST (hook_env (Some "whsec"))
                  (request_with [("stripe-signature", "v1=whsec")]) hook_world in
  status_code out.1 = 200%Z
  ∧ Schema.plan <$> Schema.profiles (db out.2) !! "alice" = Some (Some "starter")
  ∧ Schema.credits_remaining <$> Schema.profiles (db out.2) !! "alice"
    = Some (Some 0%Z)
  ∧ length (outbox out.2) = 1%nat.
Proof. repeat split; vm_compute; reflexivity. Qed.

(** C9: a webhook request whose [stripe-signature] header is missing
    or empty, whose webhook secret is unset or empty, or whose
    signature the Stripe library rejects, is answered with status 400
    and leaves the database and the mail sent as they were. *)
Theorem unsigned_webhook_rejected env req w :
  falsy (header "stripe-signature" req) = true
  ∨ falsy (STRIPE_WEBHOOK_SECRET env) = true
  ∨ (∃ sig secret message,
       header "stripe-signature" req = Some sig
       ∧ STRIPE_WEBHOOK_SECRET env = Some secret
       ∧ constructEvent env (body req) sig secret = inl message) →
  status_code (POST env req w).1 = 400%Z
  ∧ (POST env req w).2 = w
  ∧ db (POST env req w).2 = db w
  ∧ outbox (POST env req w).2 = outbox w.
Proof.
  intros H.
  assert (status_code (POST env req w).1 = 400%Z ∧ (POST env req w).2 = w)
    as [Hs Hw].
  { unfold POST.
    destruct (header "stripe-signature" req) as [sig|] eqn:Hsig; cbn.
    2:{ auto. }
    case_bool_decide as Hsig_empty.
    { auto. }
    destruct (STRIPE_WEBHOOK_SECRET env) as [secret|] eqn:Hsec; cbn.
    2:{ auto. }
    case_bool_decide as Hsec_empty.
    { auto. }
    destruct H as [H|[H|(sig' & secret' & message & [= <-] & [= <-] & Hc)]].
    - cbn in H. apply bool_decide_eq_true in H. contradiction.
    - cbn in H. apply bool_decide_eq_true in H. contradiction.
    - rewrite Hc. auto. }
  rewrite Hw. auto.
Qed.

Lemma unsigned_webhook_rejected_witness :
  (status_code (POST (hook_env (Some "whsec")) (request_with []) hook_world).1
   = 400%Z
   ∧ (POST (hook_env (Some "whsec")) (request_with []) hook_world).2 = hook_world)
  ∧ (status_code
       (POST (hook_env None) (request_with [("stripe-signature", "v1=whsec")])
             hook_world).1 = 400%Z
     ∧ (POST (hook_env None) (request_with [("stripe-signature", "v1=whsec")])
             hook_world).2 = hook_world)
  ∧ (status_code
       (POST (hook_env (Some "whsec"))
             (request_with [("stripe-signature", "v1=forged")]) hook_world).1
     = 400%Z
     ∧ (POST (hook_env (Some "whsec"))
             (request_with [("stripe-signature", "v1=forged")]) hook_world).2
       = hook_world).
Proof.
  split; [|split].
  - refine (let H := unsigned_webhook_rejected (hook_env (Some "whsec"))
                       (request_with []) hook_world _ in
            conj (proj1 H) (proj1 (proj2 H))).
    left. reflexivity.
  - refine (let H := unsigned_webhook_rejected (hook_env None)
                       (request_with [("stripe-signature", "v1=whsec")])
                       hook_world _ in
            conj (proj1 H) (proj1 (proj2 H))).
    right. left. reflexivity.
  - refine (let H := unsigned_webhook_rejected (hook_env (Some "whsec"))
                       (request_with [("stripe-signature", "v1=forged")])
                       hook_world _ in
            conj (proj1 H) (proj1 (proj2 H))).
    right. right.
    exists "v1=forged", "whsec",
      "No signatures found matching the expected signature for payload".
    repeat split.
Defined.

End Webhook.

(** ** The credit reset *)

Section Cron.
Import JS Samples.
Import CreditReset.

(** An authorized call resets the credits of every plan. *)
Lemma authorized_reset_runs :
  let out := POST (cron_env (Some "s3"))
                  (request_with [("authorization", "Bearer s3")]) spent_profiles in
  status_code out.1 = 200%Z
  ∧ Schema.credits_remaining <$> out.2 !! "alice" = Some (Some 5%Z)
  ∧ Schema.credits_remaining <$> out.2 !! "bob" = Some (Some 1%Z).
Proof. repeat split; vm_compute; reflexivity. Qed.

(** C10, as stated, fails when [CRON_SECRET] is set to the empty
    string: a request that carries neither header is accepted, and the
    credits are reset. *)
Lemma empty_secret_accepts_every_request :
  CRON_SECRET (cron_env (Some "")) = Some ""
  ∧ header "x-cron-secret" (request_with []) = None
  ∧ header "authorization" (request_with []) = None
  ∧ isAuthorized (cron_env (Some "")) (request_with []) = true
  ∧ status_code (POST (cron_env (Some "")) (request_with []) spent_profiles).1
    = 200%Z
  ∧ Schema.credits_remaining
      <$> (POST (cron_env (Some "")) (request_with []) spent_profiles).2 !! "alice"
    = Some (Some 5%Z).
Proof. repeat split; vm_compute; reflexivity. Qed.

(** C10, amended: the check accepts every request when [CRON_SECRET]
    is unset or empty; when it is set to a non-empty secret, a request
    is accepted if and only if its [x-cron-secret] header equals the
    secret or its [authorization] header equals "Bearer " followed by
    the secret; and a request the check refuses is answered with
    status 401 and leaves the profiles as they were. *)
Theorem isAuthorized_spec env req t :
  (falsy (CRON_SECRET env) = true → isAuthorized env req = true)
  ∧ (∀ secret, CRON_SECRET env = Some secret → secret ≠ "" →
       (isAuthorized env req = true
        ↔ header "x-cron-secret" req = Some secret
          ∨ header "authorization" req = Some ("Bearer " +:+ secret)))
  ∧ (isAuthorized env req = false → POST env req t = (unauthorized, t)).
Proof.
  split; [|split].
  - unfold isAuthorized. destruct (CRON_SECRET env) as [s|]; cbn; [|reflexivity].
    intros H. rewrite H. reflexivity.
  - intros secret Hs Hne. unfold isAuthorized. rewrite Hs.
    cbn [str_or_null]. rewrite bool_decide_eq_false_2 by exact Hne. cbv zeta.
    assert (negb (falsy (header "x-cron-secret" req))
            && bool_decide (header "x-cron-secret" req = Some secret)
            = bool_decide (header "x-cron-secret" req = Some secret)) as ->.
    { destruct (header "x-cron-secret" req) as [h|]; cbn [falsy negb andb].
      - destruct (decide (h = "")) as [->|Hh].
        + rewrite (bool_decide_eq_false_2 (Some "" = Some secret)) by congruence.
          apply andb_false_r.
        + rewrite (bool_decide_eq_false_2 (h = "")) by exact Hh. reflexivity.
      - symmetry. apply bool_decide_eq_false_2. discriminate. }
    repeat case_bool_decide; split; intros; try tauto; try discriminate.
  - intros H. unfold POST. rewrite H. reflexivity.
Qed.

Lemma isAuthorized_spec_witness :
  isAuthorized (cron_env None) (request_with []) = true
  ∧ isAuthorized (cron_env (Some "s3")) (request_with [("x-cron-secret", "s3")])
    = true
  ∧ POST (cron_env (Some "s3")) (request_with [("x-cron-secret", "guess")])
         spent_profiles
    = (unauthorized, spent_profiles).
Proof.
  split; [|split].
  - exact (proj1 (isAuthorized_spec (cron_env None) (request_with [])
                    spent_profiles) eq_refl).
  - refine (proj2 (proj1 (proj2 (isAuthorized_spec (cron_env (Some "s3"))
              (request_with [("x-cron-secret", "s3")]) spent_profiles))
              "s3" eq_refl _) _).
    + discriminate.
    + left. reflexivity.
  - exact (proj2 (proj2 (isAuthorized_spec (cron_env (Some "s3"))
             (request_with [("x-cron-secret", "guess")]) spent_profiles))
             eq_refl).
Defined.

End Cron.

(** ** Further properties *)

Section Further.
Import JS Observations Samples.

(** X1: whatever the polling loop displays as progress lies between 10
    and 99, so the loop itself never shows 100 percent. *)
Theorem polling_progress_bounded fuel job_id env i elapsed :
  match Dashboard.poll_loop fuel job_id env i elapsed with
  | Some (_, evs, _) => Forall (λ p, (10 ≤ p ≤ 99)%Z) (shown_progress evs)
  | None => True
  end.
Proof.
  destruct (Dashboard.poll_loop fuel job_id env i elapsed)
    as [[[reqs evs] e]|] eqn:E; [|exact I].
  eapply poll_loop_progress. exact E.
Qed.

Lemma try_generate_progress fuel env st o reqs evs e :
  Dashboard.try_generate fuel env st o = Some (reqs, evs, e) →
  Forall (λ p, (10 ≤ p ≤ 99)%Z) (shown_progress evs).
Proof.
  unfold Dashboard.try_generate.
  destruct (str_or_null (Dashboard.access_token env)).
  2:{ intros [= <- <- <-]. constructor. }
  destruct (Dashboard.paid (Dashboard.plan st)).
  - unfold Dashboard.generate_async.
    destruct (Dashboard.start_response env) as [m|r].
    { intros [= <- <- <-]. constructor. }
    destruct (ok r); cbn [negb].
    2:{ intros [= <- <- <-]. constructor. }
    destruct (json r) as [m|job].
    { intros [= <- <- <-]. constructor. }
    destruct (str_or_null job) as [id|].
    2:{ intros [= <- <- <-]. constructor. }
    destruct (Dashboard.poll_loop fuel id (Dashboard.ticks env) 0 0)
      as [[[reqs' evs'] e']|] eqn:E; [|discriminate].
    intros [= <- <- <-]. eapply poll_loop_progress. exact E.
  - unfold Dashboard.generate_sync.
    destruct (Dashboard.generate_response env) as [m|r].
    { intros [= <- <- <-]. constructor. }
    destruct (ok r); cbn [negb].
    2:{ intros [= <- <- <-]. constructor. }
    destruct (json r); intros [= <- <- <-]; constructor.
Qed.

(** X2: in a production build, [generateBook] displays 100 percent only
    when its request came back with a book: the run then ends with the
    setter calls that show that book. *)
Theorem full_progress_only_with_book fuel env st reqs evs done :
  Dashboard.NODE_ENV env = Some "production" →
  Dashboard.generateBook fuel env st = Some (reqs, evs, done) →
  100%Z ∈ shown_progress evs →
  ∃ o evs' data,
    Dashboard.selectedOpportunity st = Some o
    ∧ Dashboard.try_generate fuel env st o
      = Some (reqs, evs', Dashboard.Completed (Some data))
    ∧ evs = Dashboard.intro_events ++ evs' ++ Dashboard.show_book data
    ∧ done = Dashboard.Returned.
Proof.
  intros Hprod. unfold Dashboard.generateBook.
  destruct (Dashboard.selectedOpportunity st) as [o|].
  2:{ intros [= <- <- <-] H. cbn in H. inversion H. }
  destruct (Dashboard.try_generate fuel env st o)
    as [[[reqs' evs'] e]|] eqn:E; [|discriminate].
  pose proof (try_generate_progress _ _ _ _ _ _ _ E) as Hp.
  assert (100%Z ∉ shown_progress (Dashboard.intro_events ++ evs')) as Hno.
  { rewrite shown_progress_app, elem_of_app. intros [H|H].
    - apply (bool_decide_pack _) in H. vm_compute in H. destruct H.
    - rewrite Forall_forall in Hp. specialize (Hp _ H). lia. }
  destruct e as [[data|]|message|].
  4:{ intros [= <- <- <-] H. exfalso. exact (Hno H). }
  - intros [= <- <- <-] _. exists o, evs', data.
    split; [reflexivity|]. split; [exact E|]. split; reflexivity.
  - intros [= <- <- <-] H. exfalso. exact (Hno H).
  - rewrite Hprod. cbn [negb].
    rewrite bool_decide_eq_true_2 by reflexivity. cbn [negb].
    intros [= <- <- <-] H. exfalso. apply Hno.
    change (100%Z ∈ shown_progress
              (Dashboard.intro_events
               ++ evs'
               ++ [Dashboard.SetError (Some message);
                   Dashboard.SetStep Dashboard.ResearchDone])) in H.
    rewrite app_assoc, shown_progress_app in H.
    apply elem_of_app in H as [H|H]; [exact H|].
    cbn in H. inversion H.
Qed.

Lemma full_progress_only_with_book_witness :
  ∃ o evs' data,
    Dashboard.selectedOpportunity (researched Dashboard.Pro) = Some o
    ∧ Dashboard.try_generate 502 (production steady_ticks)
        (researched Dashboard.Pro) o
      = Some ([Dashboard.PostGenerateAsync
                 (Dashboard.build_payload (researched Dashboard.Pro)
                    (Dashboard.recommended_opportunity Dashboard.mockResearch));
               Dashboard.GetJob "job-7"; Dashboard.GetJob "job-7";
               Dashboard.GetJob "job-7"],
              evs', Dashboard.Completed (Some data))
    ∧ Dashboard.intro_events
      ++ [Dashboard.SetGenerationProgress 10; Dashboard.SetGenerationStep "Outline";
          Dashboard.SetGenerationProgress 99; Dashboard.SetGenerationStep "Chapters";
          Dashboard.SetGenerationProgress 99; Dashboard.SetGenerationStep "Done"]
      ++ Dashboard.show_book written_book
      = Dashboard.intro_events ++ evs' ++ Dashboard.show_book data
    ∧ Dashboard.Returned = Dashboard.Returned.
Proof.
  apply (full_progress_only_with_book 502 (production steady_ticks)
           (researched Dashboard.Pro)).
  - reflexivity.
  - vm_compute. reflexivity.
  - apply (bool_decide_unpack _). vm_compute. exact I.
Defined.

(** X3: an authorized credit reset whose statements all succeed gives
    every profile the credits of its plan (1 for starter, 5 for pro, 20
    for enterprise), leaves the profiles of any other plan untouched,
    and answers with status 200. *)
Theorem credit_reset_effect env req t :
  CreditReset.isAuthorized env req = true →
  (∀ p, CreditReset.update_fails env p = false) →
  ∃ updates,
    CreditReset.POST env req t
    = ({| status_code := 200;
          reply_body :=
            JObj [("ok", JBool true);
                  ("updated_at", JStr (CreditReset.now_iso env));
                  ("updates", JArr updates)] |},
       reset_profile (CreditReset.db_now env) <$> t).
Proof.
  intros Hauth Hok. unfold CreditReset.POST. rewrite Hauth. cbn [negb].
  unfold CreditReset.PLAN_CREDITS. cbn [CreditReset.reset_all].
  rewrite !Hok. unfold CreditReset.reset_plan.
  eexists. f_equal.
  rewrite <- !map_fmap_compose. apply map_fmap_ext.
  intros id r _. unfold reset_profile, plan_credits, compose.
  destruct r as [mail name [pl|] credits customer updated]; cbn; [|reflexivity].
  destruct (decide (pl = "starter")) as [->|Hs]; [reflexivity|].
  rewrite (bool_decide_eq_false_2 (Some pl = Some "starter")) by congruence.
  destruct (decide (pl = "pro")) as [->|Hp]; [reflexivity|].
  rewrite (bool_decide_eq_false_2 (Some pl = Some "pro")) by congruence.
  destruct (decide (pl = "enterprise")) as [->|He]; [reflexivity|].
  rewrite (bool_decide_eq_false_2 (Some pl = Some "enterprise")) by congruence.
  cbn. rewrite !lookup_insert_ne by congruence. rewrite lookup_empty. reflexivity.
Qed.

Lemma credit_reset_effect_witness :
  ∃ updates,
    CreditReset.POST (cron_env (Some "s3"))
      (request_with [("authorization", "Bearer s3")]) spent_profiles
    = ({| status_code := 200;
          reply_body :=
            JObj [("ok", JBool true);
                  ("updated_at", JStr "2026-03-01T00:00:00.000Z");
                  ("updates", JArr updates)] |},
       reset_profile 1790000000000 <$> spent_profiles).
Proof.
  apply (credit_reset_effect (cron_env (Some "s3"))
           (request_with [("authorization", "Bearer s3")]) spent_profiles).
  - reflexivity.
  - intros p. reflexivity.
Defined.


(** X5: under the insert policy a user creates jobs under the user's
    own identity only; an accepted insert stores the new row under its
    key and leaves every other job as it was. *)
Theorem insert_job_own uid now id v d d' :
  Schema.insert_job uid now id v d = inr d' →
  Schema.v_user_id v = uid
  ∧ Schema.book_jobs d' !! id = Some (Schema.new_job now v)
  ∧ (∀ id', id' ≠ id → Schema.book_jobs d' !! id' = Schema.book_jobs d !! id')
  ∧ Schema.profiles d' = Schema.profiles d.
Proof.
  intros H. apply insert_job_inv in H as (Hu & _ & _ & ->). cbn.
  repeat split.
  - exact Hu.
  - apply lookup_insert_eq.
  - intros id' Hne. apply lookup_insert_ne. congruence.
Qed.

Lemma insert_job_own_witness :
  Schema.v_user_id (queued_values "bob" None) = "bob"
  ∧ Schema.book_jobs
      (Schema.with_jobs db_done
         (<["job-3" := Schema.new_job 100 (queued_values "bob" None)]>
            (Schema.book_jobs db_done))) !! "job-3"
    = Some (Schema.new_job 100 (queued_values "bob" None)).
Proof.
  pose proof (insert_job_own "bob" 100 "job-3" (queued_values "bob" None) db_done
                _ eq_refl) as (Hu & Hl & _).
  exact (conj Hu Hl).
Defined.

End Further.

(** ** The dashboard: further properties *)

Section DashboardFurther.
Import JS Dashboard Observations Samples More.

Lemma render_app st evs evs' :
  render st (evs ++ evs') = render (render st evs) evs'.
Proof. apply foldl_app. Qed.

(** X6: a job that completes is returned.  When the first [k] status
    reads find the job unfinished, the clock is still within the 15
    minutes at the next turn and that turn's read finds the job
    [completed], the loop ends after [k + 1] status reads with the
    stored result. *)
Theorem poll_loop_completes job_id env k fuel r s :
  (∀ j, (j < k)%nat → (poll_once (status_fetch (env j))).2 = Continue) →
  (clock_after env 0 k 0 ≤ timeoutMs)%Z →
  status_fetch (env k) = Answers (Settled r) →
  ok r = true →
  json r = inr s →
  job_state s = Some "completed" →
  ∃ evs,
    poll_loop (k + S fuel) job_id env 0 0
    = Some (replicate (S k) (GetJob job_id), evs, Completed (job_result s)).
Proof.
  intros Hc Ht Hf Hok Hj Hs.
  destruct (poll_loop_ahead job_id env k (S fuel) 0%nat 0%Z) as [evs0 E].
  { intros j Hj'. apply Hc. lia. }
  { exact Ht. }
  rewrite E. cbn [Nat.add].
  rewrite poll_loop_turn by exact Ht.
  rewrite Hf. cbn [poll_once]. rewrite Hok, Hj. cbn [negb].
  unfold on_status. rewrite bool_decide_eq_true_2 by exact Hs.
  eexists. f_equal. f_equal. f_equal.
  change (S k) with (1 + k)%nat. rewrite Nat.add_comm.
  rewrite replicate_add. reflexivity.
Qed.

Lemma poll_loop_completes_witness :
  ∃ evs,
    poll_loop (2 + 500) "job-7" steady_ticks 0 0
    = Some (replicate 3 (GetJob "job-7"), evs, Completed (Some written_book)).
Proof.
  apply (poll_loop_completes "job-7" steady_ticks 2 499
           {| ok := true; text := ""; json := inr (completed_status written_book) |}
           (completed_status written_book)).
  - intros [|[|j]] Hj; [reflexivity|reflexivity|lia].
  - vm_compute. discriminate.
  - reflexivity.
  - reflexivity.
  - reflexivity.
  - reflexivity.
Defined.

(** X7: the loop does not give up early.  While the status reads find
    the job unfinished and the clock is within the 15 minutes at turn
    [k], the loop goes on to read the status at turn [k]: it never ends
    with fewer than [k + 1] status reads. *)
Theorem poll_loop_keeps_polling job_id env k fuel reqs evs e :
  (∀ j, (j < k)%nat → (poll_once (status_fetch (env j))).2 = Continue) →
  (clock_after env 0 k 0 ≤ timeoutMs)%Z →
  poll_loop (k + fuel) job_id env 0 0 = Some (reqs, evs, e) →
  (k < length reqs)%nat.
Proof.
  intros Hc Ht.
  destruct (poll_loop_ahead job_id env k fuel 0%nat 0%Z) as [evs0 E].
  { intros j Hj'. apply Hc. lia. }
  { exact Ht. }
  rewrite E. cbn [Nat.add].
  destruct fuel as [|fuel]; [discriminate|].
  rewrite poll_loop_turn by exact Ht.
  destruct (poll_once (status_fetch (env k))) as [evs1 [|data|message|]].
  - destruct (poll_loop fuel job_id env (S k)
                (clock_after env 0 k 0 + turn_ms (env k)))
      as [[[reqs' evs'] e']|]; [|discriminate].
    intros [= <- <- <-]. rewrite length_app, length_replicate. cbn. lia.
  - intros [= <- <- <-]. rewrite length_app, length_replicate. cbn. lia.
  - intros [= <- <- <-]. rewrite length_app, length_replicate. cbn. lia.
  - intros [= <- <- <-]. rewrite length_app, length_replicate. cbn. lia.
Qed.

Lemma poll_loop_keeps_polling_witness :
  (2 < length [GetJob "job-7"; GetJob "job-7"; GetJob "job-7"])%nat.
Proof.
  eapply (poll_loop_keeps_polling "job-7" steady_ticks 2 500).
  - intros [|[|j]] Hj; [reflexivity|reflexivity|lia].
  - vm_compute. discriminate.
  - vm_compute. reflexivity.
Defined.

(** The polling loop only moves the progress display. *)
Lemma poll_once_display f :
  Forall (λ ev, display_only ev = true) (poll_once f).1.
Proof.
  destruct f as [[m|r]|]; cbn; [constructor| |constructor].
  destruct (ok r); cbn; [|constructor].
  destruct (json r) as [m|s]; cbn; [constructor|].
  apply Forall_app. split.
  - destruct (job_progress s); repeat constructor.
  - destruct (job_step s); [|constructor].
    case_bool_decide; repeat constructor.
Qed.

Lemma poll_loop_display job_id env fuel : ∀ i elapsed reqs evs e,
  poll_loop fuel job_id env i elapsed = Some (reqs, evs, e) →
  Forall (λ ev, display_only ev = true) evs.
Proof.
  induction fuel as [|fuel IH]; intros i elapsed reqs evs e; [discriminate|].
  cbn [poll_loop].
  destruct (timeoutMs <? elapsed)%Z.
  { intros [= <- <- <-]. constructor. }
  pose proof (poll_once_display (status_fetch (env i))) as Hp.
  destruct (poll_once (status_fetch (env i))) as [evs0 [|data|message|]];
    cbn [fst] in Hp.
  - destruct (poll_loop fuel job_id env (S i) (elapsed + turn_ms (env i)))
      as [[[reqs' evs'] e']|] eqn:E; [|discriminate].
    intros [= <- <- <-]. apply Forall_app. split; [exact Hp|].
    exact (IH _ _ _ _ _ E).
  - intros [= <- <- <-]. exact Hp.
  - intros [= <- <- <-]. exact Hp.
  - intros [= <- <- <-]. exact Hp.
Qed.

Lemma try_generate_display fuel env st o reqs evs e :
  try_generate fuel env st o = Some (reqs, evs, e) →
  Forall (λ ev, display_only ev = true) evs.
Proof.
  unfold try_generate.
  destruct (str_or_null (access_token env)).
  2:{ intros [= <- <- <-]. constructor. }
  destruct (paid (plan st)).
  - unfold generate_async.
    destruct (start_response env) as [m|r].
    { intros [= <- <- <-]. constructor. }
    destruct (ok r); cbn [negb].
    2:{ intros [= <- <- <-]. constructor. }
    destruct (json r) as [m|job].
    { intros [= <- <- <-]. constructor. }
    destruct (str_or_null job) as [id|].
    2:{ intros [= <- <- <-]. constructor. }
    destruct (poll_loop fuel id (ticks env) 0 0)
      as [[[reqs' evs'] e']|] eqn:E; [|discriminate].
    intros [= <- <- <-]. eapply poll_loop_display. exact E.
  - unfold generate_sync.
    destruct (generate_response env) as [m|r].
    { intros [= <- <- <-]. constructor. }
    destruct (ok r); cbn [negb].
    2:{ intros [= <- <- <-]. constructor. }
    destruct (json r); intros [= <- <- <-]; constructor.
Qed.

(** Moving the progress display leaves the rest of the page alone. *)
Lemma render_display evs : ∀ st,
  Forall (λ ev, display_only ev = true) evs →
  let st' := render st evs in
  user_email st' = user_email st ∧ plan st' = plan st ∧ step st' = step st
  ∧ research st' = research st
  ∧ selectedOpportunity st' = selectedOpportunity st
  ∧ generatedBook st' = generatedBook st ∧ error st' = error st.
Proof.
  induction evs as [|ev evs IH]; intros st H; cbn.
  - repeat split.
  - inversion H as [|? ? Hev Hrest]; subst.
    specialize (IH (apply_event st ev) Hrest). cbn in IH.
    destruct ev; try discriminate; exact IH.
Qed.

(** X8: a failed generation in a production build.  Whatever made the
    [try] block throw, [generateBook] returns, the page shows the
    error's message and is back at the research step, and the book,
    plan, research and selected opportunity on the page are what they
    were. *)
Theorem generateBook_failure_keeps_page fuel env st o reqs evs0 message :
  selectedOpportunity st = Some o →
  NODE_ENV env = Some "production" →
  try_generate fuel env st o = Some (reqs, evs0, Thrown message) →
  ∃ evs,
    generateBook fuel env st = Some (reqs, evs, Returned)
    ∧ error (render st evs) = Some message
    ∧ step (render st evs) = ResearchDone
    ∧ generatedBook (render st evs) = generatedBook st
    ∧ plan (render st evs) = plan st
    ∧ research (render st evs) = research st
    ∧ selectedOpportunity (render st evs) = selectedOpportunity st.
Proof.
  intros Ho Hprod Ht.
  rewrite (generateBook_production_error _ _ _ _ _ _ _ Ho Hprod Ht).
  eexists. split; [reflexivity|].
  pose proof (try_generate_display _ _ _ _ _ _ _ Ht) as Hd.
  rewrite !render_app.
  set (st1 := render st intro_events).
  assert (generatedBook st1 = generatedBook st ∧ plan st1 = plan st
          ∧ research st1 = research st
          ∧ selectedOpportunity st1 = selectedOpportunity st) as (Hb & Hp & Hr & Hs)
    by (repeat split).
  clearbody st1.
  destruct (render_display evs0 st1 Hd) as (_ & Hp' & _ & Hr' & Hs' & Hb' & _).
  set (st2 := render st1 evs0) in *. clearbody st2.
  cbn. repeat split; congruence.
Qed.

Lemma generateBook_failure_keeps_page_witness :
  ∃ evs,
    generateBook 502 (production flaky_ticks) (researched Pro)
    = Some ([PostGenerateAsync
               (build_payload (researched Pro) (recommended_opportunity mockResearch));
             GetJob "job-7"], evs, Returned)
    ∧ error (render (researched Pro) evs) = Some "Could not read generation status"
    ∧ step (render (researched Pro) evs) = ResearchDone
    ∧ generatedBook (render (researched Pro) evs) = generatedBook (researched Pro)
    ∧ plan (render (researched Pro) evs) = plan (researched Pro)
    ∧ research (render (researched Pro) evs) = research (researched Pro)
    ∧ selectedOpportunity (render (researched Pro) evs)
      = selectedOpportunity (researched Pro).
Proof.
  eapply (generateBook_failure_keeps_page 502 (production flaky_ticks)
            (researched Pro) (recommended_opportunity mockResearch)).
  - reflexivity.
  - reflexivity.
  - vm_compute. reflexivity.
Defined.

(** X9: a generation that comes back with a book.  [generateBook]
    returns with the page at the last step, the progress at 100, the
    book built from the response on display, the plan the response
    names (or the one the page had), and as error the generation
    notes joined by spaces (none when there are no notes). *)
Theorem generateBook_success_shows_book fuel env st o reqs evs0 data :
  selectedOpportunity st = Some o →
  try_generate fuel env st o = Some (reqs, evs0, Completed (Some data)) →
  ∃ evs,
    generateBook fuel env st = Some (reqs, evs, Returned)
    ∧ step (render st evs) = Done
    ∧ generationProgress (render st evs) = 100%Z
    ∧ generatedBook (render st evs) = Some (book_of data)
    ∧ plan (render st evs) = default (plan st) (plan_used data)
    ∧ error (render st evs)
      = match default [] (generation_notes data) with
        | [] => None
        | notes => Some (join " " notes)
        end.
Proof.
  intros Ho Ht. unfold generateBook. rewrite Ho, Ht.
  eexists. split; [reflexivity|].
  pose proof (try_generate_display _ _ _ _ _ _ _ Ht) as Hd.
  cbv zeta. rewrite !render_app.
  set (st1 := render st intro_events).
  assert (plan st1 = plan st ∧ error st1 = None) as (Hp & He)
    by (repeat split).
  clearbody st1.
  destruct (render_display evs0 st1 Hd) as (_ & Hp' & _ & _ & _ & _ & He').
  set (st2 := render st1 evs0) in *. clearbody st2.
  unfold show_book.
  destruct (plan_used data) as [p|];
    destruct (default [] (generation_notes data)) as [|n notes];
    cbn; repeat split; congruence.
Qed.

Lemma generateBook_success_shows_book_witness :
  ∃ evs,
    generateBook 502 (production steady_ticks) (researched Enterprise)
    = Some ([PostGenerateAsync
               (build_payload (researched Enterprise)
                  (recommended_opportunity mockResearch));
             GetJob "job-7"; GetJob "job-7"; GetJob "job-7"], evs, Returned)
    ∧ step (render (researched Enterprise) evs) = Done
    ∧ generationProgress (render (researched Enterprise) evs) = 100%Z
    ∧ generatedBook (render (researched Enterprise) evs)
      = Some (book_of written_book)
    ∧ plan (render (researched Enterprise) evs) = Pro
    ∧ error (render (researched Enterprise) evs) = None.
Proof.
  eapply (generateBook_success_shows_book 502 (production steady_ticks)
            (researched Enterprise) (recommended_opportunity mockResearch)).
  - reflexivity.
  - vm_compute. reflexivity.
Defined.

(** X10: without a session [generateBook] sends nothing.  When the
    session holds no access token, no request leaves the page; in a
    production build the page then shows "Your session expired. Please
    sign in again." at the research step. *)
Theorem generateBook_without_session fuel env st o :
  falsy (access_token env) = true →
  selectedOpportunity st = Some o →
  ∃ evs,
    generateBook fuel env st = Some ([], evs, Returned)
    ∧ (NODE_ENV env = Some "production" →
       error (render st evs) = Some "Your session expired. Please sign in again."
       ∧ step (render st evs) = ResearchDone
       ∧ generatedBook (render st evs) = generatedBook st).
Proof.
  intros Htok Ho.
  assert (try_generate fuel env st o
          = Some ([], [], Thrown "Your session expired. Please sign in again."))
    as Ht.
  { unfold try_generate.
    destruct (access_token env) as [t|]; cbn in *; [|reflexivity].
    rewrite Htok. reflexivity. }
  unfold generateBook. rewrite Ho, Ht.
  destruct (negb (negb (bool_decide (NODE_ENV env = Some "production")))) eqn:Hn.
  - eexists. split; [reflexivity|]. intros _. repeat split.
  - eexists. split; [reflexivity|]. intros Hprod.
    rewrite bool_decide_eq_true_2 in Hn by exact Hprod. discriminate.
Qed.

Lemma generateBook_without_session_witness :
  ∃ evs,
    generateBook 502 signed_out (researched Pro) = Some ([], evs, Returned)
    ∧ error (render (researched Pro) evs)
      = Some "Your session expired. Please sign in again."
    ∧ step (render (researched Pro) evs) = ResearchDone.
Proof.
  destruct (generateBook_without_session 502 signed_out (researched Pro)
              (recommended_opportunity mockResearch) eq_refl eq_refl)
    as (evs & E & H).
  exists evs. destruct (H eq_refl) as (He & Hs & _). auto.
Defined.

End DashboardFurther.

(** ** The route guard *)

Section RouteGuard.
Import Proxy More.






(** X13: the guard's redirects settle.  The address the guard
    redirects a request to is one the guard lets the same user through
    to; a signed-in user is never redirected to [/login] and a visitor
    without a session never to [/dashboard]. *)
Theorem proxy_redirects_settle user u to :
  proxy user u = Redirect to →
  proxy user to = Next
  ∧ (is_Some user → pathname to = "/dashboard")
  ∧ (user = None → pathname to = "/login").
Proof.
  unfold proxy at 1.
  destruct user as [id|].
  - rewrite (bool_decide_eq_true_2 (is_Some (Some id))) by eauto.
    cbn [negb]. rewrite andb_false_r, andb_true_r.
    destruct (under authPaths (pathname u)); [|discriminate].
    intros [= <-]. split; [|split].
    + unfold proxy. cbn [pathname].
      rewrite (bool_decide_eq_true_2 (is_Some (Some id))) by eauto.
      reflexivity.
    + reflexivity.
    + discriminate.
  - rewrite (bool_decide_eq_false_2 (is_Some None))
      by (intros [? ?]; discriminate).
    cbn [negb]. rewrite andb_true_r, andb_false_r.
    destruct (under protectedPaths (pathname u)); [|discriminate].
    intros [= <-]. split; [|split].
    + unfold proxy. cbn [pathname].
      rewrite (bool_decide_eq_false_2 (is_Some None))
        by (intros [? ?]; discriminate).
      reflexivity.
    + intros [? ?]. discriminate.
    + reflexivity.
Qed.

Lemma proxy_redirects_settle_witness :
  proxy (Some "alice")
        {| pathname := "/dashboard"; searchParams := [("plan", "pro")] |}
  = Next.
Proof.
  exact (proj1 (proxy_redirects_settle (Some "alice")
                  {| pathname := "/login"; searchParams := [("plan", "pro")] |}
                  _ eq_refl)).
Defined.

End RouteGuard.

(** ** The checkout route *)

Section CheckoutRoute.
Import Schema JS Checkout More.

Lemma PRICE_IDS_unknown env plan :
  plan ∉ ["starter"; "pro"; "enterprise"] →
  plan ∉ object_prototype_keys →
  PRICE_IDS env plan = Missing.
Proof.
  intros Hp Hk. unfold PRICE_IDS.
  rewrite !bool_decide_eq_false_2; [reflexivity|exact Hk|..];
    intros ->; apply Hp; set_solver.
Qed.

(** X14: what the checkout route turns away.  A plan that is not one
    of the three (nor the name of a property every object inherits), or
    one of the three whose price variable is unset or empty, is
    answered with status 400 whoever asks; every other plan, asked for
    without a signed-in user, is answered with status 401.  In these
    cases the route calls Stripe not once and writes nothing. *)
Theorem checkout_rejects env plan d :
  (plan ∉ ["starter"; "pro"; "enterprise"] →
   plan ∉ object_prototype_keys →
   POST env plan d = (Replied (invalid_plan plan), d, []))
  ∧ (PRICE_IDS env plan = Own "" →
     POST env plan d = (Replied (invalid_plan plan), d, []))
  ∧ (getUser env = None →
     PRICE_IDS env plan ≠ Missing →
     PRICE_IDS env plan ≠ Own "" →
     POST env plan d = (Replied unauthorized, d, [])).
Proof.
  split; [|split].
  - intros Hp Hk. unfold POST.
    rewrite (PRICE_IDS_unknown env plan Hp Hk). reflexivity.
  - intros H. unfold POST. rewrite H. reflexivity.
  - intros Hu Hm He. unfold POST. rewrite Hu.
    destruct (PRICE_IDS env plan) as [v| |] eqn:Hprice;
      [|reflexivity|contradiction].
    case_bool_decide as Hv; [|reflexivity].
    subst v. contradiction.
Qed.

Lemma checkout_rejects_witness :
  POST (shop bob) "gold" Samples.db_done
  = (Replied (invalid_plan "gold"), Samples.db_done, [])
  ∧ POST (shop bob) "starter" Samples.db_done
    = (Replied (invalid_plan "starter"), Samples.db_done, [])
  ∧ POST (shop None) "pro" Samples.db_done
    = (Replied unauthorized, Samples.db_done, []).
Proof.
  split; [|split].
  - apply (proj1 (checkout_rejects (shop bob) "gold" Samples.db_done)).
    + apply (bool_decide_unpack _). vm_compute. exact I.
    + apply (bool_decide_unpack _). vm_compute. exact I.
  - apply (proj1 (proj2 (checkout_rejects (shop bob) "starter" Samples.db_done))).
    reflexivity.
  - apply (proj2 (proj2 (checkout_rejects (shop None) "pro" Samples.db_done))).
    + reflexivity.
    + vm_compute. discriminate.
    + vm_compute. discriminate.
Defined.

(** X15: who pays.  For a signed-in user and a plan with a price, a
    user whose profile holds a Stripe customer makes the route call
    Stripe once, to create a session for that customer, and write
    nothing; a user whose profile holds none makes it create a customer
    first, store the customer's id in the user's profile and create
    the session for it.  The session carries the user's id and the plan
    as metadata. *)
Theorem checkout_customer env plan d user_id user_email price r :
  PRICE_IDS env plan = Own price →
  price ≠ "" →
  getUser env = Some (user_id, user_email) →
  profiles d !! user_id = Some r →
  (∀ c, stripe_customer_id r = Some c → c ≠ "" →
     POST env plan d
     = create_session env (params env c user_id plan (Some price)) d [])
  ∧ (∀ c, falsy (stripe_customer_id r) = true →
       plan_check (Schema.plan r) = true →
       customers_create env user_email user_id = inr c →
       POST env plan d
       = create_session env (params env c user_id plan (Some price))
           {| profiles :=
                <[user_id :=
                    {| email := email r; full_name := full_name r;
                       Schema.plan := Schema.plan r;
                       credits_remaining := credits_remaining r;
                       stripe_customer_id := Some c;
                       profile_updated_at := db_now env |}]> (profiles d);
              subscriptions := subscriptions d;
              book_jobs := book_jobs d |}
           [CustomersCreate user_email user_id])
  ∧ (∀ c, metadata_supabase_user_id (params env c user_id plan (Some price))
          = user_id
          ∧ metadata_plan (params env c user_id plan (Some price)) = plan).
Proof.
  intros Hprice Hne Hu Hr.
  assert (Profiles.select_profile user_id user_id d = Some r) as Hsel.
  { unfold Profiles.select_profile.
    rewrite bool_decide_eq_true_2 by reflexivity. exact Hr. }
  split; [|split].
  - intros c Hc Hcne. unfold POST. rewrite Hprice.
    rewrite bool_decide_eq_false_2 by exact Hne.
    rewrite Hu, Hsel. cbn [mbind option_bind]. rewrite Hc. cbn [str_or_null].
    rewrite bool_decide_eq_false_2 by exact Hcne. reflexivity.
  - intros c Hc Hplan Hcreate. unfold POST. rewrite Hprice.
    rewrite bool_decide_eq_false_2 by exact Hne.
    rewrite Hu, Hsel. cbn [mbind option_bind].
    assert (str_or_null (stripe_customer_id r) = None) as ->.
    { destruct (stripe_customer_id r) as [c0|]; cbn in *; [|reflexivity].
      rewrite Hc. reflexivity. }
    rewrite Hcreate. unfold Profiles.update_profile_as. rewrite Hr.
    rewrite bool_decide_eq_true_2 by reflexivity. cbn [negb].
    unfold Profiles.patched_profile. cbn [default Profiles.set_email
      Profiles.set_full_name Profiles.set_plan Profiles.set_credits_remaining
      Profiles.set_stripe_customer_id Schema.plan].
    rewrite Hplan. reflexivity.
  - intros c. split; reflexivity.
Qed.

Lemma checkout_customer_witness :
  POST (shop bob) "pro" Samples.db_done
  = (Replied (session_reply (Some "https://checkout.stripe.com/pay/cus_bob")),
     {| profiles :=
          <["bob" :=
              {| email := "bob@example.com"; full_name := None;
                 Schema.plan := Some "starter";
                 credits_remaining := Some 1%Z;
                 stripe_customer_id := Some "cus_bob";
                 profile_updated_at := 1790000000000 |}]>
            (profiles Samples.db_done);
        subscriptions := subscriptions Samples.db_done;
        book_jobs := book_jobs Samples.db_done |},
     [CustomersCreate (Some "bob@example.com") "bob";
      SessionsCreate (params (shop bob) "cus_bob" "bob" "pro" (Some "price_pro"))]).
Proof.
  exact (proj1 (proj2 (checkout_customer (shop bob) "pro" Samples.db_done "bob"
                         (Some "bob@example.com") "price_pro"
                         (Samples.a_profile "bob@example.com" "starter" 1)
                         eq_refl ltac:(discriminate) eq_refl eq_refl))
           "cus_bob" eq_refl eq_refl eq_refl).
Defined.

(** X16: one Stripe customer per user.  After a first checkout has
    created a customer for a user and stored it, a later checkout by
    the same user creates no customer: its only call to Stripe creates
    a session for the stored customer, and it writes nothing. *)
Theorem checkout_customer_created_once env plan plan' d user_id user_email
    price price' r c out d' calls :
  PRICE_IDS env plan = Own price → price ≠ "" →
  PRICE_IDS env plan' = Own price' → price' ≠ "" →
  getUser env = Some (user_id, user_email) →
  profiles d !! user_id = Some r →
  falsy (stripe_customer_id r) = true →
  plan_check (Schema.plan r) = true →
  customers_create env user_email user_id = inr c →
  c ≠ "" →
  POST env plan d = (out, d', calls) →
  POST env plan' d'
  = create_session env (params env c user_id plan' (Some price')) d' [].
Proof.
  intros Hprice Hne Hprice' Hne' Hu Hr Hc Hplan Hcreate Hcne Hpost.
  destruct (checkout_customer env plan d user_id user_email price r
              Hprice Hne Hu Hr) as (_ & Hfirst & _).
  rewrite (Hfirst c Hc Hplan Hcreate) in Hpost.
  unfold create_session in Hpost.
  assert (d' = {| profiles :=
                    <[user_id :=
                        {| email := email r; full_name := full_name r;
                           Schema.plan := Schema.plan r;
                           credits_remaining := credits_remaining r;
                           stripe_customer_id := Some c;
                           profile_updated_at := db_now env |}]> (profiles d);
                  subscriptions := subscriptions d;
                  book_jobs := book_jobs d |}) as ->.
  { destruct (sessions_create env _); injection Hpost as _ <- _; reflexivity. }
  set (r1 := {| email := email r; full_name := full_name r;
                Schema.plan := Schema.plan r;
                credits_remaining := credits_remaining r;
                stripe_customer_id := Some c;
                profile_updated_at := db_now env |}).
  set (d1 := {| profiles := <[user_id := r1]> (profiles d);
                subscriptions := subscriptions d;
                book_jobs := book_jobs d |}).
  assert (profiles d1 !! user_id = Some r1) as Hr1 by apply lookup_insert_eq.
  destruct (checkout_customer env plan' d1 user_id user_email price' r1
              Hprice' Hne' Hu Hr1) as (Hagain & _ & _).
  apply Hagain; [reflexivity|exact Hcne].
Qed.

Lemma checkout_customer_created_once_witness :
  ∃ d',
    (POST (shop bob) "pro" Samples.db_done).1.2 = d'
    ∧ POST (shop bob) "enterprise" d'
      = create_session (shop bob)
          (params (shop bob) "cus_bob" "bob" "enterprise" (Some "price_enterprise"))
          d' [].
Proof.
  eexists. split; [reflexivity|].
  apply (checkout_customer_created_once (shop bob) "pro" "enterprise"
           Samples.db_done "bob" (Some "bob@example.com") "price_pro"
           "price_enterprise" (Samples.a_profile "bob@example.com" "starter" 1)
           "cus_bob"
           (POST (shop bob) "pro" Samples.db_done).1.1
           (POST (shop bob) "pro" Samples.db_done).1.2
           (POST (shop bob) "pro" Samples.db_done).2).
  - reflexivity.
  - discriminate.
  - reflexivity.
  - discriminate.
  - reflexivity.
  - reflexivity.
  - reflexivity.
  - reflexivity.
  - reflexivity.
  - discriminate.
  - destruct (POST (shop bob) "pro" Samples.db_done) as [[o d1] cs]. reflexivity.
Defined.

End CheckoutRoute.

(** ** The download handlers *)

Section DownloadHandlers.
Import JS Dashboard Downloads More.

(** X17: an export either offers a file or reports an error, and always
    clears the spinner.  With a book on the page, [downloadExport]
    starts by setting the spinner and ends by clearing it; it clicks at
    most one link, named after the book's title and the format, and
    reports "Could not export PDF. Try again." (or EPUB) exactly when
    it clicks none; it sends at most one request, and none when the
    book has a stored URL for the format. *)
Theorem downloadExport_outcome f st full_name res b :
  generatedBook st = Some b →
  let out := downloadExport f st full_name res in
  head out.2 = Some (SetDownloadLoading (Some (LoadingExport f)))
  ∧ last out.2 = Some (SetDownloadLoading None)
  ∧ ((∃ a, clicks out.2 = [a] ∧ reported out.2 = []
           ∧ a_download a = bookTitle b +:+ "." +:+ extension f)
     ∨ (clicks out.2 = []
        ∧ reported out.2
          = ["Could not export " +:+ toUpperCase f +:+ ". Try again."]))
  ∧ (length out.1 ≤ 1)%nat
  ∧ (falsy (match f with Pdf => pdfUrl b | Epub => epubUrl b end) = false →
     out.1 = [] ∧ ∃ a u, clicks out.2 = [a] ∧ a_href a = StoredUrl u
                         ∧ str_or_null (match f with
                                        | Pdf => pdfUrl b
                                        | Epub => epubUrl b
                                        end) = Some u).
Proof.
  intros Hb. unfold downloadExport. rewrite Hb.
  set (stored := match f with Pdf => pdfUrl b | Epub => epubUrl b end).
  destruct (str_or_null stored) as [u|] eqn:Hu.
  - cbn. repeat split; [left; eauto|lia|eauto 10].
  - assert (falsy stored = true) as Hf.
    { destruct stored as [x|]; cbn in *; [|reflexivity].
      case_bool_decide; [reflexivity|discriminate]. }
    rewrite Hf.
    destruct res as [m|r]; [|destruct (blob_ok r); [destruct (blob r)|]];
      cbn; repeat split; try lia; try discriminate; eauto 10.
Qed.

Lemma downloadExport_outcome_witness :
  (downloadExport Pdf (shown Pro) None (blob_of "%PDF-1.7")).1
  = [export_request Pdf (shown Pro) None (book_of Samples.written_book)]
  ∧ last (downloadExport Pdf (shown Pro) None (blob_of "%PDF-1.7")).2
    = Some (SetDownloadLoading None).
Proof.
  split; [reflexivity|].
  exact (proj1 (proj2 (downloadExport_outcome Pdf (shown Pro) None
                         (blob_of "%PDF-1.7") (book_of Samples.written_book)
                         eq_refl))).
Defined.

(** X18: the audiobook preview is asked for only when it may be.
    [downloadAudiobookPreview] does nothing at all unless a book is on
    the page and the plan is enterprise; and when it sends a request,
    it is the one request for the narration of that book, the book has
    no stored audiobook, and the session holds an access token. *)
Theorem audiobook_request_guarded st token res :
  (audiobook_preview_allowed st = false →
   downloadAudiobookPreview st token res = ([], []))
  ∧ ((downloadAudiobookPreview st token res).1 ≠ [] →
     plan st = Enterprise
     ∧ falsy token = false
     ∧ ∃ b, generatedBook st = Some b
            ∧ falsy (audiobookUrl b) = true
            ∧ (downloadAudiobookPreview st token res).1
              = [PostAudiobook (bookTitle b) (narration b)]).
Proof.
  unfold audiobook_preview_allowed, downloadAudiobookPreview.
  destruct (generatedBook st) as [b|]; [|split; [reflexivity|intros H; contradiction]].
  destruct (plan st); try (split; [reflexivity|intros H; contradiction]).
  split; [discriminate|].
  destruct (audiobookUrl b) as [u|] eqn:Hu; cbn [str_or_null].
  - case_bool_decide as Hempty; cbn [fst].
    + destruct token as [t|]; cbn [str_or_null fst].
      * case_bool_decide as Ht; cbn [fst]; [intros H; contradiction|].
        intros _. split; [reflexivity|]. split.
        { cbn. apply bool_decide_eq_false_2. exact Ht. }
        exists b. split; [reflexivity|]. rewrite Hu. cbn.
        split; [apply bool_decide_eq_true_2; exact Hempty|reflexivity].
      * intros H. contradiction.
    + intros H. contradiction.
  - destruct token as [t|]; cbn [str_or_null fst].
    + case_bool_decide as Ht; cbn [fst]; [intros H; contradiction|].
      intros _. split; [reflexivity|]. split.
      { cbn. apply bool_decide_eq_false_2. exact Ht. }
      exists b. split; [reflexivity|]. rewrite Hu. split; reflexivity.
    + intros H. contradiction.
Qed.

Lemma audiobook_request_guarded_witness :
  downloadAudiobookPreview (shown Pro) (Some "token") (blob_of "ID3") = ([], [])
  ∧ plan (shown Enterprise) = Enterprise.
Proof.
  split.
  - exact (proj1 (audiobook_request_guarded (shown Pro) (Some "token")
                    (blob_of "ID3")) eq_refl).
  - apply (proj2 (audiobook_request_guarded (shown Enterprise) (Some "token")
                    (blob_of "ID3"))).
    discriminate.
Defined.

End DownloadHandlers.

(** ** Profiles *)

Section ProfileRows.
Import Schema Profiles Signup Observations More.

(** [split_part_at] cuts a string at its first ['@']. *)
Lemma split_part_at_spec s :
  (at_sign ∉ String.list_ascii_of_string (split_part_at s))
  ∧ ∃ rest, s = split_part_at s +:+ rest
            ∧ (rest = "" ∨ ∃ tail, rest = String "@" tail).
Proof.
  induction s as [|c s (Hno & rest & Hs & Hrest)]; cbn.
  - split; [apply not_elem_of_nil|]. exists "". auto.
  - destruct (Ascii.eqb c "@") eqn:Hc; cbn.
    + apply Ascii.eqb_eq in Hc. subst c.
      split; [apply not_elem_of_nil|]. exists (String "@" s). eauto.
    + apply Ascii.eqb_neq in Hc. split.
      * rewrite not_elem_of_cons. split; [unfold at_sign; congruence|exact Hno].
      * exists rest. split; [|exact Hrest].
        change (String c s = String c (split_part_at s +:+ rest)).
        f_equal. exact Hs.
Qed.

(** X19: the profile of a new user.  For a new user with an e-mail
    address and no profile yet, the trigger inserts a profile on the
    starter plan with one credit (the credit a reset gives the starter
    plan) that passes the CHECK on the plan, leaves every other profile
    as it was, and is readable by the new user; without a name in the
    user's metadata the profile's name is the address up to its first
    ['@'].  A user without an e-mail address gets no profile. *)
Theorem handle_new_user_profile now new d mail :
  new_email new = Some mail →
  profiles d !! new_id new = None →
  ∃ d' r,
    handle_new_user now new d = inr d'
    ∧ select_profile (new_id new) (new_id new) d' = Some r
    ∧ email r = mail
    ∧ plan r = Some "starter"
    ∧ credits_remaining r = plan_credits "starter"
    ∧ plan_check (plan r) = true
    ∧ (∀ id, id ≠ new_id new → profiles d' !! id = profiles d !! id)
    ∧ (∀ name, new_full_name new = Some name → full_name r = Some name)
    ∧ (new_full_name new = None →
       ∃ local rest,
         full_name r = Some local
         ∧ (at_sign ∉ String.list_ascii_of_string local)
         ∧ mail = local +:+ rest
         ∧ (rest = "" ∨ ∃ tail, rest = String "@" tail))
    ∧ ∀ other, new_email other = None →
        handle_new_user now other d = inl NotNullViolation.
Proof.
  intros Hmail Hfresh. unfold handle_new_user. rewrite Hmail.
  rewrite bool_decide_eq_false_2
    by (rewrite Hfresh; intros [? ?]; discriminate).
  eexists. eexists. split; [reflexivity|].
  unfold select_profile. rewrite bool_decide_eq_true_2 by reflexivity.
  cbn [profiles]. rewrite lookup_insert_eq.
  split; [reflexivity|]. cbn.
  repeat split.
  - intros id Hne. apply lookup_insert_ne. congruence.
  - intros name ->. reflexivity.
  - intros ->. cbn.
    destruct (split_part_at_spec mail) as (Hno & rest & Hs & Hrest).
    exists (split_part_at mail), rest. auto.
  - intros other ->. reflexivity.
Qed.

Lemma handle_new_user_profile_witness :
  ∃ d' r,
    handle_new_user 100 carol Samples.db_done = inr d'
    ∧ select_profile "carol" "carol" d' = Some r
    ∧ plan r = Some "starter"
    ∧ credits_remaining r = Some 1%Z
    ∧ full_name r = Some "carol.jones".
Proof.
  destruct (handle_new_user_profile 100 carol Samples.db_done
              "carol.jones@example.com" eq_refl eq_refl)
    as (d' & r & E & Hsel & _ & Hplan & Hcredits & _ & _ & _ & Hname & _).
  exists d', r. repeat split; try assumption.
  destruct (Hname eq_refl) as (local & rest & Hfull & _).
  rewrite Hfull. vm_compute in E. injection E as <-.
  vm_compute in Hsel. injection Hsel as <-. vm_compute in Hfull.
  injection Hfull as <-. reflexivity.
Defined.

(** X20: what the policies on profiles let a user do.  A user reads
    and updates no profile but the user's own; on the own profile an
    update may set any column, the plan and the credits included,
    provided the plan is one of the three or null, and it stamps
    [updated_at]. *)
Theorem profile_policies uid id now p d r :
  profiles d !! id = Some r →
  (uid ≠ id →
   select_profile uid id d = None
   ∧ update_profile_as uid now id p d = inr (d, 0%nat))
  ∧ select_profile id id d = Some r
  ∧ (plan_check (default (plan r) (set_plan p)) = true →
     ∃ d',
       update_profile_as id now id p d = inr (d', 1%nat)
       ∧ select_profile id id d' = Some (patched_profile now p r)
       ∧ profile_updated_at (patched_profile now p r) = now
       ∧ book_jobs d' = book_jobs d ∧ subscriptions d' = subscriptions d
       ∧ ∀ other, other ≠ id → profiles d' !! other = profiles d !! other)
  ∧ (plan_check (default (plan r) (set_plan p)) = false →
     update_profile_as id now id p d = inl CheckViolation).
Proof.
  intros Hr. unfold select_profile, update_profile_as. rewrite Hr.
  split; [|split; [|split]].
  - intros Hne. rewrite bool_decide_eq_false_2 by exact Hne. auto.
  - rewrite bool_decide_eq_true_2 by reflexivity. reflexivity.
  - intros Hc. rewrite bool_decide_eq_true_2 by reflexivity. cbn [negb].
    cbn [patched_profile plan]. rewrite Hc. cbn [negb].
    eexists. split; [reflexivity|]. cbn [profiles book_jobs subscriptions].
    rewrite lookup_insert_eq. repeat split.
    intros other Hne. apply lookup_insert_ne. congruence.
  - intros Hc. rewrite bool_decide_eq_true_2 by reflexivity. cbn [negb].
    cbn [patched_profile plan]. rewrite Hc. reflexivity.
Qed.

Lemma profile_policies_witness :
  (select_profile "alice" "bob" Samples.db_done = None
   ∧ update_profile_as "alice" 100 "bob" self_upgrade Samples.db_done
     = inr (Samples.db_done, 0%nat))
  ∧ ∃ d',
      update_profile_as "bob" 100 "bob" self_upgrade Samples.db_done
      = inr (d', 1%nat)
      ∧ select_profile "bob" "bob" d'
        = Some (patched_profile 100 self_upgrade
                  (Samples.a_profile "bob@example.com" "starter" 1)).
Proof.
  pose proof (profile_policies "alice" "bob" 100 self_upgrade Samples.db_done
                (Samples.a_profile "bob@example.com" "starter" 1) eq_refl)
    as (Hother & _ & _).
  pose proof (profile_policies "bob" "bob" 100 self_upgrade Samples.db_done
                (Samples.a_profile "bob@example.com" "starter" 1) eq_refl)
    as (_ & _ & Hown & _).
  split.
  - apply Hother. discriminate.
  - destruct (Hown eq_refl) as (d' & E & Hsel & _). eauto.
Defined.

End ProfileRows.

(** ** The credit reset: further properties *)

Section CreditResetFurther.
Import Schema JS CreditReset Observations Samples More.

Ltac by_plan r :=
  destruct r as [mail name [pl|] credits customer updated];
  [ destruct (decide (pl = "starter")) as [->|Hstarter]; [vm_compute; reflexivity|];
    destruct (decide (pl = "pro")) as [->|Hpro]; [vm_compute; reflexivity|];
    destruct (decide (pl = "enterprise")) as [->|Hent]; [vm_compute; reflexivity|];
    cbn;
    repeat (rewrite (bool_decide_eq_false_2 (Some pl = Some _)) by congruence);
    cbn;
    try (rewrite bool_decide_eq_false_2
           by (rewrite ?elem_of_cons, elem_of_nil; intuition congruence));
    try reflexivity
  | vm_compute; reflexivity ].

(** Without a failing statement the reset gives every profile the
    credits of its plan. *)
Lemma reset_all_ok env t :
  (∀ p, update_fails env p = false) →
  ∃ updates,
    reset_all env PLAN_CREDITS t [] = (inr updates, reset_profile (db_now env) <$> t).
Proof.
  intros Hok. unfold PLAN_CREDITS. cbn [reset_all].
  rewrite !Hok. unfold reset_plan.
  eexists. f_equal.
  rewrite <- !map_fmap_compose. apply map_fmap_ext.
  intros id r _. unfold reset_profile, plan_credits, compose.
  by_plan r.
  rewrite !lookup_insert_ne by congruence. rewrite lookup_empty. reflexivity.
Qed.

(** What one more reset does to a profile that has been reset. *)
Lemma reset_profile_idemp now r :
  reset_profile now (reset_profile now r) = reset_profile now r.
Proof.
  unfold reset_profile.
  destruct (plan r ≫= plan_credits) as [c|] eqn:E; cbn.
  - rewrite E. reflexivity.
  - rewrite E. reflexivity.
Qed.

(** X21: resetting twice is resetting once.  When no statement fails,
    an authorized reset run on the profiles an authorized reset has
    left (at the same database time) leaves them as they are, and both
    runs answer with status 200. *)
Theorem credit_reset_idempotent env req t :
  isAuthorized env req = true →
  (∀ p, update_fails env p = false) →
  status_code (POST env req t).1 = 200%Z
  ∧ status_code (POST env req (POST env req t).2).1 = 200%Z
  ∧ (POST env req (POST env req t).2).2 = (POST env req t).2.
Proof.
  intros Hauth Hok.
  assert (∀ t0, ∃ r, POST env req t0 = (r, reset_profile (db_now env) <$> t0)
                     ∧ status_code r = 200%Z) as Hpost.
  { intros t0. unfold POST. rewrite Hauth. cbn [negb].
    destruct (reset_all_ok env t0 Hok) as [updates ->]. eauto. }
  destruct (Hpost t) as (r1 & -> & H1). cbn [fst snd].
  destruct (Hpost (reset_profile (db_now env) <$> t)) as (r2 & -> & H2).
  cbn [fst snd]. repeat split; try assumption.
  rewrite <- map_fmap_compose. apply map_fmap_ext.
  intros id r _. apply reset_profile_idemp.
Qed.

Lemma credit_reset_idempotent_witness :
  (POST (cron_env None) (request_with [])
        (POST (cron_env None) (request_with []) spent_profiles).2).2
  = (POST (cron_env None) (request_with []) spent_profiles).2.
Proof.
  refine (proj2 (proj2 (credit_reset_idempotent (cron_env None) (request_with [])
                          spent_profiles eq_refl _))).
  intros p. reflexivity.
Defined.

(** X22: a reset that fails midway.  When the statement of some plan
    fails, an authorized reset answers with status 500, and it has
    reset the profiles of the plans that come before the first failing
    one in the order starter, pro, enterprise, and no others: the
    earlier statements are not undone. *)
Theorem credit_reset_partial env req t :
  isAuthorized env req = true →
  (∃ p, p ∈ PLAN_CREDITS.*1 ∧ update_fails env p = true) →
  POST env req t
  = ({| status_code := 500;
        reply_body := JObj [("error", JStr "Credit reset failed")] |},
     (λ r, if bool_decide (plan r ∈ Some <$> reset_before env)
           then reset_profile (db_now env) r else r) <$> t).
Proof.
  intros Hauth (p & Hp & Hfail). unfold POST. rewrite Hauth. cbn [negb].
  unfold reset_before, PLAN_CREDITS. cbn [reset_all plans_before].
  destruct (update_fails env "starter") eqn:F1.
  { f_equal. rewrite <- (map_fmap_id t) at 1. apply map_fmap_ext.
    intros id r _. cbn. rewrite bool_decide_eq_false_2 by apply not_elem_of_nil.
    reflexivity. }
  unfold reset_plan at 1. cbn [fst snd].
  destruct (update_fails env "pro") eqn:F2.
  { f_equal. apply map_fmap_ext. intros id r _.
    unfold reset_profile, plan_credits. by_plan r. }
  unfold reset_plan at 1. cbn [fst snd].
  destruct (update_fails env "enterprise") eqn:F3.
  { f_equal. rewrite <- map_fmap_compose. apply map_fmap_ext. intros id r _.
    unfold reset_profile, plan_credits, compose. by_plan r. }
  exfalso. cbn in Hp. rewrite !elem_of_cons, elem_of_nil in Hp.
  destruct Hp as [->|[->|[->|[]]]]; congruence.
Qed.

Lemma credit_reset_partial_witness :
  POST cron_failing_at_pro (request_with []) spent_profiles
  = ({| status_code := 500;
        reply_body := JObj [("error", JStr "Credit reset failed")] |},
     {[ "alice" := a_profile "alice@example.com" "pro" 0;
        "bob" := {| email := "bob@example.com"; full_name := None;
                    plan := Some "starter"; credits_remaining := Some 1%Z;
                    stripe_customer_id := None;
                    profile_updated_at := 1790000000000 |} ]}).
Proof.
  rewrite (credit_reset_partial cron_failing_at_pro (request_with [])
             spent_profiles eq_refl).
  - vm_compute. reflexivity.
  - exists "pro". split; [|reflexivity].
    apply (bool_decide_unpack _). vm_compute. exact I.
Defined.

End CreditResetFurther.

(** ** The Stripe webhook: what it keeps *)

Section WebhookKeeps.
Import Schema JS StripeWebhook More.

Variable env : environment.
Variable R : world → world → Prop.
Hypothesis R_refl : ∀ w, R w w.
Hypothesis R_trans : ∀ w1 w2 w3, R w1 w2 → R w2 w3 → R w1 w3.
Hypothesis R_profile : ∀ now id set w,
  (∀ r, email (set r) = email r ∧ full_name (set r) = full_name r) →
  R w {| db := update_profile now id set (db w); outbox := outbox w |}.
Hypothesis R_subscriptions : ∀ now col v set w,
  R w {| db := update_subscriptions now col v set (db w); outbox := outbox w |}.
Hypothesis R_upsert : ∀ now id row w,
  R w {| db := upsert_subscription now id row (db w); outbox := outbox w |}.
Hypothesis R_mail : ∀ to subject html w,
  R w (sendBillingEmail env to subject html w).2.

Lemma keeps_ret {A} (a : A) : keeps R (ret a).
Proof. intros w. apply R_refl. Qed.

Lemma keeps_throw {A} message : keeps R (@throw A message).
Proof. intros w. apply R_refl. Qed.

Lemma keeps_read {A} (f : database → A) : keeps R (read f).
Proof. intros w. apply R_refl. Qed.

Lemma keeps_bind {A B} (m : M A) (k : A → M B) :
  keeps R m → (∀ a, keeps R (k a)) → keeps R (bind m k).
Proof.
  intros Hm Hk w. unfold bind. specialize (Hm w).
  destruct (m w) as [[e|a] w']; cbn in *; [exact Hm|].
  eapply R_trans; [exact Hm|apply Hk].
Qed.

Lemma keeps_when b (m : M unit) : keeps R m → keeps R (when b m).
Proof. intros Hm. destruct b; [exact Hm|apply keeps_ret]. Qed.

Lemma keeps_toISOString ms : keeps R (toISOString ms).
Proof.
  unfold toISOString.
  destruct (_ && _); [apply keeps_ret|apply keeps_throw].
Qed.

Lemma keeps_activatePlan userId plan subscriptionId customerId periodEnd :
  keeps R (activatePlan env userId plan subscriptionId customerId periodEnd).
Proof.
  unfold activatePlan.
  apply keeps_bind; [|intros _; apply keeps_bind].
  - intros w. apply R_profile. intros r. split; reflexivity.
  - apply keeps_toISOString.
  - intros period.
    destruct (timestamptz_in period); [intros w; apply R_upsert|apply keeps_ret].
Qed.

Lemma keeps_mail_to (email : option string) (send : string → M unit) :
  (∀ to, keeps R (send to)) →
  keeps R (match email with Some to => send to | None => ret () end).
Proof. intros H. destruct email; [apply H|apply keeps_ret]. Qed.

(** Whatever the event, the handler keeps a relation that its writes
    and its mails keep. *)
Lemma keeps_handle ev : keeps R (handle env ev).
Proof.
  destruct ev as [session|sub|sub|inv|type]; cbn [handle].
  - destruct (str_or_null (session_user_id session)) as [userId|];
      [|apply keeps_ret].
    destruct (str_or_null (session_plan session)) as [plan|];
      [|apply keeps_ret].
    destruct (str_or_null (session_subscription session)) as [subscriptionId|];
      [|apply keeps_ret].
    destruct (str_or_null (session_customer session)) as [customer|];
      [|apply keeps_ret].
    destruct (subscriptions_retrieve env subscriptionId) as [m|subscription];
      [apply keeps_throw|].
    apply keeps_bind; [apply keeps_activatePlan|intros _].
    apply keeps_bind; [apply keeps_read|intros email].
    destruct email; [|apply keeps_ret]. intros w. apply R_mail.
  - destruct (str_or_null (metadata_user_id sub)) as [userId|];
      [|apply keeps_ret].
    destruct (str_or_null (metadata_plan sub)) as [plan|]; [|apply keeps_ret].
    apply keeps_bind; [apply keeps_toISOString|intros period].
    apply keeps_bind; [|intros _].
    { destruct (timestamptz_in period);
        [intros w; apply R_subscriptions|apply keeps_ret]. }
    apply keeps_when.
    apply keeps_bind; [|intros _].
    { intros w. apply R_profile. intros r. split; reflexivity. }
    apply keeps_bind; [apply keeps_read|intros email].
    destruct email; [|apply keeps_ret].
    apply keeps_when. intros w. apply R_mail.
  - destruct (str_or_null (metadata_user_id sub)) as [userId|];
      [|apply keeps_ret].
    apply keeps_bind; [|intros _].
    { intros w. apply R_profile. intros r. split; reflexivity. }
    apply keeps_bind; [intros w; apply R_subscriptions|intros _].
    apply keeps_bind; [apply keeps_read|intros email].
    destruct email; [|apply keeps_ret]. intros w. apply R_mail.
  - apply keeps_bind; [apply keeps_read|intros profile].
    destruct profile as [[id profile]|]; [|apply keeps_ret].
    apply keeps_bind; [intros w; apply R_subscriptions|intros _].
    apply keeps_when. intros w. apply R_mail.
  - apply keeps_ret.
Qed.

Lemma keeps_POST req w : R w (POST env req w).2.
Proof.
  unfold POST.
  destruct (str_or_null (header "stripe-signature" req)) as [sig|];
    [|apply R_refl].
  destruct (str_or_null (STRIPE_WEBHOOK_SECRET env)) as [secret|];
    [|apply R_refl].
  destruct (constructEvent env (body req) sig secret) as [m|ev]; [apply R_refl|].
  pose proof (keeps_handle ev w) as H.
  destruct (handle env ev w) as [[e|u] w']; exact H.
Qed.

End WebhookKeeps.

(** ** The Stripe webhook: what it writes and what it answers *)

Section WebhookFurther.
Import Schema JS StripeWebhook More.

Lemma people_kept_refl w : people_kept w w.
Proof. repeat split; auto. Qed.

Lemma people_kept_trans w1 w2 w3 :
  people_kept w1 w2 → people_kept w2 w3 → people_kept w1 w3.
Proof.
  intros (Hj & He & Hn & Hs) (Hj' & He' & Hn' & Hs').
  repeat split.
  - congruence.
  - intros id. rewrite He'. apply He.
  - intros id. rewrite Hn'. apply Hn.
  - intros id H. apply Hs', Hs, H.
Qed.

Lemma people_kept_profile now id set w :
  (∀ r, email (set r) = email r ∧ full_name (set r) = full_name r) →
  people_kept w {| db := update_profile now id set (db w); outbox := outbox w |}.
Proof.
  intros Hset. unfold people_kept, update_profile. cbn [db].
  destruct (profiles (db w) !! id) as [r|] eqn:Hr; [|repeat split; auto].
  destruct (plan_check (plan (touch_profile now (set r))));
    [|repeat split; auto].
  destruct (Hset r) as [He Hn].
  repeat split; cbn; auto.
  - intros id'. destruct (decide (id' = id)) as [->|Hne].
    + rewrite lookup_insert_eq, Hr. cbn. congruence.
    + rewrite lookup_insert_ne by congruence. reflexivity.
  - intros id'. destruct (decide (id' = id)) as [->|Hne].
    + rewrite lookup_insert_eq, Hr. cbn. congruence.
    + rewrite lookup_insert_ne by congruence. reflexivity.
Qed.

Lemma people_kept_subscriptions now col v set w :
  people_kept w
    {| db := update_subscriptions now col v set (db w); outbox := outbox w |}.
Proof.
  repeat split; cbn; auto.
  intros id [r Hr]. rewrite lookup_fmap, Hr. cbn. eauto.
Qed.

Lemma people_kept_upsert now id row w :
  people_kept w
    {| db := upsert_subscription now id row (db w); outbox := outbox w |}.
Proof.
  unfold people_kept, upsert_subscription. cbn [db].
  destruct (negb _); [repeat split; auto|].
  destruct (bool_decide (map_Exists _ _)).
  - repeat split; cbn; auto.
    intros id' [r Hr]. rewrite lookup_fmap, Hr. cbn. eauto.
  - destruct (bool_decide (is_Some _)); [repeat split; auto|].
    repeat split; cbn; auto.
    intros id' Hr. apply lookup_insert_is_Some.
    destruct (decide (id = id')); auto.
Qed.

Lemma sendBillingEmail_db env to subject html w :
  db (sendBillingEmail env to subject html w).2 = db w.
Proof. unfold sendBillingEmail. destruct (str_or_null _); reflexivity. Qed.

Lemma people_kept_mail env to subject html w :
  people_kept w (sendBillingEmail env to subject html w).2.
Proof.
  unfold people_kept. rewrite sendBillingEmail_db. repeat split; auto.
Qed.

Lemma plans_kept_profile now id set w :
  plans_kept w {| db := update_profile now id set (db w); outbox := outbox w |}.
Proof.
  unfold plans_kept, plans_valid, update_profile. cbn. intros H.
  destruct (profiles (db w) !! id) as [r|] eqn:Hr; [|exact H].
  destruct (plan_check _) eqn:Hp; [|exact H].
  cbn. apply map_Forall_insert_2; assumption.
Qed.

Lemma mail_kept_refl env w : mail_kept env w w.
Proof. exists []. rewrite app_nil_r. auto. Qed.

Lemma mail_kept_db env w d :
  mail_kept env w {| db := d; outbox := outbox w |}.
Proof. exists []. cbn. rewrite app_nil_r. auto. Qed.

Lemma mail_kept_trans env w1 w2 w3 :
  mail_kept env w1 w2 → mail_kept env w2 w3 → mail_kept env w1 w3.
Proof.
  intros (a & Ha & Hf & Hk) (a' & Ha' & Hf' & Hk').
  exists (a ++ a'). rewrite Ha', Ha, app_assoc. repeat split.
  - apply Forall_app; auto.
  - intros H. rewrite Hk, Hk'; auto.
Qed.

Lemma mail_kept_mail env to subject html w :
  mail_kept env w (sendBillingEmail env to subject html w).2.
Proof.
  unfold sendBillingEmail.
  destruct (RESEND_API_KEY env) as [key|] eqn:Hkey; cbn;
    [|apply mail_kept_refl].
  case_bool_decide as Hempty; [apply mail_kept_refl|].
  eexists. cbn. split; [reflexivity|]. split.
  - repeat constructor.
  - unfold falsy. rewrite Hkey. intros H.
    apply bool_decide_eq_true in H. contradiction.
Qed.

(** X23: whatever request the webhook route is sent, it leaves the
    book jobs as they were, keeps every profile with its e-mail
    address and its name and adds none, and removes no subscription
    row. *)
Theorem webhook_keeps_people env req w :
  people_kept w (POST env req w).2.
Proof.
  apply keeps_POST.
  - apply people_kept_refl.
  - apply people_kept_trans.
  - apply people_kept_profile.
  - apply people_kept_subscriptions.
  - apply people_kept_upsert.
  - apply people_kept_mail.
Qed.

(** X24: the webhook route keeps the CHECK constraint on the plan of
    the profiles: when every profile has no plan or one of starter,
    pro and enterprise before a request, so it is after it. *)
Theorem webhook_keeps_plans env req w :
  plans_valid (db w) → plans_valid (db (POST env req w).2).
Proof.
  apply (keeps_POST env plans_kept).
  - intros w1 H. exact H.
  - intros w1 w2 w3 H1 H2 H. apply H2, H1, H.
  - intros now id set w1 _. apply plans_kept_profile.
  - intros now col v set w1 H. exact H.
  - intros now id row w1 H.
    unfold plans_valid, upsert_subscription in *. cbn.
    destruct (negb _); [exact H|].
    destruct (bool_decide (map_Exists _ _)); [exact H|].
    destruct (bool_decide (is_Some _)); exact H.
  - intros to subject html w1 H.
    unfold plans_valid. rewrite sendBillingEmail_db. exact H.
Qed.

Lemma webhook_keeps_plans_witness :
  plans_valid (db Samples.hook_world)
  ∧ plans_valid
      (db (POST (Samples.hook_env (Some "whsec")) signed Samples.hook_world).2).
Proof.
  assert (plans_valid (db Samples.hook_world)) as H.
  { unfold plans_valid.
    refine (bool_decide_unpack _ _). vm_compute. exact I. }
  split; [exact H|].
  apply (webhook_keeps_plans (Samples.hook_env (Some "whsec")) signed
           Samples.hook_world H).
Defined.

(** X25: whatever request the webhook route is sent, the mail sent
    before stays in place, every mail the request adds comes from
    [RESEND_FROM_EMAIL] (or the onboarding address when it is unset
    or empty), and no mail is added when [RESEND_API_KEY] is unset or
    empty. *)
Theorem webhook_mail env req w :
  mail_kept env w (POST env req w).2.
Proof.
  apply keeps_POST.
  - apply mail_kept_refl.
  - apply mail_kept_trans.
  - intros. apply mail_kept_db.
  - intros. apply mail_kept_db.
  - intros. apply mail_kept_db.
  - apply mail_kept_mail.
Qed.

Lemma POST_delivers env req ev w :
  delivers env req ev →
  POST env req w
  = match handle env ev w with
    | (inl _, w') => (json_error "Handler failed" 500, w')
    | (inr _, w') =>
        ({| status_code := 200;
            reply_body := JObj [("received", JBool true)] |}, w')
    end.
Proof.
  intros (sig & secret & Hsig & Hsec & Hev).
  unfold POST. rewrite Hsig, Hsec, Hev. reflexivity.
Qed.

Lemma update_profile_stored now id set d r :
  profiles d !! id = Some r →
  plan_check (plan (set r)) = true →
  update_profile now id set d
  = with_profiles d (<[id := touch_profile now (set r)]> (profiles d)).
Proof.
  intros Hr Hp. unfold update_profile. rewrite Hr. cbn. rewrite Hp.
  reflexivity.
Qed.

Lemma update_profile_rejected now id set d r :
  profiles d !! id = Some r →
  plan_check (plan (set r)) = false →
  update_profile now id set d = d.
Proof.
  intros Hr Hp. unfold update_profile. rewrite Hr. cbn. rewrite Hp.
  reflexivity.
Qed.

Lemma upsert_subscription_stored now id row d :
  is_Some (profiles d !! sub_user_id row) →
  subscriptions d !! id = None →
  profiles (upsert_subscription now id row d) = profiles d
  ∧ ∃ key, subscriptions (upsert_subscription now id row d) !! key
           = Some (touch_subscription now row).
Proof.
  intros Hfk Hfree. unfold upsert_subscription.
  rewrite (bool_decide_eq_true_2 _ Hfk). cbn [negb].
  case_bool_decide as Hex.
  - split; [reflexivity|].
    destruct Hex as (key & r & Hr & Hsame). exists key. cbn.
    rewrite lookup_fmap, Hr. cbn. rewrite Hsame. reflexivity.
  - rewrite bool_decide_eq_false_2
      by (rewrite Hfree; apply is_Some_None).
    split; [reflexivity|]. exists id. cbn. apply lookup_insert_eq.
Qed.

Lemma PLAN_CREDITS_check plan credits :
  PLAN_CREDITS plan = Some credits → plan_check (Some plan) = true.
Proof.
  unfold PLAN_CREDITS, plan_check. intros H. apply bool_decide_eq_true.
  rewrite !elem_of_cons.
  repeat case_bool_decide; auto. discriminate.
Qed.

Lemma PLAN_CREDITS_unknown plan :
  PLAN_CREDITS plan = None → plan_check (Some plan) = false.
Proof.
  unfold PLAN_CREDITS, plan_check. intros H. apply bool_decide_eq_false.
  rewrite !elem_of_cons, elem_of_nil.
  repeat case_bool_decide; try discriminate. tauto.
Qed.

Lemma toISOString_in_range ms w :
  (-8640000000000000 ≤ ms ≤ 8640000000000000)%Z →
  toISOString ms w = (inr (IsoString ms), w).
Proof.
  intros [Hlo Hhi]. unfold toISOString.
  apply Z.leb_le in Hlo, Hhi. rewrite Hlo, Hhi. reflexivity.
Qed.

(** The database reads the text of an instant of the years 0001 to
    9999, and of no other instant. *)
Lemma timestamptz_in_read ms :
  (-62135596800000 ≤ ms ≤ 253402300799999)%Z →
  timestamptz_in (IsoString ms) = Some ms.
Proof.
  intros [Hlo Hhi]. unfold timestamptz_in. cbn [instant].
  apply Z.leb_le in Hlo, Hhi. rewrite Hlo, Hhi. reflexivity.
Qed.

Lemma timestamptz_in_refused ms :
  ¬ (-62135596800000 ≤ ms ≤ 253402300799999)%Z →
  timestamptz_in (IsoString ms) = None.
Proof.
  intros H. unfold timestamptz_in. cbn [instant].
  destruct (_ && _) eqn:E; [|reflexivity].
  apply andb_true_iff in E as [Hlo Hhi]. apply Z.leb_le in Hlo, Hhi. lia.
Qed.

(** The mail at the end of a handler leaves the database alone. *)
Lemma mail_tail_db env userId subject html w :
  (bind (getProfileEmailByUserId userId)
        (λ email, match email with
                  | Some email => sendBillingEmail env email subject html
                  | None => ret ()
                  end) w).1 = inr ()
  ∧ db (bind (getProfileEmailByUserId userId)
          (λ email, match email with
                    | Some email => sendBillingEmail env email subject html
                    | None => ret ()
                    end) w).2 = db w.
Proof.
  unfold bind, getProfileEmailByUserId, read. cbn.
  destruct (str_or_null _); cbn; [|auto].
  unfold sendBillingEmail. destruct (str_or_null _); auto.
Qed.

(** What a completed checkout that passes the guards writes, when the
    period end of the subscription is within the range of [Date]: the
    profile, and then the subscription row when the database reads the
    text of the period end. *)
Lemma handle_checkout env session sub userId plan subscriptionId customer w :
  str_or_null (session_user_id session) = Some userId →
  str_or_null (session_plan session) = Some plan →
  str_or_null (session_subscription session) = Some subscriptionId →
  str_or_null (session_customer session) = Some customer →
  subscriptions_retrieve env subscriptionId = inr sub →
  (-8640000000000000 ≤ period_end_unix env sub * 1000 ≤ 8640000000000000)%Z →
  let d1 :=
    update_profile (db_now env) userId
      (λ r, {| email := email r; full_name := full_name r;
               plan := Some plan;
               credits_remaining := Some (default 1%Z (PLAN_CREDITS plan));
               stripe_customer_id := Some customer;
               profile_updated_at := profile_updated_at r |})
      (db w) in
  ∃ w',
    handle env (CheckoutSessionCompleted session) w = (inr (), w')
    ∧ db w'
      = match timestamptz_in (IsoString (period_end_unix env sub * 1000)) with
        | Some period_end =>
            upsert_subscription (db_now env) (random_uuid env)
              {| sub_user_id := userId;
                 stripe_subscription_id := Some (subscription_id sub);
                 sub_stripe_customer_id := Some customer;
                 sub_plan := plan; sub_status := "active";
                 current_period_end := Some period_end;
                 cancel_at_period_end := Some false;
                 sub_updated_at := db_now env |}
              d1
        | None => d1
        end.
Proof.
  intros Hu Hp Hs Hc Hsub Hrange d1.
  cbn [handle]. rewrite Hu, Hp, Hs, Hc, Hsub.
  unfold bind at 1. unfold activatePlan.
  unfold bind at 1. unfold bind at 1. unfold write at 1. cbn [fst snd].
  rewrite (toISOString_in_range _ _ Hrange). fold d1.
  destruct (timestamptz_in (IsoString (period_end_unix env sub * 1000)))
    as [period_end|];
    [unfold write|unfold ret at 1]; cbn [db outbox];
    (match goal with
     | |- context [bind ?m ?k ?w0] =>
         destruct (mail_tail_db env userId
                     ("BOOKFORGE " +:+ plan +:+ " plan activated")
                     ("<p>Your <strong>" +:+ plan
                        +:+ "</strong> plan is now active.</p>
             <p>You can manage billing anytime in Settings.</p>") w0)
           as [Hok Hdb];
           destruct (bind m k w0) as [[e|[]] w3]
     end; cbn in Hok, Hdb; [discriminate|];
     exists w3; split; [reflexivity|]; exact Hdb).
Qed.

(** X26: a signed [checkout.session.completed] event that names a
    user, one of the three plans, a customer and a subscription Stripe
    knows, whose period ends in the years 0001 to 9999, is answered
    with status 200; it leaves the user's profile on that plan with
    the plan's credits (1, 5 or 20) and the customer id, leaves every
    other profile as it was, and leaves a subscription row that is
    active on that plan for that user. *)
Theorem checkout_activates_plan env req w session sub userId plan
    subscriptionId customer credits r :
  delivers env req (CheckoutSessionCompleted session) →
  str_or_null (session_user_id session) = Some userId →
  str_or_null (session_plan session) = Some plan →
  str_or_null (session_subscription session) = Some subscriptionId →
  str_or_null (session_customer session) = Some customer →
  subscriptions_retrieve env subscriptionId = inr sub →
  PLAN_CREDITS plan = Some credits →
  (-62135596800000 ≤ period_end_unix env sub * 1000 ≤ 253402300799999)%Z →
  profiles (db w) !! userId = Some r →
  subscriptions (db w) !! random_uuid env = None →
  status_code (POST env req w).1 = 200%Z
  ∧ profiles (db (POST env req w).2) !! userId
    = Some {| email := email r; full_name := full_name r;
              plan := Some plan; credits_remaining := Some credits;
              stripe_customer_id := Some customer;
              profile_updated_at := db_now env |}
  ∧ (∀ id, id ≠ userId →
       profiles (db (POST env req w).2) !! id = profiles (db w) !! id)
  ∧ ∃ key,
      subscriptions (db (POST env req w).2) !! key
      = Some {| sub_user_id := userId;
                stripe_subscription_id := Some (subscription_id sub);
                sub_stripe_customer_id := Some customer;
                sub_plan := plan; sub_status := "active";
                current_period_end := Some (period_end_unix env sub * 1000)%Z;
                cancel_at_period_end := Some false;
                sub_updated_at := db_now env |}.
Proof.
  intros Hdel Hu Hp Hs Hc Hsub Hcredits Hrange Hr Hfree.
  rewrite (POST_delivers _ _ _ _ Hdel).
  destruct (handle_checkout env session sub userId plan subscriptionId
              customer w Hu Hp Hs Hc Hsub ltac:(lia)) as (w' & Hh & Hdb).
  rewrite Hh. cbn [fst snd status_code]. rewrite Hdb.
  rewrite (timestamptz_in_read _ Hrange). rewrite Hcredits. cbn [default].
  rewrite (update_profile_stored _ _ _ _ r Hr)
    by (cbn; eapply PLAN_CREDITS_check, Hcredits).
  match goal with
  | |- context [upsert_subscription ?now ?id ?row ?d] =>
      destruct (upsert_subscription_stored now id row d) as [Hprof [key Hkey]];
        [cbn; rewrite lookup_insert_eq; eauto|exact Hfree|]
  end.
  split; [reflexivity|]. rewrite Hprof. cbn.
  split; [apply lookup_insert_eq|].
  split; [intros id Hne; apply lookup_insert_ne; congruence|].
  exists key. exact Hkey.
Qed.

Lemma checkout_activates_plan_witness :
  let out := POST (stripe_env None (bob_checkout "pro")) signed
                  Samples.hook_world in
  status_code out.1 = 200%Z
  ∧ profiles (db out.2) !! "bob"
    = Some {| email := "bob@example.com"; full_name := None;
              plan := Some "pro"; credits_remaining := Some 5%Z;
              stripe_customer_id := Some "cus_1";
              profile_updated_at := 1790000000000%Z |}
  ∧ (∀ id, id ≠ "bob" →
       profiles (db out.2) !! id = profiles (db Samples.hook_world) !! id)
  ∧ ∃ key,
      subscriptions (db out.2) !! key
      = Some {| sub_user_id := "bob";
                stripe_subscription_id := Some "sub_1";
                sub_stripe_customer_id := Some "cus_1";
                sub_plan := "pro"; sub_status := "active";
                current_period_end := Some 1800000000000%Z;
                cancel_at_period_end := Some false;
                sub_updated_at := 1790000000000%Z |}.
Proof.
  apply (checkout_activates_plan (stripe_env None (bob_checkout "pro"))
           signed Samples.hook_world
           (bob_session "pro" "sub_1")
           sub_1 "bob" "pro" "sub_1" "cus_1" 5%Z
           (Samples.a_profile "bob@example.com" "starter" 1)).
  - exists "v1=whsec", "whsec". repeat split.
  - reflexivity.
  - reflexivity.
  - reflexivity.
  - reflexivity.
  - reflexivity.
  - reflexivity.
  - vm_compute. split; discriminate.
  - vm_compute. reflexivity.
  - vm_compute. reflexivity.
Defined.

(** X27: a signed [checkout.session.completed] event whose plan is
    none of starter, pro and enterprise, for a subscription whose
    period ends in the years 0001 to 9999, is answered with status 200
    all the same: the CHECK constraint on [profiles.plan] rejects the
    update of the profile, which stays as it was, while the
    subscription row is written with that plan and status active. *)
Theorem checkout_unknown_plan env req w session sub userId plan
    subscriptionId customer r :
  delivers env req (CheckoutSessionCompleted session) →
  str_or_null (session_user_id session) = Some userId →
  str_or_null (session_plan session) = Some plan →
  str_or_null (session_subscription session) = Some subscriptionId →
  str_or_null (session_customer session) = Some customer →
  subscriptions_retrieve env subscriptionId = inr sub →
  PLAN_CREDITS plan = None →
  (-62135596800000 ≤ period_end_unix env sub * 1000 ≤ 253402300799999)%Z →
  profiles (db w) !! userId = Some r →
  subscriptions (db w) !! random_uuid env = None →
  status_code (POST env req w).1 = 200%Z
  ∧ profiles (db (POST env req w).2) = profiles (db w)
  ∧ ∃ key row,
      subscriptions (db (POST env req w).2) !! key = Some row
      ∧ sub_user_id row = userId
      ∧ sub_plan row = plan
      ∧ sub_status row = "active".
Proof.
  intros Hdel Hu Hp Hs Hc Hsub Hcredits Hrange Hr Hfree.
  rewrite (POST_delivers _ _ _ _ Hdel).
  destruct (handle_checkout env session sub userId plan subscriptionId
              customer w Hu Hp Hs Hc Hsub ltac:(lia)) as (w' & Hh & Hdb).
  rewrite Hh. cbn [fst snd status_code]. rewrite Hdb.
  rewrite (timestamptz_in_read _ Hrange).
  rewrite (update_profile_rejected _ _ _ _ r Hr)
    by (cbn; apply PLAN_CREDITS_unknown, Hcredits).
  match goal with
  | |- context [upsert_subscription ?now ?id ?row ?d] =>
      destruct (upsert_subscription_stored now id row d) as [Hprof [key Hkey]];
        [exists r; exact Hr|exact Hfree|]
  end.
  split; [reflexivity|]. split; [exact Hprof|].
  eexists key, _. split; [exact Hkey|]. repeat split.
Qed.

Lemma checkout_unknown_plan_witness :
  let out := POST (stripe_env None (bob_checkout "team")) signed
                  Samples.hook_world in
  status_code out.1 = 200%Z
  ∧ profiles (db out.2) = profiles (db Samples.hook_world)
  ∧ ∃ key row,
      subscriptions (db out.2) !! key = Some row
      ∧ sub_user_id row = "bob" ∧ sub_plan row = "team"
      ∧ sub_status row = "active".
Proof.
  apply (checkout_unknown_plan (stripe_env None (bob_checkout "team"))
           signed Samples.hook_world
           (bob_session "team" "sub_1")
           sub_1 "bob" "team" "sub_1" "cus_1"
           (Samples.a_profile "bob@example.com" "starter" 1)).
  - exists "v1=whsec", "whsec". repeat split.
  - reflexivity.
  - reflexivity.
  - reflexivity.
  - reflexivity.
  - reflexivity.
  - reflexivity.
  - vm_compute. split; discriminate.
  - vm_compute. reflexivity.
  - vm_compute. reflexivity.
Defined.

Lemma str_or_null_falsy x : falsy x = true → str_or_null x = None.
Proof.
  destruct x as [s|]; cbn; [|reflexivity].
  intros H. rewrite H. reflexivity.
Qed.

Lemma str_or_null_truthy x : falsy x = false → ∃ s, str_or_null x = Some s.
Proof.
  destruct x as [s|]; cbn; [|discriminate].
  intros H. rewrite H. eauto.
Qed.

(** X28: a signed event the handler has nothing to do for (a type it
    does not list, metadata or ids that are missing or empty, a
    failed payment of a customer that is not the customer of exactly
    one profile) is answered with status 200 and [received: true],
    and leaves the database and the mail sent as they were. *)
Theorem webhook_ignores env req ev w :
  delivers env req ev →
  nothing_to_do ev (db w) →
  POST env req w
  = ({| status_code := 200; reply_body := JObj [("received", JBool true)] |},
     w).
Proof.
  intros Hdel Hev. rewrite (POST_delivers _ _ _ _ Hdel).
  assert (handle env ev w = (inr (), w)) as ->; [|reflexivity].
  destruct ev as [session|sub|sub|inv|type]; cbn [handle nothing_to_do] in *.
  - destruct (falsy (session_user_id session)) eqn:Hu.
    { rewrite (str_or_null_falsy _ Hu). reflexivity. }
    destruct (str_or_null_truthy _ Hu) as [userId ->].
    destruct (falsy (session_plan session)) eqn:Hp.
    { rewrite (str_or_null_falsy _ Hp). reflexivity. }
    destruct (str_or_null_truthy _ Hp) as [plan ->].
    destruct (falsy (session_subscription session)) eqn:Hs.
    { rewrite (str_or_null_falsy _ Hs). reflexivity. }
    destruct (str_or_null_truthy _ Hs) as [subscriptionId ->].
    cbn in Hev. rewrite (str_or_null_falsy _ Hev). reflexivity.
  - destruct (falsy (metadata_user_id sub)) eqn:Hu.
    { rewrite (str_or_null_falsy _ Hu). reflexivity. }
    destruct (str_or_null_truthy _ Hu) as [userId ->].
    cbn in Hev. rewrite (str_or_null_falsy _ Hev). reflexivity.
  - rewrite (str_or_null_falsy _ Hev). reflexivity.
  - unfold bind, getProfileByCustomerId, read. cbn [fst snd].
    destruct (map_to_list _) as [|kr [|kr' rest]]; try reflexivity.
    cbn in Hev. congruence.
  - reflexivity.
Qed.

Lemma webhook_ignores_witness :
  POST (stripe_env (Some "re_key") (OtherEvent "invoice.paid")) signed
       Samples.hook_world
  = ({| status_code := 200; reply_body := JObj [("received", JBool true)] |},
     Samples.hook_world)
  ∧ POST (stripe_env (Some "re_key")
            (InvoicePaymentFailed {| invoice_customer := "cus_9" |})) signed
         Samples.hook_world
    = ({| status_code := 200;
          reply_body := JObj [("received", JBool true)] |},
       Samples.hook_world).
Proof.
  split.
  - apply (webhook_ignores _ _ (OtherEvent "invoice.paid")).
    + exists "v1=whsec", "whsec". repeat split.
    + exact I.
  - apply (webhook_ignores _ _
             (InvoicePaymentFailed {| invoice_customer := "cus_9" |})).
    + exists "v1=whsec", "whsec". repeat split.
    + vm_compute. discriminate.
Defined.

(** X29: a signed [checkout.session.completed] event whose
    subscription Stripe cannot retrieve is answered with status 500
    and the error "Handler failed"; nothing is written and no mail is
    sent. *)
Theorem checkout_retrieve_fails env req w session userId plan
    subscriptionId customer message :
  delivers env req (CheckoutSessionCompleted session) →
  str_or_null (session_user_id session) = Some userId →
  str_or_null (session_plan session) = Some plan →
  str_or_null (session_subscription session) = Some subscriptionId →
  str_or_null (session_customer session) = Some customer →
  subscriptions_retrieve env subscriptionId = inl message →
  POST env req w = (json_error "Handler failed" 500, w).
Proof.
  intros Hdel Hu Hp Hs Hc Hsub.
  rewrite (POST_delivers _ _ _ _ Hdel). cbn [handle].
  rewrite Hu, Hp, Hs, Hc, Hsub. reflexivity.
Qed.

Lemma checkout_retrieve_fails_witness :
  POST (stripe_env (Some "re_key")
          (CheckoutSessionCompleted (bob_session "pro" "sub_404")))
       signed Samples.hook_world
  = (json_error "Handler failed" 500, Samples.hook_world).
Proof.
  apply (checkout_retrieve_fails _ _ _ (bob_session "pro" "sub_404")
           "bob" "pro" "sub_404" "cus_1" "No such subscription").
  - exists "v1=whsec", "whsec". repeat split.
  - reflexivity.
  - reflexivity.
  - reflexivity.
  - reflexivity.
  - reflexivity.
Defined.

(** X30: the writes of a checkout are not undone when the handler
    fails after them: when the period end of the subscription is
    outside the range of [Date], [toISOString] throws after the
    profile has been updated, so the request is answered with status
    500 while the profile is left on the new plan with its credits;
    no subscription row is written and no mail is sent. *)
Theorem checkout_fails_after_profile_update env req w session sub userId plan
    subscriptionId customer credits r :
  delivers env req (CheckoutSessionCompleted session) →
  str_or_null (session_user_id session) = Some userId →
  str_or_null (session_plan session) = Some plan →
  str_or_null (session_subscription session) = Some subscriptionId →
  str_or_null (session_customer session) = Some customer →
  subscriptions_retrieve env subscriptionId = inr sub →
  PLAN_CREDITS plan = Some credits →
  ¬ (-8640000000000000 ≤ period_end_unix env sub * 1000 ≤ 8640000000000000)%Z →
  profiles (db w) !! userId = Some r →
  status_code (POST env req w).1 = 500%Z
  ∧ profiles (db (POST env req w).2) !! userId
    = Some {| email := email r; full_name := full_name r;
              plan := Some plan; credits_remaining := Some credits;
              stripe_customer_id := Some customer;
              profile_updated_at := db_now env |}
  ∧ subscriptions (db (POST env req w).2) = subscriptions (db w)
  ∧ outbox (POST env req w).2 = outbox w.
Proof.
  intros Hdel Hu Hp Hs Hc Hsub Hcredits Hrange Hr.
  rewrite (POST_delivers _ _ _ _ Hdel). cbn [handle].
  rewrite Hu, Hp, Hs, Hc, Hsub.
  unfold bind, activatePlan, bind, write, toISOString.
  assert ((-8640000000000000 <=? period_end_unix env sub * 1000)%Z
          && (period_end_unix env sub * 1000 <=? 8640000000000000)%Z = false)
    as ->.
  { apply andb_false_iff. rewrite !Z.leb_gt. lia. }
  unfold throw. cbn [fst snd status_code json_error db outbox].
  rewrite Hcredits. cbn [default].
  rewrite (update_profile_stored _ _ _ _ r Hr)
    by (cbn; eapply PLAN_CREDITS_check, Hcredits).
  cbn. rewrite lookup_insert_eq. auto.
Qed.

Lemma checkout_fails_after_profile_update_witness :
  let out := POST (stripe_env (Some "re_key")
                     (CheckoutSessionCompleted (bob_session "pro" "sub_2")))
                  signed Samples.hook_world in
  status_code out.1 = 500%Z
  ∧ profiles (db out.2) !! "bob"
    = Some {| email := "bob@example.com"; full_name := None;
              plan := Some "pro"; credits_remaining := Some 5%Z;
              stripe_customer_id := Some "cus_1";
              profile_updated_at := 1790000000000%Z |}
  ∧ subscriptions (db out.2) = subscriptions (db Samples.hook_world)
  ∧ outbox out.2 = outbox Samples.hook_world.
Proof.
  apply (checkout_fails_after_profile_update
           (stripe_env (Some "re_key")
              (CheckoutSessionCompleted (bob_session "pro" "sub_2")))
           signed Samples.hook_world
           (bob_session "pro" "sub_2") sub_2 "bob" "pro" "sub_2" "cus_1" 5%Z
           (Samples.a_profile "bob@example.com" "starter" 1)).
  - exists "v1=whsec", "whsec". repeat split.
  - reflexivity.
  - reflexivity.
  - reflexivity.
  - reflexivity.
  - reflexivity.
  - reflexivity.
  - vm_compute. intros [_ H]. apply H. reflexivity.
  - vm_compute. reflexivity.
Defined.

(** X31: a checkout whose period end the database cannot read.  When
    the period end of the subscription is within the range of [Date]
    but outside the years 0001 to 9999, the database refuses the text
    [toISOString] gives and with it the upsert, whose error the handler
    does not look at: the request is answered with status 200 and the
    profile is left on the new plan with its credits, while the
    subscriptions are left as they were. *)
Theorem checkout_period_text_refused env req w session sub userId plan
    subscriptionId customer credits r :
  delivers env req (CheckoutSessionCompleted session) →
  str_or_null (session_user_id session) = Some userId →
  str_or_null (session_plan session) = Some plan →
  str_or_null (session_subscription session) = Some subscriptionId →
  str_or_null (session_customer session) = Some customer →
  subscriptions_retrieve env subscriptionId = inr sub →
  PLAN_CREDITS plan = Some credits →
  (-8640000000000000 ≤ period_end_unix env sub * 1000 ≤ 8640000000000000)%Z →
  ¬ (-62135596800000 ≤ period_end_unix env sub * 1000 ≤ 253402300799999)%Z →
  profiles (db w) !! userId = Some r →
  status_code (POST env req w).1 = 200%Z
  ∧ profiles (db (POST env req w).2) !! userId
    = Some {| email := email r; full_name := full_name r;
              plan := Some plan; credits_remaining := Some credits;
              stripe_customer_id := Some customer;
              profile_updated_at := db_now env |}
  ∧ subscriptions (db (POST env req w).2) = subscriptions (db w).
Proof.
  intros Hdel Hu Hp Hs Hc Hsub Hcredits Hrange Hyears Hr.
  rewrite (POST_delivers _ _ _ _ Hdel).
  destruct (handle_checkout env session sub userId plan subscriptionId
              customer w Hu Hp Hs Hc Hsub Hrange) as (w' & Hh & Hdb).
  rewrite Hh. cbn [fst snd status_code]. rewrite Hdb.
  rewrite (timestamptz_in_refused _ Hyears). rewrite Hcredits. cbn [default].
  rewrite (update_profile_stored _ _ _ _ r Hr)
    by (cbn; eapply PLAN_CREDITS_check, Hcredits).
  cbn. rewrite lookup_insert_eq. auto.
Qed.

Lemma checkout_period_text_refused_witness :
  let out := POST (stripe_env None
                     (CheckoutSessionCompleted (bob_session "pro" "sub_3")))
                  signed Samples.hook_world in
  status_code out.1 = 200%Z
  ∧ profiles (db out.2) !! "bob"
    = Some {| email := "bob@example.com"; full_name := None;
              plan := Some "pro"; credits_remaining := Some 5%Z;
              stripe_customer_id := Some "cus_1";
              profile_updated_at := 1790000000000%Z |}
  ∧ subscriptions (db out.2) = subscriptions (db Samples.hook_world).
Proof.
  apply (checkout_period_text_refused
           (stripe_env None
              (CheckoutSessionCompleted (bob_session "pro" "sub_3")))
           signed Samples.hook_world
           (bob_session "pro" "sub_3") sub_3 "bob" "pro" "sub_3" "cus_1" 5%Z
           (Samples.a_profile "bob@example.com" "starter" 1)).
  - exists "v1=whsec", "whsec". repeat split.
  - reflexivity.
  - reflexivity.
  - reflexivity.
  - reflexivity.
  - reflexivity.
  - reflexivity.
  - vm_compute. split; discriminate.
  - vm_compute. intros [_ H]. apply H. reflexivity.
  - vm_compute. reflexivity.
Defined.

End WebhookFurther.
